(** * SWES stress-propagation engine: a shallow embedding and its properties

    The Python sources embedded here are [agents/base.py], [agents/bank.py],
    [agents/hedge_fund.py], [agents/ldi_pension.py], [agents/insurer.py],
    [agents/oef_mmf.py], [market.py], [network.py], [engine/feedback.py],
    [engine/simulation.py] and the constants of [config.py].

    Conventions of the embedding.
    - A Python [float] is an exact rational ([Q]); [+ - * /], [max], [min] and
      [abs] are the exact operations.  Equalities between computed amounts are
      therefore stated with [==] (equality of rationals).
    - A [dict] is an association list in insertion order; [dict_set] overwrites
      an existing key in place and appends a new one, as Python does.
    - A method that mutates [self] is a function returning the new object
      (with the returned value, when there is one).  A loop [for a in agents]
      that mutates the agents in place is a fold over list positions that
      writes each agent back into the shared list.
    - A Python exception is [None] (or [Raised] where the state left behind
      matters). *)

From Stdlib Require Import QArith Qminmax Qabs Lqa Lia List String Bool ZArith.
Import ListNotations.
Open Scope Q_scope.
Open Scope string_scope.

Set Implicit Arguments.

(** ** Numbers *)

(** [a > b] and [a <= b] on floats, as booleans. *)
Definition Qgtb (a b : Q) : bool := negb (Qle_bool a b).
Definition Qleb (a b : Q) : bool := Qle_bool a b.
Definition Qltb (a b : Q) : bool := negb (Qle_bool b a).
Definition Qgeb (a b : Q) : bool := Qle_bool b a.

(** Python's [sum(xs)]: a left fold from [0]. *)
Definition Qsum (xs : list Q) : Q := fold_left Qplus xs 0.

(** [len(xs)] as a float. *)
Definition Qlen {A : Type} (xs : list A) : Q := inject_Z (Z.of_nat (List.length xs)).

(** ** Strings *)

(** [sub in s]. *)
Definition str_in (sub s : string) : bool :=
  match index 0 sub s with Some _ => true | None => false end.

(** [s.startswith(p)]. *)
Definition startswith (s p : string) : bool := prefix p s.

(** ** Dictionaries *)

Section Dict.
Variable V : Type.

Definition dict := list (string * V).

Fixpoint dict_get (d : dict) (k : string) : option V :=
    match d with
    | [] => None
    | (k', v) :: d' => if String.eqb k' k then Some v else dict_get d' k
    end.

Definition dict_get_default (d : dict) (k : string) (dflt : V) : V :=
    match dict_get d k with Some v => v | None => dflt end.

Fixpoint dict_set (d : dict) (k : string) (v : V) : dict :=
    match d with
    | [] => [(k, v)]
    | (k', v') :: d' =>
        if String.eqb k' k then (k', v) :: d' else (k', v') :: dict_set d' k v
    end.

Definition dict_values (d : dict) : list V := map snd d.
Definition dict_keys (d : dict) : list string := map fst d.
End Dict.

Arguments dict_get {V} d k.
Arguments dict_get_default {V} d k dflt.
Arguments dict_set {V} d k v.
Arguments dict_values {V} d.
Arguments dict_keys {V} d.

(** ** config.py *)

Module Config.
  (** [REACTION_PARAMS]: each sale entry is
      [(shortfall_alloc_pct, holding_cap_pct)]. *)
Definition bank_sell_gilt : Q * Q := (0.10, 0.20).
Definition bank_sell_corp : Q * Q := (0.08, 0.02).

Definition ldi_repo_ask_pct : Q := 0.85.
Definition ldi_sell_gilt : Q * Q := (0.15, 0.15).
Definition ldi_sell_il_gilt : Q * Q := (0.08, 0.02).
Definition ldi_sell_corp : Q * Q := (0.05, 0.015).

Definition hf_repo_ask_pct : Q := 0.85.
Definition hf_sell_gilt : Q * Q := (0.10, 0.10).
Definition hf_sell_corp : Q * Q := (0.10, 0.025).
Definition hf_sell_equity : Q * Q := (0.10, 0.025).
Definition hf_sell_basis_unwind : Q * Q := (0.10, 0.04).
Definition hf_multi_strategy : Q * Q := (0.05, 0.03).

Definition insurer_repo_ask_pct : Q := 0.80.
Definition insurer_sell_gilt : Q * Q := (0.15, 0.10).
Definition insurer_sell_corp : Q * Q := (0.08, 0.02).
Definition insurer_sell_equity : Q * Q := (0.05, 0.025).

Definition oef_sell_gilt : Q * Q := (0.10, 0.20).
Definition oef_sell_corp : Q * Q := (0.08, 0.02).

  (** [BUFFER_PARAMS]. *)
Definition bank_boe_eligible_mult : Q := 0.15.
Definition bank_cet1_mult : Q := 0.08.
Definition bank_wholesale_funding_runoff_mult : Q := 0.10.
Definition bank_floor_pct_of_bs : Q := 0.002.

Definition ldi_cash_mult : Q := 1.0.
Definition ldi_unencumbered_collateral_mult : Q := 0.3.
Definition ldi_floor_pct_of_aum : Q := 0.005.

Definition hf_cash_mult : Q := 1.0.
Definition hf_floor_pct_of_aum : Q := 0.005.

Definition insurer_cash_mult : Q := 0.5.
Definition insurer_committed_repo_mult : Q := 0.2.
Definition insurer_rcf_mult : Q := 0.2.
Definition insurer_floor_pct_of_assets : Q := 0.002.

Definition oef_cash_mult : Q := 0.5.
Definition oef_floor_pct_of_aum : Q := 0.01.

  (** [FEEDBACK_PARAMS]. *)
Definition bank_counterparty_loss_coeff : Q := 0.005.
Definition bank_repo_refusal_stress_threshold : Q := 0.266353.
End Config.

(** ** market.py *)

Record MarketState := mkMarket {
  gilt_10y_yield_chg_bps : Q;
  gilt_30y_yield_chg_bps : Q;
  il_gilt_yield_chg_bps : Q;
  ust_10y_yield_chg_bps : Q;
  ig_corp_spread_chg_bps : Q;
  hy_corp_spread_chg_bps : Q;
  equity_chg_pct : Q;
  sonia_swap_chg_bps : Q;
  fx_gbpusd_chg_pct : Q;
  repo_haircut_gilt_chg_pct : Q;
  repo_haircut_corp_chg_pct : Q;
  bond_futures_basis_chg_bps : Q;
  vix_level : Q;
  gilt_bid_ask_spread_bps : Q;
  corp_bid_ask_spread_bps : Q;
  repo_market_availability_pct : Q;
  market_depth_gilt_mm : Q;
  market_depth_corp_mm : Q;
  endogenous_gilt_selling_mm : Q;
  endogenous_corp_selling_mm : Q;
  endogenous_repo_demand_mm : Q;
  endogenous_gilt_yield_add_bps : Q;
  endogenous_ig_spread_add_bps : Q;
  endogenous_equity_add_pct : Q;
  day : nat
}.

(** What a call leaves behind: the object after a normal return, or the
    object as it stands when the exception leaves the method. *)
Inductive outcome (S : Type) : Type :=
| Returned (s : S)
| Raised (s : S).

Arguments Returned {S} s.
Arguments Raised {S} s.

Definition outcome_state {S : Type} (o : outcome S) : S :=
  match o with Returned s => s | Raised s => s end.

Definition returned {S : Type} (o : outcome S) : option S :=
  match o with Returned s => Some s | Raised _ => None end.

Module Market.

  (** [MarketState.__init__]. *)
Definition init : MarketState :=
    mkMarket 0 0 0 0 0 0 0 0 0 0 0 0 15.0
             2.0 5.0 1.0 5000.0 2000.0
             0 0 0
             0 0 0
             0%nat.

  (** [apply_exogenous_scenario]. *)
Definition apply_exogenous_scenario (m : MarketState) (day_values : dict Q)
    : MarketState :=
    let vix := dict_get_default day_values "vix" 15.0 in
    let stress_intensity := vix / 15.0 in
    mkMarket
      (dict_get_default day_values "gilt_10y_yield" 0.0)
      (dict_get_default day_values "gilt_30y_yield" 0.0)
      (dict_get_default day_values "il_gilt_yield" 0.0)
      (dict_get_default day_values "ust_10y_yield" 0.0)
      (dict_get_default day_values "ig_corp_spread" 0.0)
      (dict_get_default day_values "hy_corp_spread" 0.0)
      (dict_get_default day_values "equity" 0.0)
      (dict_get_default day_values "sonia_swap" 0.0)
      (dict_get_default day_values "fx_gbpusd" 0.0)
      (dict_get_default day_values "repo_haircut_gilt" 0.0)
      (dict_get_default day_values "repo_haircut_corp" 0.0)
      (dict_get_default day_values "bond_futures_basis" 0.0)
      vix
      (2.0 * stress_intensity)
      (5.0 * stress_intensity)
      (Qmax 0.5 (1.0 - (stress_intensity - 1.0) * 0.15))
      (market_depth_gilt_mm m)
      (market_depth_corp_mm m)
      0.0 0.0 0.0
      0.0 0.0 0.0
      (day m).

  (** The statements of [apply_endogenous_feedback] before the two
      divisions by [stress] at its end. *)
Definition feedback_prices (m : MarketState) : MarketState :=
    let gilt_on := Qgtb (market_depth_gilt_mm m) 0 in
    let gilt_price_impact :=
      (endogenous_gilt_selling_mm m / market_depth_gilt_mm m) * 20.0 in
    let corp_on := Qgtb (market_depth_corp_mm m) 0 in
    let corp_price_impact :=
      (endogenous_corp_selling_mm m / market_depth_corp_mm m) * 30.0 in
    let total_repo_capacity := 50000.0 in
    let repo_pressure := endogenous_repo_demand_mm m / total_repo_capacity in
    mkMarket
      (if gilt_on then gilt_10y_yield_chg_bps m + gilt_price_impact * 0.5
       else gilt_10y_yield_chg_bps m)
      (if gilt_on then gilt_30y_yield_chg_bps m + gilt_price_impact * 0.7
       else gilt_30y_yield_chg_bps m)
      (il_gilt_yield_chg_bps m)
      (ust_10y_yield_chg_bps m)
      (if corp_on then ig_corp_spread_chg_bps m + corp_price_impact * 0.6
       else ig_corp_spread_chg_bps m)
      (if corp_on then hy_corp_spread_chg_bps m + corp_price_impact * 1.2
       else hy_corp_spread_chg_bps m)
      (equity_chg_pct m)
      (sonia_swap_chg_bps m)
      (fx_gbpusd_chg_pct m)
      (repo_haircut_gilt_chg_pct m)
      (repo_haircut_corp_chg_pct m)
      (bond_futures_basis_chg_bps m)
      (vix_level m)
      (gilt_bid_ask_spread_bps m + endogenous_gilt_selling_mm m * 0.001)
      (corp_bid_ask_spread_bps m + endogenous_corp_selling_mm m * 0.002)
      (Qmax 0.5 (repo_market_availability_pct m - repo_pressure * 0.25))
      (market_depth_gilt_mm m)
      (market_depth_corp_mm m)
      (endogenous_gilt_selling_mm m)
      (endogenous_corp_selling_mm m)
      (endogenous_repo_demand_mm m)
      (if gilt_on then endogenous_gilt_yield_add_bps m + gilt_price_impact
       else endogenous_gilt_yield_add_bps m)
      (if corp_on then endogenous_ig_spread_add_bps m + corp_price_impact
       else endogenous_ig_spread_add_bps m)
      (endogenous_equity_add_pct m)
      (day m).

Definition set_depth (m : MarketState) (g c : Q) : MarketState :=
    mkMarket
      (gilt_10y_yield_chg_bps m) (gilt_30y_yield_chg_bps m)
      (il_gilt_yield_chg_bps m) (ust_10y_yield_chg_bps m)
      (ig_corp_spread_chg_bps m) (hy_corp_spread_chg_bps m)
      (equity_chg_pct m) (sonia_swap_chg_bps m) (fx_gbpusd_chg_pct m)
      (repo_haircut_gilt_chg_pct m) (repo_haircut_corp_chg_pct m)
      (bond_futures_basis_chg_bps m) (vix_level m)
      (gilt_bid_ask_spread_bps m) (corp_bid_ask_spread_bps m)
      (repo_market_availability_pct m)
      g c
      (endogenous_gilt_selling_mm m) (endogenous_corp_selling_mm m)
      (endogenous_repo_demand_mm m)
      (endogenous_gilt_yield_add_bps m) (endogenous_ig_spread_add_bps m)
      (endogenous_equity_add_pct m) (day m).

  (** [apply_endogenous_feedback].  [5000.0 / stress] raises
      [ZeroDivisionError] when [vix_level] is zero; everything before it
      has been written by then. *)
Definition apply_endogenous_feedback (m : MarketState) : outcome MarketState :=
    let m1 := feedback_prices m in
    let stress := vix_level m1 / 15.0 in
    if Qeq_bool stress 0 then Raised m1
    else Returned (set_depth m1 (Qmax 1000.0 (5000.0 / stress))
                                (Qmax 500.0 (2000.0 / stress))).

  (** [get_variable]. *)
Definition get_variable (m : MarketState) (var_name : string) : Q :=
    dict_get_default
      [("gilt_10y_yield", gilt_10y_yield_chg_bps m);
       ("gilt_30y_yield", gilt_30y_yield_chg_bps m);
       ("il_gilt_yield", il_gilt_yield_chg_bps m);
       ("ust_10y_yield", ust_10y_yield_chg_bps m);
       ("ig_corp_spread", ig_corp_spread_chg_bps m);
       ("hy_corp_spread", hy_corp_spread_chg_bps m);
       ("equity", equity_chg_pct m);
       ("sonia_swap", sonia_swap_chg_bps m);
       ("fx_gbpusd", fx_gbpusd_chg_pct m);
       ("repo_haircut_gilt", repo_haircut_gilt_chg_pct m);
       ("repo_haircut_corp", repo_haircut_corp_chg_pct m);
       ("bond_futures_basis", bond_futures_basis_chg_bps m);
       ("vix", vix_level m)]
      var_name 0.0.

  (** A call made on the market between two others. *)
Inductive call :=
  | Exogenous (day_values : dict Q)
  | Endogenous.

Definition run_call (m : MarketState) (c : call) : MarketState :=
    match c with
    | Exogenous dv => apply_exogenous_scenario m dv
    | Endogenous => outcome_state (apply_endogenous_feedback m)
    end.

Definition run_calls (m : MarketState) (cs : list call) : MarketState :=
    fold_left run_call cs m.

End Market.

(** ** agents/base.py: the data model *)

Record LiquidityPosition := mkLiq {
  B0 : Q; B1 : Q; B2 : Q; B3 : Q; E1 : Q; E2 : Q
}.

Record BalanceSheetItem := mkItem {
  item_name : string;
  amount_mm : Q;
  category : string;
  sensitivity_map : dict Q;
  is_collateral_eligible : bool;
  is_reaction_instrument : bool;
  current_haircut_pct : Q
}.

(** The attributes each subclass adds in its [__init__]. *)

Module Bank.
Record t := mk {
    tier : string;
    risk_appetite : Q;
    total_bs_mm : Q;
    gilt_mm_appetite_mm : Q;
    corp_mm_appetite_mm : Q;
    mm_appetite_consumed_pct : Q;
    repo_capacity_mm : Q;
    willingness_to_roll_pct : Q;
    willingness_to_extend_new_pct : Q;
    haircut_sensitivity : Q;
    daily_capacity_history : list Q;
    corp_appetite_consumed_pct : Q;
    daily_corp_capacity_history : list Q;
    daily_combined_capacity_history : list Q
  }.
End Bank.

Module HedgeFund.
Record t := mk {
    strategy : string;
    aum_mm : Q;
    gross_leverage : Q;
    var_utilisation : Q;
    deleverage_trigger_var_pct : Q;
    repo_dependence : string;
    repo_dep_mult : Q;
    primary_sensitivities : list string;
    secondary_sensitivities : list string;
    repo_refused_by_all : bool;
    has_ever_sought_repo : bool
  }.
End HedgeFund.

Module LDI.
Record t := mk {
    yield_buffer_bps : Q;
    ldi_leverage_ratio : Q;
    aum_mm : Q;
    recap_available_mm : Q;
    recap_speed_days : Z;
    is_pooled : bool;
    recap_used_mm : Q;
    yield_buffer_consumed_pct : Q
  }.
End LDI.

Module Insurer.
Record t := mk {
    hedge_ratio : Q;
    dirty_csa_pct : Q;
    total_mm : Q;
    committed_repo_mm : Q;
    rcf_mm : Q
  }.
End Insurer.

Module OEF.
Record t := mk {
    strategy : string;
    aum_mm : Q;
    pension_investor_pct : Q;
    insurer_investor_pct : Q;
    cash_buffer_pct : Q;
    cumulative_redemption_inflows_mm : Q
  }.
End OEF.

(** The class of an agent object, with the attributes of that class. *)
Inductive AgentExt :=
| IsBank (b : Bank.t)
| IsHedgeFund (h : HedgeFund.t)
| IsLDI (l : LDI.t)
| IsInsurer (i : Insurer.t)
| IsOEF (o : OEF.t).

Record Agent := mkAgent {
  name : string;
  theta : Q;
  size_factor : Q;
  balance_sheet : list BalanceSheetItem;
  liquidity : LiquidityPosition;
  has_reacted : bool;
  reactions : dict Q;
  cumulative_margin_calls_mm : Q;
  cumulative_asset_sales_mm : Q;
  cumulative_gilt_sales_mm : Q;
  cumulative_repo_demand_mm : Q;
  cumulative_redemptions_mm : Q;
  ext : AgentExt
}.

(** [agent_type] is fixed by each subclass in its call of
    [BaseAgent.__init__]. *)
Definition agent_type (a : Agent) : string :=
  match ext a with
  | IsBank _ => "bank"
  | IsHedgeFund _ => "hedge_fund"
  | IsLDI _ => "ldi_pension"
  | IsInsurer _ => "insurer"
  | IsOEF _ => "oef_mmf"
  end.

(** Attribute assignments. *)

Definition set_liquidity (a : Agent) (l : LiquidityPosition) : Agent :=
  mkAgent (name a) (theta a) (size_factor a) (balance_sheet a) l
          (has_reacted a) (reactions a)
          (cumulative_margin_calls_mm a) (cumulative_asset_sales_mm a)
          (cumulative_gilt_sales_mm a) (cumulative_repo_demand_mm a)
          (cumulative_redemptions_mm a) (ext a).

Definition set_ext (a : Agent) (e : AgentExt) : Agent :=
  mkAgent (name a) (theta a) (size_factor a) (balance_sheet a) (liquidity a)
          (has_reacted a) (reactions a)
          (cumulative_margin_calls_mm a) (cumulative_asset_sales_mm a)
          (cumulative_gilt_sales_mm a) (cumulative_repo_demand_mm a)
          (cumulative_redemptions_mm a) e.

Definition set_balance_sheet (a : Agent) (bs : list BalanceSheetItem) : Agent :=
  mkAgent (name a) (theta a) (size_factor a) bs (liquidity a)
          (has_reacted a) (reactions a)
          (cumulative_margin_calls_mm a) (cumulative_asset_sales_mm a)
          (cumulative_gilt_sales_mm a) (cumulative_repo_demand_mm a)
          (cumulative_redemptions_mm a) (ext a).

Definition set_reacted (a : Agent) (hr : bool) (r : dict Q) : Agent :=
  mkAgent (name a) (theta a) (size_factor a) (balance_sheet a) (liquidity a)
          hr r
          (cumulative_margin_calls_mm a) (cumulative_asset_sales_mm a)
          (cumulative_gilt_sales_mm a) (cumulative_repo_demand_mm a)
          (cumulative_redemptions_mm a) (ext a).

Definition set_cumulative (a : Agent) (margin sales gilt repo redemptions : Q)
  : Agent :=
  mkAgent (name a) (theta a) (size_factor a) (balance_sheet a) (liquidity a)
          (has_reacted a) (reactions a)
          margin sales gilt repo redemptions (ext a).

Definition set_B0 (l : LiquidityPosition) (x : Q) : LiquidityPosition :=
  mkLiq x (B1 l) (B2 l) (B3 l) (E1 l) (E2 l).
Definition set_B2 (l : LiquidityPosition) (x : Q) : LiquidityPosition :=
  mkLiq (B0 l) (B1 l) x (B3 l) (E1 l) (E2 l).

(** [BaseAgent.get_item]: the first item of that name. *)
Definition get_item (a : Agent) (n : string) : option BalanceSheetItem :=
  find (fun i => String.eqb (item_name i) n) (balance_sheet a).

(** [x.amount_mm if x else 0.0]. *)
Definition amount_or_zero (i : option BalanceSheetItem) : Q :=
  match i with Some it => amount_mm it | None => 0.0 end.

(** [x or y] on item lookups. *)
Definition item_or (x y : option BalanceSheetItem) : option BalanceSheetItem :=
  match x with Some _ => x | None => y end.

(** ** The shared list of agents *)

(** [agents[i] = a]. *)
Fixpoint put (i : nat) (a : Agent) (store : list Agent) : list Agent :=
  match store, i with
  | [], _ => []
  | _ :: tl, O => a :: tl
  | hd :: tl, S j => hd :: put j a tl
  end.

(** [{a.name: a for a in agents}.get(n)]: a later agent of the same name
    replaces an earlier one. *)
Definition agent_map_get (agents : list Agent) (n : string) : option Agent :=
  find (fun a => String.eqb (name a) n) (rev agents).

(** ** network.py *)

Record RelationshipNetwork := mkNetwork {
  graph_nodes : list (string * string);
  graph_edges : list (string * string * string);
  bank_hf_edges : list (string * string);
  bank_ldi_edges : list (string * string);
  bank_insurer_edges : list (string * string);
  nbfi_oef_edges : list (string * string)
}.

Module Network.

  (** [[y for x, y in edges if x == key]]. *)
Definition seconds_where_first (edges : list (string * string)) (key : string)
    : list string :=
    map snd (filter (fun e => String.eqb (fst e) key) edges).

  (** [[x for x, y in edges if y == key]]. *)
Definition firsts_where_second (edges : list (string * string)) (key : string)
    : list string :=
    map fst (filter (fun e => String.eqb (snd e) key) edges).

Definition get_connected_hfs (n : RelationshipNetwork) (bank_name : string) :=
    seconds_where_first (bank_hf_edges n) bank_name.
Definition get_connected_banks (n : RelationshipNetwork) (hf_name : string) :=
    firsts_where_second (bank_hf_edges n) hf_name.
Definition get_connected_ldis (n : RelationshipNetwork) (bank_name : string) :=
    seconds_where_first (bank_ldi_edges n) bank_name.
Definition get_clearing_banks (n : RelationshipNetwork) (ldi_name : string) :=
    firsts_where_second (bank_ldi_edges n) ldi_name.
Definition get_oef_redeemers (n : RelationshipNetwork) (oef_name : string) :=
    firsts_where_second (nbfi_oef_edges n) oef_name.
Definition get_redemption_targets (n : RelationshipNetwork) (nbfi_name : string) :=
    seconds_where_first (nbfi_oef_edges n) nbfi_name.

  (** [[i for b, i in self.bank_insurer_edges if b == bank_name]] and its
      mirror image, written inline in the callers. *)
Definition insurers_of_bank (n : RelationshipNetwork) (bank_name : string) :=
    seconds_where_first (bank_insurer_edges n) bank_name.
Definition banks_of_insurer (n : RelationshipNetwork) (ins_name : string) :=
    firsts_where_second (bank_insurer_edges n) ins_name.

  (** [nx.Graph.add_node] and [add_edge]: a node or an (undirected) edge
      that is already there only has its attribute overwritten. *)
Definition add_node (nodes : list (string * string)) (n ty : string) :=
    dict_set nodes n ty.

Definition same_edge (u v : string) (e : string * string * string) : bool :=
    let '(a, b, _) := e in
    (String.eqb a u && String.eqb b v) || (String.eqb a v && String.eqb b u).

Fixpoint add_edge (edges : list (string * string * string))
           (u v rel : string) : list (string * string * string) :=
    match edges with
    | [] => [(u, v, rel)]
    | e :: tl =>
        if same_edge u v e then (fst (fst e), snd (fst e), rel) :: tl
        else e :: add_edge tl u v rel
    end.

  (** [network_summary]. *)
Record summary := mkSummary {
    total_nodes : nat;
    total_edges : nat;
    n_bank_hf_edges : nat;
    n_bank_ldi_edges : nat;
    n_bank_insurer_edges : nat;
    n_nbfi_oef_edges : nat
  }.

Definition network_summary (n : RelationshipNetwork) : summary :=
    mkSummary (List.length (graph_nodes n)) (List.length (graph_edges n))
              (List.length (bank_hf_edges n)) (List.length (bank_ldi_edges n))
              (List.length (bank_insurer_edges n))
              (List.length (nbfi_oef_edges n)).

End Network.

(** ** Code shared by the agent classes *)

(** The loop that every class writes out in [compute_mtm_impact]:
    [total_mtm += abs(item.amount_mm * sens * day_delta.get(var, 0.0))]. *)
Definition item_mtm (day_delta : dict Q) (total_mtm : Q) (item : BalanceSheetItem)
  : Q :=
  fold_left
    (fun t vs => t + Qabs (amount_mm item * snd vs
                           * dict_get_default day_delta (fst vs) 0.0))
    (sensitivity_map item) total_mtm.

Definition items_mtm (day_delta : dict Q) (items : list BalanceSheetItem) : Q :=
  fold_left (item_mtm day_delta) items 0.0.

(** A waterfall is threaded through as [(reactions, shortfall)]. *)
Definition waterfall := (dict Q * Q)%type.

(** [if item and item.amount_mm > 0:
       x = min(shortfall * sf, item.amount_mm * hc)
       reactions[action] = x
       shortfall -= x] *)
Definition waterfall_step (item : option BalanceSheetItem) (action : string)
           (sf hc : Q) (st : waterfall) : waterfall :=
  match item with
  | Some it =>
      if Qgtb (amount_mm it) 0 then
        let x := Qmin (snd st * sf) (amount_mm it * hc) in
        (dict_set (fst st) action x, snd st - x)
      else st
  | None => st
  end.

(** [if shortfall > 0: ...] *)
Definition if_shortfall (f : waterfall -> waterfall) (st : waterfall) : waterfall :=
  if Qgtb (snd st) 0 then f st else st.

Module BankAgent.

  (** [compute_initial_buffer]. *)
Definition compute_initial_buffer (self : Agent) (b : Bank.t) : Q :=
    let boe_val := amount_or_zero (get_item self "BoE Facility Eligible") in
    let cet1_val := amount_or_zero (get_item self "CET1 Buffer") in
    let wf_val := amount_or_zero (get_item self "Wholesale Funding") in
    let b0 := boe_val * Config.bank_boe_eligible_mult
              + cet1_val * Config.bank_cet1_mult
              - wf_val * Config.bank_wholesale_funding_runoff_mult in
    Qmax b0 (Bank.total_bs_mm b * Config.bank_floor_pct_of_bs).

Definition compute_mtm_impact (self : Agent) (day_delta : dict Q) : Q :=
    items_mtm day_delta (balance_sheet self).

Definition compute_margin_calls (self : Agent) (market : MarketState) : Q :=
    match get_item self "Derivative Assets" with
    | None => 0.0
    | Some deriv =>
        let stress := vix_level market / 15.0 in
        let vm := amount_mm deriv * Qabs (gilt_10y_yield_chg_bps market)
                  * 0.0001 * 0.05 in
        let im_increase :=
          if Qgtb stress 1.0 then amount_mm deriv * (stress - 1.0) * 0.005
          else 0.0 in
        vm + im_increase
    end.

Definition compute_redemptions (self : Agent) (market : MarketState) : Q :=
    match get_item self "Wholesale Funding" with
    | None => 0.0
    | Some wf =>
        let stress := vix_level market / 15.0 in
        if Qgtb stress 2.0 then amount_mm wf * (stress - 2.0) * 0.02 else 0.0
    end.

Definition compute_reactions (self : Agent) (b : Bank.t) : dict Q :=
    let st0 : waterfall := ([], Qmax 0 (- B1 (liquidity self))) in
    (* 1. BoE facilities *)
    let st1 := waterfall_step (get_item self "BoE Facility Eligible")
                              "boe_facility" 0.3 0.5 st0 in
    (* 2. reduce repo lending *)
    let st2 := if_shortfall
                 (waterfall_step (get_item self "Repo Lending")
                    "reduce_repo_lending" 0.3
                    ((1.0 - Bank.risk_appetite b) * 0.3)) st1 in
    (* 3. sell gilts *)
    let st3 := if_shortfall
                 (waterfall_step (get_item self "Gilt Holdings") "sell_gilt"
                    (fst Config.bank_sell_gilt) (snd Config.bank_sell_gilt))
                 st2 in
    (* 4. sell corporate bonds *)
    let st4 := if_shortfall
                 (waterfall_step (get_item self "Corporate Bond Holdings")
                    "sell_corp_bonds"
                    (fst Config.bank_sell_corp) (snd Config.bank_sell_corp))
                 st3 in
    fst st4.

  (** [stress_ratio] and [stress_scaling] of [assess_repo_request]. *)
Definition stress_ratio (self : Agent) : Q :=
    E1 (liquidity self) / Qmax (B0 (liquidity self)) 1.0.

Definition stress_scaling (self : Agent) : Q :=
    let threshold := Config.bank_repo_refusal_stress_threshold in
    Qmax 0.0 (1.0 - stress_ratio self / threshold).

  (** [requesting_agent_name in all_connected]. *)
Definition connected_to (net : RelationshipNetwork) (bank_name requester : string)
    : bool :=
    existsb (String.eqb requester)
            (Network.get_connected_hfs net bank_name
             ++ Network.get_connected_ldis net bank_name
             ++ Network.insurers_of_bank net bank_name)%list.

  (** [assess_repo_request]. *)
Definition assess_repo_request (self : Agent) (b : Bank.t)
             (requesting_agent_name : string) (amount : Q)
             (network : option RelationshipNetwork) : Q :=
    match network with
    | None => 0.0
    | Some net =>
        if negb (connected_to net (name self) requesting_agent_name)
        then 0.0
        else
          let available := Bank.repo_capacity_mm b
                           * Bank.willingness_to_extend_new_pct b in
          Qmin amount (available * Bank.risk_appetite b * stress_scaling self)
    end.

Definition set_consumed (b : Bank.t) (gilt corp : Q) : Bank.t :=
    Bank.mk (Bank.tier b) (Bank.risk_appetite b) (Bank.total_bs_mm b)
            (Bank.gilt_mm_appetite_mm b) (Bank.corp_mm_appetite_mm b)
            gilt
            (Bank.repo_capacity_mm b) (Bank.willingness_to_roll_pct b)
            (Bank.willingness_to_extend_new_pct b) (Bank.haircut_sensitivity b)
            (Bank.daily_capacity_history b)
            corp
            (Bank.daily_corp_capacity_history b)
            (Bank.daily_combined_capacity_history b).

Definition set_willingness (b : Bank.t) (roll extend : Q) : Bank.t :=
    Bank.mk (Bank.tier b) (Bank.risk_appetite b) (Bank.total_bs_mm b)
            (Bank.gilt_mm_appetite_mm b) (Bank.corp_mm_appetite_mm b)
            (Bank.mm_appetite_consumed_pct b)
            (Bank.repo_capacity_mm b) roll extend (Bank.haircut_sensitivity b)
            (Bank.daily_capacity_history b)
            (Bank.corp_appetite_consumed_pct b)
            (Bank.daily_corp_capacity_history b)
            (Bank.daily_combined_capacity_history b).

Definition set_histories (b : Bank.t) (h hc hcomb : list Q) : Bank.t :=
    Bank.mk (Bank.tier b) (Bank.risk_appetite b) (Bank.total_bs_mm b)
            (Bank.gilt_mm_appetite_mm b) (Bank.corp_mm_appetite_mm b)
            (Bank.mm_appetite_consumed_pct b)
            (Bank.repo_capacity_mm b) (Bank.willingness_to_roll_pct b)
            (Bank.willingness_to_extend_new_pct b) (Bank.haircut_sensitivity b)
            h (Bank.corp_appetite_consumed_pct b) hc hcomb.

  (** [absorb_selling_pressure] (the returned amount is not used by the
      caller). *)
Definition absorb_selling_pressure (b : Bank.t) (amount : Q) : Bank.t :=
    let remaining_appetite :=
      Bank.gilt_mm_appetite_mm b * (1.0 - Bank.mm_appetite_consumed_pct b) in
    let absorbed := Qmin amount (remaining_appetite * Bank.risk_appetite b) in
    if Qgtb (Bank.gilt_mm_appetite_mm b) 0 then
      set_consumed b
        (Qmin 1.0 (Bank.mm_appetite_consumed_pct b
                   + absorbed / Bank.gilt_mm_appetite_mm b))
        (Bank.corp_appetite_consumed_pct b)
    else b.

Definition absorb_corp_selling_pressure (b : Bank.t) (amount : Q) : Bank.t :=
    let remaining_appetite :=
      Bank.corp_mm_appetite_mm b * (1.0 - Bank.corp_appetite_consumed_pct b) in
    let absorbed := Qmin amount (remaining_appetite * Bank.risk_appetite b) in
    if Qgtb (Bank.corp_mm_appetite_mm b) 0 then
      set_consumed b
        (Bank.mm_appetite_consumed_pct b)
        (Qmin 1.0 (Bank.corp_appetite_consumed_pct b
                   + absorbed / Bank.corp_mm_appetite_mm b))
    else b.

Definition tighten_repo_for_counterparties (b : Bank.t) : Bank.t :=
    let tightening := (1.0 - Bank.risk_appetite b) * 0.3 in
    let extend := Qmax 0.0 (Bank.willingness_to_extend_new_pct b - tightening) in
    let roll := Qmax 0.5 (Bank.willingness_to_roll_pct b - tightening * 0.5) in
    set_willingness b roll extend.

  (** [post_registration_update]. *)
Definition post_registration_update (reacted : bool) (b : Bank.t)
             (gilt_to_absorb corp_to_absorb : Q) : Bank.t :=
    let b1 := absorb_selling_pressure b gilt_to_absorb in
    let b2 := absorb_corp_selling_pressure b1 corp_to_absorb in
    let b3 := if reacted then tighten_repo_for_counterparties b2 else b2 in
    let total_cap := Bank.gilt_mm_appetite_mm b3 + Bank.corp_mm_appetite_mm b3 in
    let combined :=
      if Qgtb total_cap 0 then
        let gilt_used := Bank.mm_appetite_consumed_pct b3
                         * Bank.gilt_mm_appetite_mm b3 in
        let corp_used := Bank.corp_appetite_consumed_pct b3
                         * Bank.corp_mm_appetite_mm b3 in
        (gilt_used + corp_used) / total_cap
      else 0.0 in
    set_histories b3
      (Bank.daily_capacity_history b3 ++ [Bank.mm_appetite_consumed_pct b3])%list
      (Bank.daily_corp_capacity_history b3 ++ [Bank.corp_appetite_consumed_pct b3])%list
      (Bank.daily_combined_capacity_history b3 ++ [combined])%list.

End BankAgent.

(** The loop over banks that the hedge fund, the LDI fund and the insurer
    each write out when they seek repo:
    [for bank_name in banks:
       ask_per_bank = repo_ask / max(len(banks), 1)
       bank = agent_map.get(bank_name)
       if bank and hasattr(bank, 'assess_repo_request'):
           repo_obtained += bank.assess_repo_request(self.name, ask_per_bank, network)
       else:
           repo_obtained += ask_per_bank * market.repo_market_availability_pct] *)
Definition repo_from_bank (self_name : string) (market : MarketState)
           (net : RelationshipNetwork) (agents : list Agent)
           (ask_per_bank : Q) (repo_obtained : Q) (bank_name : string) : Q :=
  match agent_map_get agents bank_name with
  | Some bank =>
      match ext bank with
      | IsBank b =>
          repo_obtained
          + BankAgent.assess_repo_request bank b self_name ask_per_bank (Some net)
      | _ => repo_obtained + ask_per_bank * repo_market_availability_pct market
      end
  | None => repo_obtained + ask_per_bank * repo_market_availability_pct market
  end.

Definition repo_from_banks (self_name : string) (market : MarketState)
           (net : RelationshipNetwork) (agents : list Agent)
           (banks : list string) (repo_ask : Q) : Q :=
  let ask_per_bank := repo_ask / Qmax (Qlen banks) 1 in
  fold_left (repo_from_bank self_name market net agents ask_per_bank) banks 0.0.

(** [if shortfall > 0 and network:
       ... repo_ask = shortfall * ask_pct ... (the loop over banks) ...
       if repo_obtained > 0:
           reactions["seek_repo"] = repo_obtained
           shortfall -= repo_obtained]
    as the LDI fund and the insurer write it. *)
Definition seek_repo_step (self_name : string) (market : MarketState)
           (network : option RelationshipNetwork) (agents : list Agent)
           (banks_of : RelationshipNetwork -> string -> list string)
           (ask_pct : Q) (st : waterfall) : waterfall :=
  match network with
  | Some net =>
      if Qgtb (snd st) 0 then
        let repo_ask := snd st * ask_pct in
        let repo_obtained :=
          repo_from_banks self_name market net agents (banks_of net self_name)
                          repo_ask in
        if Qgtb repo_obtained 0
        then (dict_set (fst st) "seek_repo" repo_obtained, snd st - repo_obtained)
        else st
      else st
  | None => st
  end.

(** [if shortfall > 0 and network:
       oef_targets = network.get_redemption_targets(self.name)
       if oef_targets:
           reactions["redeem_mmf"] = min(shortfall * sf, size * cap)] *)
Definition redeem_step (self_name : string) (network : option RelationshipNetwork)
           (sf : Q) (cap_amount : Q) (st : waterfall) : waterfall :=
  match network with
  | Some net =>
      if Qgtb (snd st) 0 then
        match Network.get_redemption_targets net self_name with
        | [] => st
        | _ :: _ =>
            (dict_set (fst st) "redeem_mmf" (Qmin (snd st * sf) cap_amount), snd st)
        end
      else st
  | None => st
  end.

Module HedgeFundAgent.

Definition compute_initial_buffer (self : Agent) (h : HedgeFund.t) : Q :=
    let cash_val := amount_or_zero (get_item self "Cash & Margin") in
    Qmax (cash_val * Config.hf_cash_mult)
         (HedgeFund.aum_mm h * Config.hf_floor_pct_of_aum).

Definition compute_mtm_impact (self : Agent) (h : HedgeFund.t)
             (day_delta : dict Q) : Q :=
    let total_mtm :=
      fold_left
        (fun t item =>
           if String.eqb (category item) "liquid_asset"
              || String.eqb (category item) "illiquid_asset"
           then item_mtm day_delta t item else t)
        (balance_sheet self) 0.0 in
    total_mtm * (1.0 + (HedgeFund.gross_leverage h - 1.0) * 0.3).

  (** [max(primary_moves) if primary_moves else 0.0]. *)
Definition max_or_zero (xs : list Q) : Q :=
    match xs with
    | [] => 0.0
    | x :: tl => fold_left Qmax tl x
    end.

Definition compute_margin_calls (h : HedgeFund.t) (market : MarketState) : Q :=
    let stress := vix_level market / 15.0 in
    let primary_moves :=
      map (fun var => Qabs (Market.get_variable market var))
          (HedgeFund.primary_sensitivities h) in
    let max_move := max_or_zero primary_moves in
    let vm := HedgeFund.aum_mm h * HedgeFund.gross_leverage h * max_move
              * 0.0001 * 0.022 in
    let im_increase := HedgeFund.aum_mm h * HedgeFund.gross_leverage h
                       * Qmax 0 (stress - 1.0) * 0.002 in
    let haircut_impact :=
      if Qgtb (HedgeFund.repo_dep_mult h) 0.5
      then HedgeFund.aum_mm h * HedgeFund.repo_dep_mult h
           * repo_haircut_gilt_chg_pct market * 0.003
      else 0.0 in
    vm + im_increase + haircut_impact.

Definition compute_redemptions (h : HedgeFund.t) (market : MarketState) : Q :=
    let stress := vix_level market / 15.0 in
    if Qgtb stress 2.5 && Qgtb (HedgeFund.var_utilisation h) 0.85
    then HedgeFund.aum_mm h * 0.02 else 0.0.

Definition set_flags (h : HedgeFund.t) (refused sought : bool) : HedgeFund.t :=
    HedgeFund.mk (HedgeFund.strategy h) (HedgeFund.aum_mm h)
                 (HedgeFund.gross_leverage h) (HedgeFund.var_utilisation h)
                 (HedgeFund.deleverage_trigger_var_pct h)
                 (HedgeFund.repo_dependence h) (HedgeFund.repo_dep_mult h)
                 (HedgeFund.primary_sensitivities h)
                 (HedgeFund.secondary_sensitivities h)
                 refused sought.

  (** Step 1 of [compute_reactions]: repo from the connected banks. *)
Definition repo_step (self : Agent) (h : HedgeFund.t) (market : MarketState)
             (network : option RelationshipNetwork) (agents : list Agent)
             (st : waterfall) : waterfall * HedgeFund.t :=
    match network with
    | Some net =>
        if Qgtb (HedgeFund.repo_dep_mult h) 0 then
          let connected_banks := Network.get_connected_banks net (name self) in
          let repo_ask := snd st * Qmax (HedgeFund.repo_dep_mult h) 0.6
                          * Config.hf_repo_ask_pct in
          let sought := if Qgtb repo_ask 0 then true
                        else HedgeFund.has_ever_sought_repo h in
          let repo_obtained :=
            repo_from_banks (name self) market net agents connected_banks repo_ask in
          if Qgtb repo_obtained 0 then
            ((dict_set (fst st) "seek_repo" repo_obtained, snd st - repo_obtained),
             set_flags h (HedgeFund.repo_refused_by_all h) sought)
          else if Qgtb repo_ask 0 then
            (st, set_flags h true sought)
          else (st, set_flags h (HedgeFund.repo_refused_by_all h) sought)
        else (st, h)
    | None => (st, h)
    end.

  (** Step 2: the sales of the fund's strategy. *)
Definition sales_step (self : Agent) (h : HedgeFund.t) (st : waterfall)
    : waterfall :=
    if String.eqb (HedgeFund.strategy h) "relative_value" then
      let st1 := waterfall_step (get_item self "Basis Trade Positions")
                   "sell_gilt_basis_unwind"
                   (fst Config.hf_sell_basis_unwind)
                   (snd Config.hf_sell_basis_unwind) st in
      (* [if gilt and gilt.amount_mm > 0 and shortfall > 0] *)
      if_shortfall
        (waterfall_step (get_item self "Gilt Positions (net)") "sell_gilt"
           (fst Config.hf_sell_gilt) (snd Config.hf_sell_gilt)) st1
    else if String.eqb (HedgeFund.strategy h) "macro_rates" then
      waterfall_step (get_item self "Gilt Positions (net)") "sell_gilt"
        (fst Config.hf_sell_gilt) (snd Config.hf_sell_gilt) st
    else if String.eqb (HedgeFund.strategy h) "credit_long_short" then
      waterfall_step (get_item self "Corp Bond Positions") "sell_corp_bonds"
        (fst Config.hf_sell_corp) (snd Config.hf_sell_corp) st
    else if String.eqb (HedgeFund.strategy h) "long_short_equity" then
      waterfall_step (get_item self "Equity Positions") "sell_equity"
        (fst Config.hf_sell_equity) (snd Config.hf_sell_equity) st
    else
      (* multi_strategy: [if shortfall <= 0: break] leaves the rest of the
         loop undone, as skipping every later round does *)
      fold_left
        (fun s ia =>
           if Qleb (snd s) 0 then s
           else waterfall_step (get_item self (fst ia)) (snd ia)
                  (fst Config.hf_multi_strategy) (snd Config.hf_multi_strategy) s)
        [("Gilt Positions (net)", "sell_gilt");
         ("Corp Bond Positions", "sell_corp_bonds");
         ("Equity Positions", "sell_equity")]
        st.

  (** Step 3: redeem from pooled funds. *)
Definition redeem_mmf_step (self : Agent) (h : HedgeFund.t)
             (network : option RelationshipNetwork) (st : waterfall) : waterfall :=
    match network with
    | Some net =>
        if Qgtb (snd st) 0 then
          let oef_targets := Network.get_redemption_targets net (name self) in
          match oef_targets with
          | [] => st
          | _ :: _ =>
              let redeem_per_oef :=
                Qmin (snd st * 0.2) (HedgeFund.aum_mm h * 0.05)
                / Qmax (Qlen oef_targets) 1 in
              (dict_set (fst st) "redeem_mmf" (redeem_per_oef * Qlen oef_targets),
               snd st)
          end
        else st
    | None => st
    end.

Definition compute_reactions (self : Agent) (h : HedgeFund.t)
             (market : MarketState) (network : option RelationshipNetwork)
             (agents : list Agent) : dict Q * HedgeFund.t :=
    let st0 : waterfall :=
      ([], Qmax 0 (- B1 (liquidity self)) + E1 (liquidity self) * 0.2) in
    let '(st1, h1) := repo_step self h market network agents st0 in
    let st2 := if_shortfall (sales_step self h) st1 in
    let st3 := redeem_mmf_step self h network st2 in
    (fst st3, h1).

End HedgeFundAgent.

Module LDIPensionAgent.

Definition compute_initial_buffer (self : Agent) (l : LDI.t) : Q :=
    let cash_val := amount_or_zero (get_item self "Cash & MMF") in
    let uec_val := amount_or_zero (get_item self "Unencumbered Collateral") in
    let b0 := cash_val * Config.ldi_cash_mult
              + uec_val * Config.ldi_unencumbered_collateral_mult in
    Qmax b0 (LDI.aum_mm l * Config.ldi_floor_pct_of_aum).

Definition compute_mtm_impact (self : Agent) (l : LDI.t) (day_delta : dict Q)
    : Q :=
    items_mtm day_delta (balance_sheet self) * (LDI.ldi_leverage_ratio l * 0.5).

Definition set_consumed (l : LDI.t) (x : Q) : LDI.t :=
    LDI.mk (LDI.yield_buffer_bps l) (LDI.ldi_leverage_ratio l) (LDI.aum_mm l)
           (LDI.recap_available_mm l) (LDI.recap_speed_days l) (LDI.is_pooled l)
           (LDI.recap_used_mm l) x.

Definition set_recap_used (l : LDI.t) (x : Q) : LDI.t :=
    LDI.mk (LDI.yield_buffer_bps l) (LDI.ldi_leverage_ratio l) (LDI.aum_mm l)
           (LDI.recap_available_mm l) (LDI.recap_speed_days l) (LDI.is_pooled l)
           x (LDI.yield_buffer_consumed_pct l).

  (** [compute_margin_calls] writes [yield_buffer_consumed_pct];
      [cumulative_gilt_move / self.yield_buffer_bps] raises
      [ZeroDivisionError] for a zero yield buffer, before anything is
      written. *)
Definition compute_margin_calls (self : Agent) (l : LDI.t)
             (market : MarketState) : option (Q * LDI.t) :=
    match get_item self "Derivatives Exposure" with
    | None => Some (0.0, l)
    | Some deriv =>
        let gilt_move := Qmax (Qabs (gilt_10y_yield_chg_bps market))
                              (Qabs (gilt_30y_yield_chg_bps market)) in
        let vm := amount_mm deriv * gilt_move * 0.0001 * 0.04 in
        let stress := vix_level market / 15.0 in
        let im_increase := amount_mm deriv * Qmax 0 (stress - 1.0) * 0.003 in
        let cumulative_gilt_move := Qabs (gilt_10y_yield_chg_bps market) in
        if Qeq_bool (LDI.yield_buffer_bps l) 0 then None
        else
          let consumed := Qmin 1.0 (cumulative_gilt_move / LDI.yield_buffer_bps l) in
          let vm' :=
            if Qgeb consumed 1.0 then
              let excess := cumulative_gilt_move - LDI.yield_buffer_bps l in
              vm + amount_mm deriv * excess * 0.0001 * 0.06
            else vm in
          Some (vm' + im_increase, set_consumed l consumed)
    end.

Definition compute_redemptions (self : Agent) (l : LDI.t)
             (network : option RelationshipNetwork) : Q :=
    match network with
    | Some net =>
        if Qgtb (LDI.yield_buffer_consumed_pct l) 0.7 then
          match Network.get_redemption_targets net (name self),
                get_item self "Cash & MMF" with
          | _ :: _, Some cash_mmf =>
              if Qgtb (amount_mm cash_mmf) 0
              then amount_mm cash_mmf * LDI.yield_buffer_consumed_pct l * 0.3
              else 0.0
          | _, _ => 0.0
          end
        else 0.0
    | None => 0.0
    end.

  (** Step 2 of [compute_reactions]: recapitalisation, rate-limited. *)
Definition recap_step (l : LDI.t) (st : waterfall) : waterfall * LDI.t :=
    if Qgtb (snd st) 0 && Qgtb (LDI.recap_available_mm l) (LDI.recap_used_mm l)
    then
      let daily_recap := (LDI.recap_available_mm l - LDI.recap_used_mm l)
                         / inject_Z (Z.max (LDI.recap_speed_days l) 1) in
      let recap_use := Qmin (snd st * 0.3) daily_recap in
      ((dict_set (fst st) "recapitalisation" recap_use, snd st - recap_use),
       set_recap_used l (LDI.recap_used_mm l + recap_use))
    else (st, l).

Definition compute_reactions (self : Agent) (l : LDI.t)
             (market : MarketState) (network : option RelationshipNetwork)
             (agents : list Agent) : dict Q * LDI.t :=
    let st0 : waterfall :=
      ([], Qmax 0 (- B1 (liquidity self)) + E1 (liquidity self) * 0.1) in
    let st1 := waterfall_step (get_item self "Unencumbered Collateral")
                 "post_collateral" 0.4 0.5 st0 in
    let '(st2, l2) := recap_step l st1 in
    let st3 := seek_repo_step (name self) market network agents
                 Network.get_clearing_banks Config.ldi_repo_ask_pct st2 in
    let st4 := if_shortfall
                 (waterfall_step (get_item self "Gilt Holdings") "sell_gilt"
                    (fst Config.ldi_sell_gilt) (snd Config.ldi_sell_gilt)) st3 in
    let st5 := if_shortfall
                 (waterfall_step (get_item self "IL Gilt Holdings") "sell_gilt_il"
                    (fst Config.ldi_sell_il_gilt) (snd Config.ldi_sell_il_gilt))
                 st4 in
    let st6 := if_shortfall
                 (waterfall_step (get_item self "Corporate Bond Holdings")
                    "sell_corp_bonds"
                    (fst Config.ldi_sell_corp) (snd Config.ldi_sell_corp)) st5 in
    let st7 := redeem_step (name self) network 0.2 (LDI.aum_mm l * 0.05) st6 in
    (fst st7, l2).

End LDIPensionAgent.

Module InsurerAgent.

Definition compute_initial_buffer (self : Agent) (i : Insurer.t) : Q :=
    let cash_val := amount_or_zero (get_item self "Cash & Liquid") in
    let repo_val := amount_or_zero (get_item self "Committed Repo Lines") in
    let rcf_val := amount_or_zero (get_item self "RCF Available") in
    let b0 := cash_val * Config.insurer_cash_mult
              + repo_val * Config.insurer_committed_repo_mult
              + rcf_val * Config.insurer_rcf_mult in
    Qmax b0 (Insurer.total_mm i * Config.insurer_floor_pct_of_assets).

Definition compute_mtm_impact (self : Agent) (i : Insurer.t)
             (day_delta : dict Q) : Q :=
    let total_mtm := items_mtm day_delta (balance_sheet self) in
    match get_item self "Derivative Hedges" with
    | Some _ =>
        let hedge_offset := total_mtm * Insurer.hedge_ratio i * 0.3 in
        Qmax 0 (total_mtm - hedge_offset)
    | None => total_mtm
    end.

Definition compute_margin_calls (self : Agent) (i : Insurer.t)
             (market : MarketState) : Q :=
    match get_item self "Derivative Hedges" with
    | None => 0.0
    | Some deriv =>
        let stress := vix_level market / 15.0 in
        let vm := amount_mm deriv * Qabs (gilt_10y_yield_chg_bps market)
                  * 0.0001 * 0.008 in
        let im := amount_mm deriv * Qmax 0 (stress - 1.0) * 0.0008 in
        let vm' :=
          if Qgtb (Insurer.dirty_csa_pct i) 0 then
            vm + amount_mm deriv * Insurer.dirty_csa_pct i
                 * repo_haircut_corp_chg_pct market * 0.01 * 0.05
          else vm in
        vm' + im
    end.

Definition compute_redemptions (i : Insurer.t) (market : MarketState) : Q :=
    let stress := vix_level market / 15.0 in
    if Qgtb stress 2.5 then Insurer.total_mm i * 0.005 else 0.0.

Definition compute_reactions (self : Agent) (i : Insurer.t)
             (market : MarketState) (network : option RelationshipNetwork)
             (agents : list Agent) : dict Q :=
    let st0 : waterfall :=
      ([], Qmax 0 (- B1 (liquidity self)) + E1 (liquidity self) * 0.1) in
    (* 1. committed repo lines *)
    let st1 := waterfall_step (get_item self "Committed Repo Lines")
                 "draw_repo_line" 0.3 0.5 st0 in
    (* 2. RCF *)
    let st2 := waterfall_step (get_item self "RCF Available")
                 "draw_rcf" 0.2 0.5 st1 in
    (* 3. repo from connected banks *)
    let st3 := seek_repo_step (name self) market network agents
                 Network.banks_of_insurer Config.insurer_repo_ask_pct st2 in
    let st4 := if_shortfall
                 (waterfall_step (get_item self "Gilt Holdings") "sell_gilt"
                    (fst Config.insurer_sell_gilt) (snd Config.insurer_sell_gilt))
                 st3 in
    let st5 := if_shortfall
                 (waterfall_step (get_item self "Corporate Bond Holdings")
                    "sell_corp_bonds"
                    (fst Config.insurer_sell_corp) (snd Config.insurer_sell_corp))
                 st4 in
    let st6 := if_shortfall
                 (waterfall_step (get_item self "Equity Portfolio") "sell_equity"
                    (fst Config.insurer_sell_equity)
                    (snd Config.insurer_sell_equity))
                 st5 in
    let st7 := redeem_step (name self) network 0.15 (Insurer.total_mm i * 0.03)
                 st6 in
    fst st7.

End InsurerAgent.

Module OEFMMFAgent.

Definition compute_initial_buffer (self : Agent) (o : OEF.t) : Q :=
    let cash_val := amount_or_zero (get_item self "Cash Buffer") in
    Qmax (cash_val * Config.oef_cash_mult)
         (OEF.aum_mm o * Config.oef_floor_pct_of_aum).

Definition compute_mtm_impact (self : Agent) (day_delta : dict Q) : Q :=
    items_mtm day_delta (balance_sheet self).

Definition compute_margin_calls : Q := 0.0.

Definition set_inflows (o : OEF.t) (x : Q) : OEF.t :=
    OEF.mk (OEF.strategy o) (OEF.aum_mm o) (OEF.pension_investor_pct o)
           (OEF.insurer_investor_pct o) (OEF.cash_buffer_pct o) x.

  (** One round of the loop over [redeemers] in [compute_redemptions]. *)
Definition redemption_of (o : OEF.t) (agents : list Agent)
             (total_redemptions : Q) (nbfi_name : string) : Q :=
    match agent_map_get agents nbfi_name with
    | None => total_redemptions
    | Some nbfi =>
        let stress_ratio :=
          if Qgtb (B0 (liquidity nbfi)) 0
          then E1 (liquidity nbfi) / B0 (liquidity nbfi) else 0.0 in
        if Qgtb stress_ratio 0.3 then
          let base_redemption := size_factor nbfi * 0.001 * stress_ratio in
          let base_redemption' :=
            if String.eqb (agent_type nbfi) "ldi_pension"
            then base_redemption * (OEF.pension_investor_pct o * 2.0)
            else if String.eqb (agent_type nbfi) "insurer"
            then base_redemption * (OEF.insurer_investor_pct o * 1.5)
            else if String.eqb (agent_type nbfi) "hedge_fund"
            then base_redemption * 0.5
            else base_redemption in
          total_redemptions + base_redemption'
        else total_redemptions
    end.

  (** [compute_redemptions] adds what it returns to
      [cumulative_redemption_inflows_mm]. *)
Definition compute_redemptions (self : Agent) (o : OEF.t)
             (network : option RelationshipNetwork) (agents : list Agent)
    : Q * OEF.t :=
    match network with
    | None => (0.0, o)
    | Some net =>
        match Network.get_oef_redeemers net (name self) with
        | [] => (0.0, o)
        | redeemers =>
            let total_redemptions :=
              fold_left (redemption_of o agents) redeemers 0.0 in
            (total_redemptions,
             set_inflows o (OEF.cumulative_redemption_inflows_mm o
                            + total_redemptions))
        end
    end.

Definition compute_reactions (self : Agent) (o : OEF.t) : dict Q :=
    let st0 : waterfall :=
      ([], Qmax 0 (- B1 (liquidity self)) + E1 (liquidity self) * 0.1) in
    let st1 := waterfall_step (get_item self "Cash Buffer")
                 "use_cash_buffer" 0.5 0.7 st0 in
    let st2 := if_shortfall
                 (waterfall_step (get_item self "Gilt Holdings") "sell_gilt"
                    (fst Config.oef_sell_gilt) (snd Config.oef_sell_gilt)) st1 in
    let st3 := if_shortfall
                 (waterfall_step (get_item self "Corporate Bond Holdings")
                    "sell_corp_bonds"
                    (fst Config.oef_sell_corp) (snd Config.oef_sell_corp)) st2 in
    (* 4. swing pricing / gates *)
    let st4 :=
      if Qgtb (snd st3) 0 && Qgtb (OEF.aum_mm o) 0 then
        let redemption_ratio :=
          OEF.cumulative_redemption_inflows_mm o / OEF.aum_mm o in
        if Qgtb redemption_ratio 0.15
        then (dict_set (fst st3) "swing_pricing" (snd st3 * 0.2), snd st3)
        else st3
      else st3 in
    fst st4.

End OEFMMFAgent.

(** ** agents/base.py: the stages *)

Module BaseAgent.

  (** The method of the object's class. *)

Definition compute_initial_buffer (self : Agent) : Agent :=
    let b0 :=
      match ext self with
      | IsBank b => BankAgent.compute_initial_buffer self b
      | IsHedgeFund h => HedgeFundAgent.compute_initial_buffer self h
      | IsLDI l => LDIPensionAgent.compute_initial_buffer self l
      | IsInsurer i => InsurerAgent.compute_initial_buffer self i
      | IsOEF o => OEFMMFAgent.compute_initial_buffer self o
      end in
    set_liquidity self (set_B0 (liquidity self) b0).

Definition compute_mtm_impact (self : Agent) (market : MarketState)
             (day_delta : dict Q) : Q :=
    match ext self with
    | IsBank _ => BankAgent.compute_mtm_impact self day_delta
    | IsHedgeFund h => HedgeFundAgent.compute_mtm_impact self h day_delta
    | IsLDI l => LDIPensionAgent.compute_mtm_impact self l day_delta
    | IsInsurer i => InsurerAgent.compute_mtm_impact self i day_delta
    | IsOEF _ => OEFMMFAgent.compute_mtm_impact self day_delta
    end.

Definition compute_margin_calls (self : Agent) (market : MarketState)
    : option (Q * Agent) :=
    match ext self with
    | IsBank _ => Some (BankAgent.compute_margin_calls self market, self)
    | IsHedgeFund h => Some (HedgeFundAgent.compute_margin_calls h market, self)
    | IsLDI l =>
        match LDIPensionAgent.compute_margin_calls self l market with
        | Some (x, l') => Some (x, set_ext self (IsLDI l'))
        | None => None
        end
    | IsInsurer i => Some (InsurerAgent.compute_margin_calls self i market, self)
    | IsOEF _ => Some (OEFMMFAgent.compute_margin_calls, self)
    end.

Definition compute_redemptions (self : Agent) (market : MarketState)
             (network : option RelationshipNetwork) (agents : list Agent)
    : Q * Agent :=
    match ext self with
    | IsBank _ => (BankAgent.compute_redemptions self market, self)
    | IsHedgeFund h => (HedgeFundAgent.compute_redemptions h market, self)
    | IsLDI l => (LDIPensionAgent.compute_redemptions self l network, self)
    | IsInsurer i => (InsurerAgent.compute_redemptions i market, self)
    | IsOEF o =>
        let '(x, o') := OEFMMFAgent.compute_redemptions self o network agents in
        (x, set_ext self (IsOEF o'))
    end.

Definition compute_reactions (self : Agent) (market : MarketState)
             (network : option RelationshipNetwork) (agents : list Agent)
    : dict Q * Agent :=
    match ext self with
    | IsBank b => (BankAgent.compute_reactions self b, self)
    | IsHedgeFund h =>
        let '(r, h') := HedgeFundAgent.compute_reactions self h market network agents in
        (r, set_ext self (IsHedgeFund h'))
    | IsLDI l =>
        let '(r, l') := LDIPensionAgent.compute_reactions self l market network agents in
        (r, set_ext self (IsLDI l'))
    | IsInsurer i =>
        (InsurerAgent.compute_reactions self i market network agents, self)
    | IsOEF o => (OEFMMFAgent.compute_reactions self o, self)
    end.

  (** [should_react]. *)
Definition should_react (self : Agent) : bool :=
    if Qleb (B0 (liquidity self)) 0 then false
    else Qgtb (E1 (liquidity self) / B0 (liquidity self)) (theta self).

  (** [reset_daily]. *)
Definition reset_daily (self : Agent) : Agent :=
    let l := liquidity self in
    set_reacted (set_liquidity self (mkLiq (B0 l) (B1 l) (B2 l) (B3 l) 0.0 0.0))
                false [].

  (** [apply_stage3]. *)
Definition apply_stage3 (self : Agent) (e2 : Q) : Agent :=
    let l := liquidity self in
    let e2' := E2 l + e2 in
    set_liquidity self (mkLiq (B0 l) (B1 l) (B2 l) (B2 l - e2') (E1 l) e2').

  (** [compute_stage1], on the agent at position [i] of the shared list.
      The list the method receives holds the agent itself, as it stands at
      the time of each call. *)
Definition compute_stage1 (i : nat) (store : list Agent) (market : MarketState)
             (day_delta : dict Q) (network : option RelationshipNetwork)
    : option (list Agent) :=
    match nth_error store i with
    | None => None
    | Some self =>
        let mtm := compute_mtm_impact self market day_delta in
        match compute_margin_calls self market with
        | None => None
        | Some (margin, self1) =>
            let '(redemptions, self2) :=
              compute_redemptions self1 market network (put i self1 store) in
            let l := liquidity self2 in
            let e1 := mtm + margin + redemptions in
            let self3 :=
              set_liquidity self2
                (mkLiq (B0 l) (B0 l - e1) (B2 l) (B3 l) e1 (E2 l)) in
            let self4 :=
              set_cumulative self3
                (cumulative_margin_calls_mm self3 + margin)
                (cumulative_asset_sales_mm self3)
                (cumulative_gilt_sales_mm self3)
                (cumulative_repo_demand_mm self3)
                (cumulative_redemptions_mm self3 + redemptions) in
            Some (put i self4 store)
        end
    end.

  (** The realisation rate of an action in [compute_stage2]. *)
Definition realisation (market : MarketState) (action : string) : Q :=
    if startswith action "sell_" then
      Qmax 0.5 (1.0 - gilt_bid_ask_spread_bps market / 100.0)
    else if str_in "repo" action then repo_market_availability_pct market
    else if str_in "boe" action then 0.95
    else if str_in "redeem" action then 0.90
    else 0.80.

Definition mitigation_of (market : MarketState) (r : dict Q) : Q :=
    fold_left (fun m aa => m + snd aa * realisation market (fst aa)) r 0.0.

  (** The second loop of [compute_stage2], on the three counters
      [(asset_sales, gilt_sales, repo_demand)]. *)
Definition count_action (c : Q * Q * Q) (aa : string * Q) : Q * Q * Q :=
    let '(sales, gilt, repo) := c in
    let sales' := if str_in "sell" (fst aa) then sales + snd aa else sales in
    let gilt' := if str_in "sell" (fst aa) && str_in "gilt" (fst aa)
                 then gilt + snd aa else gilt in
    let repo' := if str_in "repo" (fst aa) then repo + snd aa else repo in
    (sales', gilt', repo').

  (** [compute_stage2]. *)
Definition compute_stage2 (i : nat) (store : list Agent) (market : MarketState)
             (network : option RelationshipNetwork) : list Agent :=
    match nth_error store i with
    | None => store
    | Some self =>
        if negb (should_react self) then
          let self1 := set_reacted self false [] in
          put i (set_liquidity self1
                   (set_B2 (liquidity self1) (B1 (liquidity self1)))) store
        else
          let self1 := set_reacted self true (reactions self) in
          let '(r, self2) :=
            compute_reactions self1 market network (put i self1 store) in
          let self3 := set_reacted self2 true r in
          let mitigation := mitigation_of market r in
          let self4 :=
            set_liquidity self3
              (set_B2 (liquidity self3) (B1 (liquidity self3) + mitigation)) in
          let '(sales, gilt, repo) :=
            fold_left count_action r
              (cumulative_asset_sales_mm self4,
               cumulative_gilt_sales_mm self4,
               cumulative_repo_demand_mm self4) in
          put i (set_cumulative self4 (cumulative_margin_calls_mm self4)
                   sales gilt repo (cumulative_redemptions_mm self4)) store
    end.

  (** [register_actions_to_market], on the three accumulators
      [(gilt_selling, corp_selling, repo_demand)]. *)
Definition register_action (c : Q * Q * Q) (aa : string * Q) : Q * Q * Q :=
    let '(gilt, corp, repo) := c in
    if str_in "gilt" (fst aa) && str_in "sell" (fst aa)
    then (gilt + snd aa, corp, repo)
    else if str_in "corp" (fst aa) && str_in "sell" (fst aa)
    then (gilt, corp + snd aa, repo)
    else if str_in "repo" (fst aa) then (gilt, corp, repo + snd aa)
    else c.

Definition set_endogenous (m : MarketState) (c : Q * Q * Q) : MarketState :=
    mkMarket
      (gilt_10y_yield_chg_bps m) (gilt_30y_yield_chg_bps m)
      (il_gilt_yield_chg_bps m) (ust_10y_yield_chg_bps m)
      (ig_corp_spread_chg_bps m) (hy_corp_spread_chg_bps m)
      (equity_chg_pct m) (sonia_swap_chg_bps m) (fx_gbpusd_chg_pct m)
      (repo_haircut_gilt_chg_pct m) (repo_haircut_corp_chg_pct m)
      (bond_futures_basis_chg_bps m) (vix_level m)
      (gilt_bid_ask_spread_bps m) (corp_bid_ask_spread_bps m)
      (repo_market_availability_pct m)
      (market_depth_gilt_mm m) (market_depth_corp_mm m)
      (fst (fst c)) (snd (fst c)) (snd c)
      (endogenous_gilt_yield_add_bps m) (endogenous_ig_spread_add_bps m)
      (endogenous_equity_add_pct m) (day m).

Definition register_actions_to_market (self : Agent) (market : MarketState)
    : MarketState :=
    set_endogenous market
      (fold_left register_action (reactions self)
         (endogenous_gilt_selling_mm market,
          endogenous_corp_selling_mm market,
          endogenous_repo_demand_mm market)).

End BaseAgent.

(** ** engine/feedback.py and engine/simulation.py *)

(** [sum(1 for a in agents if p(a))]. *)
Definition count_if (p : Agent -> bool) (agents : list Agent) : Q :=
  Qlen (filter p agents).

(** [sum(a.reactions.values())]. *)
Definition reaction_size (a : Agent) : Q := Qsum (dict_values (reactions a)).

(** The scenario file, as [load_scenario] returns it. *)
Record Scenario := mkScenario {
  horizon_days : option nat;
  variable_paths : dict (list Q)
}.

(** [get_scenario_day]: [vals[day]] raises [IndexError] past the end of a
    path. *)
Fixpoint get_scenario_day_paths (paths : dict (list Q)) (d : nat)
  : option (dict Q) :=
  match paths with
  | [] => Some []
  | (var, vals) :: tl =>
      match nth_error vals d, get_scenario_day_paths tl d with
      | Some v, Some rest => Some ((var, v) :: rest)
      | _, _ => None
      end
  end.

Definition get_scenario_day (scenario : Scenario) (d : nat) : option (dict Q) :=
  get_scenario_day_paths (variable_paths scenario) d.

(** [daily_snapshot], with the [day] the driver adds. *)
Record Snapshot := mkSnapshot {
  snap_agent : string;
  snap_agent_type : string;
  snap_size_factor : Q;
  snap_liquidity : LiquidityPosition;
  snap_has_reacted : bool;
  snap_cum_margin : Q;
  snap_cum_sales : Q;
  snap_cum_repo : Q;
  snap_day : nat
}.

Definition daily_snapshot (a : Agent) (d : nat) : Snapshot :=
  mkSnapshot (name a) (agent_type a) (size_factor a) (liquidity a)
             (has_reacted a) (cumulative_margin_calls_mm a)
             (cumulative_asset_sales_mm a) (cumulative_repo_demand_mm a) d.

(** [_compute_summary]. *)
Record Summary := mkRunSummary {
  total_agents : nat;
  agents_reacted : nat;
  total_margin_calls_mm : Q;
  total_asset_sales_mm : Q;
  nbfi_gilt_sales_mm : Q;
  total_repo_demand_mm : Q;
  final_gilt_yield : Q;
  final_ig_spread : Q;
  final_repo_avail : Q;
  hfs_seeking_repo : nat;
  hfs_refused_by_all : nat
}.

(** What [run_simulation] returns. *)
Record Results := mkResults {
  daily_market : list MarketState;
  daily_agents : list Snapshot;
  amplification_ratios : dict Q;
  summary : Summary;
  initial_buffers : dict Q;
  network_summary : Network.summary
}.

Module Simulation.

  (** [for i in range(len(store))], each round on the list the previous
      round left. *)
Definition for_each_index (f : nat -> list Agent -> list Agent)
             (store : list Agent) : list Agent :=
    fold_left (fun st i => f i st) (seq 0 (List.length store)) store.

Definition for_each_index_opt (f : nat -> list Agent -> option (list Agent))
             (store : list Agent) : option (list Agent) :=
    fold_left (fun st i => match st with Some s => f i s | None => None end)
              (seq 0 (List.length store)) (Some store).

  (** In-place change of the agent at position [i]. *)
Definition modify (f : Agent -> Agent) (i : nat) (store : list Agent)
    : list Agent :=
    match nth_error store i with
    | Some a => put i (f a) store
    | None => store
    end.

  (** *** Stage 3 *)

Section Feedback.
    (** [np.sqrt]. *)
Variable np_sqrt : Q -> Q.

Definition hf_bilateral (target : Agent) (store : list Agent) (s : Q)
               (e2 : Q) (bank_name : string) : Q :=
      match agent_map_get store bank_name with
      | Some bank =>
          if has_reacted bank then
            let bank_reaction_size := reaction_size bank in
            match get_item target "Repo Borrowing" with
            | Some repo_item =>
                e2 + amount_mm repo_item
                     * (bank_reaction_size / Qmax (B0 (liquidity bank)) 1)
                     * s * 0.05
            | None => e2
            end
          else e2
      | None => e2
      end.

Definition bank_bilateral (net : RelationshipNetwork) (store : list Agent)
               (s : Q) (e2 : Q) (hf_name : string) : Q :=
      match agent_map_get store hf_name with
      | Some hf =>
          if has_reacted hf then
            let hf_stress := E1 (liquidity hf) / Qmax (B0 (liquidity hf)) 1 in
            let hf_repo := amount_or_zero (get_item hf "Repo Borrowing") in
            let n_banks_for_hf :=
              Qmax (Qlen (Network.get_connected_banks net hf_name)) 1 in
            let bilateral_exposure := hf_repo / n_banks_for_hf in
            let coeff := Config.bank_counterparty_loss_coeff in
            e2 + hf_stress * bilateral_exposure * coeff * s
          else e2
      | None => e2
      end.

Definition oef_bilateral (store : list Agent) (e2 : Q) (nbfi_name : string)
      : Q :=
      match agent_map_get store nbfi_name with
      | Some nbfi =>
          if has_reacted nbfi then e2 + reaction_size nbfi * 0.1 else e2
      | None => e2
      end.

Definition market_broadcast (s num_reacting n_agents : Q) (e2 : Q)
               (item : BalanceSheetItem) : Q :=
      if String.eqb (category item) "liquid_asset" then
        fold_left
          (fun e vs =>
             let market_feedback_mtm :=
               amount_mm item * Qabs (snd vs) * 0.0001 * s * 0.05 in
             e + market_feedback_mtm * (num_reacting / n_agents))
          (sensitivity_map item) e2
      else e2.

    (** The body of [for target in agents] up to [apply_stage3]. *)
Definition stage3_e2 (target : Agent) (store : list Agent)
               (net : RelationshipNetwork) (s num_reacting : Q) : Q :=
      let e2_0 := 0.0 in
      let e2_1 :=
        if String.eqb (agent_type target) "hedge_fund" then
          fold_left (hf_bilateral target store s)
                    (Network.get_connected_banks net (name target)) e2_0
        else if String.eqb (agent_type target) "bank" then
          fold_left (bank_bilateral net store s)
                    (Network.get_connected_hfs net (name target)) e2_0
        else if String.eqb (agent_type target) "oef_mmf" then
          fold_left (oef_bilateral store)
                    (Network.get_oef_redeemers net (name target)) e2_0
        else e2_0 in
      let e2_2 :=
        fold_left (market_broadcast s num_reacting (Qlen store))
                  (balance_sheet target) e2_1 in
      let e2_3 :=
        if has_reacted target
        then e2_2 + reaction_size target * (np_sqrt s - 1.0) * 0.15
        else e2_2 in
      let same_type x := String.eqb (agent_type x) (agent_type target) in
      let same_type_reacting :=
        count_if (fun x => same_type x && has_reacted x) store in
      let same_type_total := count_if same_type store in
      if Qgtb same_type_total 0 && has_reacted target then
        let ratio := same_type_reacting / same_type_total in
        let crowding := ratio * ratio * s * 0.03 in
        e2_3 + reaction_size target * crowding
      else e2_3.

    (** [compute_stage3_feedback]. *)
Definition compute_stage3_feedback (store : list Agent)
               (market : MarketState) (net : RelationshipNetwork) : list Agent :=
      let s := Qmax 1.0 (vix_level market / 15.0) in
      let num_reacting := count_if has_reacted store in
      if Qeq_bool num_reacting 0 then
        for_each_index (modify (fun a => BaseAgent.apply_stage3 a 0.0)) store
      else
        for_each_index
          (fun i st =>
             match nth_error st i with
             | Some target =>
                 put i (BaseAgent.apply_stage3 target
                          (stage3_e2 target st net s num_reacting)) st
             | None => st
             end)
          store.

    (** *** The day loop *)

    (** Stage 1 for one agent. *)
Definition stage1_at (market : MarketState) (day_delta : dict Q)
               (net : RelationshipNetwork) (i : nat) (store : list Agent)
      : option (list Agent) :=
      let store1 :=
        modify (fun a => BaseAgent.compute_initial_buffer (BaseAgent.reset_daily a))
               i store in
      BaseAgent.compute_stage1 i store1 market day_delta (Some net).

Definition stage2_at (market : MarketState) (net : RelationshipNetwork)
               (i : nat) (store : list Agent) : list Agent :=
      BaseAgent.compute_stage2 i store market (Some net).

    (** Pass 1: every agent registers its reactions. *)
Definition register_all (store : list Agent) (market : MarketState)
      : MarketState :=
      fold_left (fun m a => BaseAgent.register_actions_to_market a m) store market.

    (** Pass 2: banks absorb their share of the day's selling. *)
Definition bank_remaining (sel : Bank.t -> Q * Q) (a : Agent) : Q :=
      match ext a with
      | IsBank b => fst (sel b) * (1.0 - snd (sel b))
      | _ => 0.0
      end.

Definition is_bank (a : Agent) : bool := String.eqb (agent_type a) "bank".

Definition remaining_total (sel : Bank.t -> Q * Q) (store : list Agent) : Q :=
      Qsum (map (bank_remaining sel) (filter is_bank store)).

Definition gilt_sel (b : Bank.t) : Q * Q :=
      (Bank.gilt_mm_appetite_mm b, Bank.mm_appetite_consumed_pct b).
Definition corp_sel (b : Bank.t) : Q * Q :=
      (Bank.corp_mm_appetite_mm b, Bank.corp_appetite_consumed_pct b).

Definition absorb_one (market : MarketState)
               (gilt_remaining_total corp_remaining_total : Q) (a : Agent) : Agent :=
      match ext a with
      | IsBank b =>
          let gilt_share :=
            if Qgtb gilt_remaining_total 0
            then endogenous_gilt_selling_mm market
                 * (bank_remaining gilt_sel a / gilt_remaining_total)
            else 0.0 in
          let corp_share :=
            if Qgtb corp_remaining_total 0
            then endogenous_corp_selling_mm market
                 * (bank_remaining corp_sel a / corp_remaining_total)
            else 0.0 in
          set_ext a (IsBank (BankAgent.post_registration_update
                               (has_reacted a) b gilt_share corp_share))
      | _ => a
      end.

Definition absorb_all (store : list Agent) (market : MarketState)
      : list Agent :=
      let g := remaining_total gilt_sel store in
      let c := remaining_total corp_sel store in
      for_each_index (modify (absorb_one market g c)) store.

    (** Stage 3, [feedback_iterations] times, or its replacement when
        feedback is off. *)
Fixpoint feedback_rounds (n : nat) (store : list Agent) (market : MarketState)
             (net : RelationshipNetwork) : option (list Agent * MarketState) :=
      match n with
      | O => Some (store, market)
      | S k =>
          match Market.apply_endogenous_feedback market with
          | Raised _ => None
          | Returned market' =>
              feedback_rounds k (compute_stage3_feedback store market' net)
                              market' net
          end
      end.

Definition no_feedback (a : Agent) : Agent :=
      let l := liquidity a in
      set_liquidity a (mkLiq (B0 l) (B1 l) (B2 l) (B2 l) (E1 l) 0.0).

Definition stage3 (enable_feedback : bool) (feedback_iterations : nat)
               (store : list Agent) (market : MarketState)
               (net : RelationshipNetwork) : option (list Agent * MarketState) :=
      if enable_feedback then feedback_rounds feedback_iterations store market net
      else Some (for_each_index (modify no_feedback) store, market).

    (** [_update_balance_sheets]. *)
Fixpoint sell_from (n : string) (amount : Q) (bs : list BalanceSheetItem)
      : list BalanceSheetItem :=
      match bs with
      | [] => []
      | it :: tl =>
          if String.eqb (item_name it) n then
            mkItem (item_name it) (Qmax 0 (amount_mm it - amount)) (category it)
                   (sensitivity_map it) (is_collateral_eligible it)
                   (is_reaction_instrument it) (current_haircut_pct it) :: tl
          else it :: sell_from n amount tl
      end.

Definition update_for_action (a : Agent) (aa : string * Q) : Agent :=
      if str_in "sell_gilt" (fst aa) then
        match item_or (get_item a "Gilt Holdings")
                      (get_item a "Gilt Positions (net)") with
        | Some item =>
            set_balance_sheet a (sell_from (item_name item) (snd aa)
                                           (balance_sheet a))
        | None => a
        end
      else if str_in "sell_corp" (fst aa) then
        match item_or (get_item a "Corporate Bonds")
                (item_or (get_item a "Corporate Bond Holdings")
                         (get_item a "Corp Bond Positions")) with
        | Some item =>
            set_balance_sheet a (sell_from (item_name item) (snd aa)
                                           (balance_sheet a))
        | None => a
        end
      else a.

Definition update_balance_sheet (a : Agent) : Agent :=
      fold_left update_for_action (reactions a) a.

Definition update_balance_sheets (store : list Agent) : list Agent :=
      for_each_index (modify update_balance_sheet) store.

Definition set_day (m : MarketState) (d : nat) : MarketState :=
      mkMarket
        (gilt_10y_yield_chg_bps m) (gilt_30y_yield_chg_bps m)
        (il_gilt_yield_chg_bps m) (ust_10y_yield_chg_bps m)
        (ig_corp_spread_chg_bps m) (hy_corp_spread_chg_bps m)
        (equity_chg_pct m) (sonia_swap_chg_bps m) (fx_gbpusd_chg_pct m)
        (repo_haircut_gilt_chg_pct m) (repo_haircut_corp_chg_pct m)
        (bond_futures_basis_chg_bps m) (vix_level m)
        (gilt_bid_ask_spread_bps m) (corp_bid_ask_spread_bps m)
        (repo_market_availability_pct m)
        (market_depth_gilt_mm m) (market_depth_corp_mm m)
        (endogenous_gilt_selling_mm m) (endogenous_corp_selling_mm m)
        (endogenous_repo_demand_mm m)
        (endogenous_gilt_yield_add_bps m) (endogenous_ig_spread_add_bps m)
        (endogenous_equity_add_pct m) d.

    (** The state the day loop carries. *)
Record RunState := mkRun {
      run_agents : list Agent;
      run_market : MarketState;
      run_daily_market : list MarketState;
      run_daily_agents : list Snapshot
    }.

    (** [day_values], [prev] and [day_delta] of a day. *)
Definition day_inputs (scenario : Scenario) (d : nat)
      : option (dict Q * dict Q) :=
      match get_scenario_day scenario d with
      | None => None
      | Some day_values =>
          let prev :=
            match d with
            | O => Some (map (fun kv => (fst kv, 0.0)) day_values)
            | S d' => get_scenario_day scenario d'
            end in
          match prev with
          | None => None
          | Some prev =>
              Some (day_values,
                    map (fun kv => (fst kv,
                                    snd kv - dict_get_default prev (fst kv) 0.0))
                        day_values)
          end
      end.

    (** The day up to and including pass 2. *)
Definition day_reactions (net : RelationshipNetwork) (scenario : Scenario)
               (d : nat) (store : list Agent) (market : MarketState)
      : option (list Agent * MarketState) :=
      match day_inputs scenario d with
      | None => None
      | Some (day_values, day_delta) =>
          let market1 :=
            Market.apply_exogenous_scenario (set_day market d) day_values in
          match for_each_index_opt (stage1_at market1 day_delta net) store with
          | None => None
          | Some store1 =>
              let store2 := for_each_index (stage2_at market1 net) store1 in
              let market2 := register_all store2 market1 in
              Some (absorb_all store2 market2, market2)
          end
      end.

    (** One round of [for day in range(n_days)]. *)
Definition day_step (net : RelationshipNetwork) (scenario : Scenario)
               (enable_feedback : bool) (feedback_iterations : nat)
               (st : RunState) (d : nat) : option RunState :=
      match day_reactions net scenario d (run_agents st) (run_market st) with
      | None => None
      | Some (store3, market2) =>
          match stage3 enable_feedback feedback_iterations store3 market2 net with
          | None => None
          | Some (store4, market3) =>
              Some (mkRun (update_balance_sheets store4) market3
                          (run_daily_market st ++ [market3])%list
                          (run_daily_agents st
                           ++ map (fun a => daily_snapshot a d) store4)%list)
          end
      end.

    (** [_compute_amplification]. *)
Definition direct_loss (initial_buffers : dict Q) (a : Agent) : Q :=
      dict_get_default initial_buffers (name a) 0.0 - B1 (liquidity a).
Definition total_loss (initial_buffers : dict Q) (a : Agent) : Q :=
      dict_get_default initial_buffers (name a) 0.0 - B3 (liquidity a).

Definition per_agent_ratios (agents : list Agent) (initial_buffers : dict Q)
               (ratios : dict Q) : dict Q :=
      fold_left
        (fun r a =>
           let direct := direct_loss initial_buffers a in
           let total := total_loss initial_buffers a in
           dict_set r (name a) (if Qgtb direct 0 then total / direct else 1.0))
        agents ratios.

    (** [type_direct[a.agent_type] += d] on a [defaultdict(float)]. *)
Definition dict_add (d : dict Q) (k : string) (x : Q) : dict Q :=
      dict_set d k (dict_get_default d k 0.0 + x).

Definition type_sums (loss : Agent -> Q) (agents : list Agent) : dict Q :=
      fold_left (fun d a => dict_add d (agent_type a) (Qmax (loss a) 0.001))
                agents [].

Definition per_type_ratios (agents : list Agent) (initial_buffers : dict Q)
               (ratios : dict Q) : dict Q :=
      let type_direct := type_sums (direct_loss initial_buffers) agents in
      let type_total := type_sums (total_loss initial_buffers) agents in
      fold_left
        (fun r kd =>
           dict_set r ("Type:" ++ fst kd)
                    (dict_get_default type_total (fst kd) 0.0 / snd kd))
        type_direct ratios.

Definition system_wide_ratio (agents : list Agent) (initial_buffers : dict Q)
      : Q :=
      let total_d :=
        Qsum (map (fun a => Qmax (direct_loss initial_buffers a) 0.001) agents) in
      let total_t :=
        Qsum (map (fun a => Qmax (total_loss initial_buffers a) 0.001) agents) in
      if Qgtb total_d 0 then total_t / total_d else 1.0.

Definition compute_amplification (agents : list Agent)
               (initial_buffers : dict Q) : dict Q :=
      let r1 := per_agent_ratios agents initial_buffers [] in
      let r2 := per_type_ratios agents initial_buffers r1 in
      dict_set r2 "System-Wide" (system_wide_ratio agents initial_buffers).

    (** [_compute_summary]. *)
Definition hf_flag (sel : HedgeFund.t -> bool) (a : Agent) : bool :=
      match ext a with
      | IsHedgeFund h => sel h
      | _ => false
      end.

Definition compute_summary (agents : list Agent) (market : MarketState)
      : Summary :=
      mkRunSummary
        (List.length agents)
        (List.length (filter has_reacted agents))
        (Qsum (map cumulative_margin_calls_mm agents))
        (Qsum (map cumulative_asset_sales_mm agents))
        (Qsum (map cumulative_gilt_sales_mm
                   (filter (fun a => negb (is_bank a)) agents)))
        (Qsum (map cumulative_repo_demand_mm agents))
        (gilt_10y_yield_chg_bps market)
        (ig_corp_spread_chg_bps market)
        (repo_market_availability_pct market)
        (List.length (filter (hf_flag HedgeFund.has_ever_sought_repo) agents))
        (List.length (filter (hf_flag HedgeFund.repo_refused_by_all) agents)).

    (** [run_simulation]: the results, with the agents as the run leaves
        them. *)
Definition run_days (net : RelationshipNetwork) (scenario : Scenario)
               (enable_feedback : bool) (feedback_iterations : nat)
               (days : list nat) (st : RunState) : option RunState :=
      fold_left
        (fun s d =>
           match s with
           | Some s' => day_step net scenario enable_feedback feedback_iterations s' d
           | None => None
           end)
        days (Some st).

Definition n_days (scenario : Scenario) : nat :=
      match horizon_days scenario with Some n => n | None => 10%nat end.

Definition initial_state (agents : list Agent) : RunState :=
      mkRun (for_each_index (modify BaseAgent.compute_initial_buffer) agents)
            Market.init [] [].

Definition initial_buffers_of (agents : list Agent) : dict Q :=
      fold_left (fun d a => dict_set d (name a) (B0 (liquidity a))) agents [].

Definition run_simulation (agents : list Agent) (net : RelationshipNetwork)
               (scenario : Scenario) (enable_feedback : bool)
               (feedback_iterations : nat) : option (Results * list Agent) :=
      let st0 := initial_state agents in
      let ib := initial_buffers_of (run_agents st0) in
      match run_days net scenario enable_feedback feedback_iterations
                     (seq 0 (n_days scenario)) st0 with
      | None => None
      | Some st =>
          Some (mkResults (run_daily_market st) (run_daily_agents st)
                          (compute_amplification (run_agents st) ib)
                          (compute_summary (run_agents st) (run_market st))
                          ib (Network.network_summary net),
                run_agents st)
      end.

End Feedback.

End Simulation.

(** ** network.py: [build_network] *)

Module Builder.

Section WithRng.
    (** numpy's [Generator], as far as [build_network] uses it.
        [integers g low high] is [rng.integers(low, high)];
        [choice g n size p] is [rng.choice(a, size=size, replace=False, p=p)]
        on a population [a] of [n] elements, as the positions drawn. *)
Variable rng : Type.
Variable integers : rng -> Z -> Z -> Z * rng.
Variable choice : rng -> nat -> nat -> list Q -> list nat * rng.

    (** [sizes / sizes.sum()]; dividing by a zero sum gives NaNs, which
        [choice] rejects. *)
Definition probs (sizes : list Q) : option (list Q) :=
      if Qeq_bool (Qsum sizes) 0 then None
      else Some (map (fun x => x / Qsum sizes) sizes).

    (** The conditions under which [choice] does not raise [ValueError]. *)
Definition choice_ok (n size : nat) (p : list Q) : bool :=
      (List.length p =? n)%nat
      && (size <=? n)%nat
      && forallb (fun x => Qleb 0 x) p
      && (size <=? List.length (filter (fun x => Qgtb x 0) p))%nat.

    (** [rng.choice(population, size=size, replace=False, p=p)]. *)
Definition choose (g : rng) (population : list Agent) (size : nat)
               (p : option (list Q)) : option (list Agent * rng) :=
      match p with
      | None => None
      | Some p =>
          if choice_ok (List.length population) size p then
            let '(idx, g') := choice g (List.length population) size p in
            Some (flat_map (fun i => match nth_error population i with
                                     | Some a => [a] | None => [] end) idx,
                  g')
          else None
      end.

Definition has_type (ty : string) (a : Agent) : bool :=
      String.eqb (agent_type a) ty.

    (** The edges one agent adds: [(graph edges, the class's edge list)]. *)
Definition link_bank (rel : string) (x : Agent)
               (acc : list (string * string * string) * list (string * string))
               (bank : Agent) :=
      (Network.add_edge (fst acc) (name x) (name bank) rel,
       (snd acc ++ [(name bank, name x)])%list).

Definition link_oef (x : Agent)
               (acc : list (string * string * string) * list (string * string))
               (oef : Agent) :=
      (Network.add_edge (fst acc) (name x) (name oef) "redemption",
       (snd acc ++ [(name x, name oef)])%list).

    (** The state of the builder: the generator, the graph's edges and
        the edge list being filled. *)
Definition bstate :=
      (rng * (list (string * string * string) * list (string * string)))%type.

    (** One round of [for hf in hfs] (and of the loops for LDI funds and
        insurers, which differ in the bounds and in the cap on [size]). *)
Definition bank_round (banks : list Agent) (bank_probs : option (list Q))
               (low high : Z) (cap : bool) (rel : string)
               (st : option bstate) (x : Agent) : option bstate :=
      match st with
      | None => None
      | Some (g, acc) =>
          let '(n_banks, g1) := integers g low high in
          let size := if cap then Nat.min (Z.to_nat n_banks) (List.length banks)
                      else Z.to_nat n_banks in
          match choose g1 banks size bank_probs with
          | None => None
          | Some (chosen, g2) => Some (g2, fold_left (link_bank rel x) chosen acc)
          end
      end.

Definition oef_round (oefs : list Agent) (st : option bstate) (x : Agent)
      : option bstate :=
      match st with
      | None => None
      | Some (g, acc) =>
          match oefs with
          | [] => Some (g, acc)
          | _ :: _ =>
              let oef_probs := probs (map size_factor oefs) in
              let '(n_oefs, g1) :=
                integers g 1 (Z.min 4 (Z.of_nat (List.length oefs) + 1)) in
              match choose g1 oefs (Z.to_nat n_oefs) oef_probs with
              | None => None
              | Some (chosen, g2) => Some (g2, fold_left (link_oef x) chosen acc)
              end
          end
      end.

    (** [build_network], on a fresh [RelationshipNetwork()], with the
        generator [np.random.default_rng(seed)]. *)
Definition build_network (g0 : rng) (agents : list Agent)
      : option RelationshipNetwork :=
      let banks := filter (has_type "bank") agents in
      let hfs := filter (has_type "hedge_fund") agents in
      let ldis := filter (has_type "ldi_pension") agents in
      let insurers := filter (has_type "insurer") agents in
      let oefs := filter (has_type "oef_mmf") agents in
      let nodes :=
        fold_left (fun ns a => Network.add_node ns (name a) (agent_type a))
                  agents [] in
      let bank_probs := probs (map size_factor banks) in
      match fold_left (bank_round banks bank_probs 2 4 false "prime_brokerage")
                      hfs (Some (g0, ([], []))) with
      | None => None
      | Some (g1, (e1, bank_hf)) =>
      match fold_left (bank_round banks bank_probs 1 3 false "clearing_member")
                      ldis (Some (g1, (e1, []))) with
      | None => None
      | Some (g2, (e2, bank_ldi)) =>
      match fold_left (bank_round banks bank_probs 1 4 true "derivatives_repo")
                      insurers (Some (g2, (e2, []))) with
      | None => None
      | Some (g3, (e3, bank_ins)) =>
      match fold_left (oef_round oefs) (hfs ++ ldis ++ insurers)%list
                      (Some (g3, (e3, []))) with
      | None => None
      | Some (_, (e4, nbfi_oef)) =>
          Some (mkNetwork nodes e4 bank_hf bank_ldi bank_ins nbfi_oef)
      end end end end.

End WithRng.

  (** A generator to run the builder with: a counter; [integers] walks
      through the interval, [choice] takes the first [size] positions of
      positive probability. *)
Definition counter_integers (g : nat) (low high : Z) : Z * nat :=
    ((low + Z.of_nat g mod (high - low))%Z, S g).

Fixpoint positive_positions (i : nat) (p : list Q) : list nat :=
    match p with
    | [] => []
    | x :: tl => if Qgtb x 0 then i :: positive_positions (S i) tl
                 else positive_positions (S i) tl
    end.

Definition counter_choice (g : nat) (n size : nat) (p : list Q)
    : list nat * nat :=
    (firstn size (positive_positions 0 p), S g).

End Builder.

(** ** The constructors *)

Inductive exn :=
| TypeError (unexpected_keyword : string).

Definition result (A : Type) : Type := (exn + A)%type.

(** A keyword argument's value. *)
Inductive value :=
| VStr (s : string)
| VNum (q : Q).

Module Construct.

  (** [def __init__(self, name, agent_type, theta, size_factor=1.0)]. *)
Definition BaseAgent_parameters : list string :=
    ["name"; "agent_type"; "theta"; "size_factor"].

  (** What [BaseAgent.__init__] leaves on the object before the subclass
      fills in the rest. *)
Definition base_object (name : string) (theta size_factor : Q) (e : AgentExt)
    : Agent :=
    mkAgent name theta size_factor [] (mkLiq 0.0 0.0 0.0 0.0 0.0 0.0)
            false [] 0.0 0.0 0.0 0.0 0.0 e.

  (** A call of [super().__init__] with keyword arguments: a keyword that is not a
      parameter of [BaseAgent.__init__] is a [TypeError]. *)
Definition BaseAgent_init (kwargs : dict value) (name : string)
             (theta size_factor : Q) (e : AgentExt) : result Agent :=
    match find (fun kv => negb (existsb (String.eqb (fst kv)) BaseAgent_parameters))
               kwargs with
    | Some kv => inl (TypeError (fst kv))
    | None => inr (base_object name theta size_factor e)
    end.

  (** *** Bank *)

Record BankConfig := mkBankConfig {
    bank_name : string;
    bank_theta : Q;
    bank_total_bs_mm : Q;
    bank_buffer_usability : option Q;
    bank_tier : string;
    bank_risk_appetite : Q;
    mm_gilt_appetite_mm : Q;
    mm_corp_bond_appetite_mm : Q;
    mm_appetite_consumed_pct : Q;
    rp_total_capacity_mm : Q;
    rp_willingness_to_roll_pct : Q;
    rp_willingness_to_extend_new_pct : Q;
    rp_haircut_sensitivity : Q;
    bank_gilt_holdings_mm : Q;
    bank_corp_bond_holdings_mm : Q;
    bank_equity_portfolio_mm : Q;
    bank_repo_lending_mm : Q;
    bank_derivative_assets_mm : Q;
    bank_boe_facility_eligible_mm : Q;
    bank_wholesale_funding_mm : Q;
    bank_cet1_buffer_mm : Q
  }.

Definition bank_attributes (c : BankConfig) : Bank.t :=
    Bank.mk (bank_tier c) (bank_risk_appetite c) (bank_total_bs_mm c)
            (mm_gilt_appetite_mm c) (mm_corp_bond_appetite_mm c)
            (mm_appetite_consumed_pct c)
            (rp_total_capacity_mm c) (rp_willingness_to_roll_pct c)
            (rp_willingness_to_extend_new_pct c)
            (rp_haircut_sensitivity c)
            [] 0.0 [] [].

Definition bank_ext (c : BankConfig) : AgentExt := IsBank (bank_attributes c).

Definition bank_balance_sheet (c : BankConfig) : list BalanceSheetItem :=
    [ mkItem "Gilt Holdings" (bank_gilt_holdings_mm c) "liquid_asset"
             [("gilt_10y_yield", -0.00045); ("gilt_30y_yield", -0.00065)]
             true true 0.0;
      mkItem "Corporate Bond Holdings" (bank_corp_bond_holdings_mm c) "liquid_asset"
             [("ig_corp_spread", -0.0004); ("hy_corp_spread", -0.0002)]
             true true 0.0;
      mkItem "Equity Portfolio" (bank_equity_portfolio_mm c) "liquid_asset"
             [("equity", 0.01)] false true 0.0;
      mkItem "Repo Lending" (bank_repo_lending_mm c) "liquid_asset"
             [] false false 0.0;
      mkItem "Derivative Assets" (bank_derivative_assets_mm c) "illiquid_asset"
             [("gilt_10y_yield", -0.0002); ("sonia_swap", -0.0002)]
             false false 0.0;
      mkItem "BoE Facility Eligible" (bank_boe_facility_eligible_mm c) "liquid_asset"
             [] true false 0.0;
      mkItem "Wholesale Funding" (bank_wholesale_funding_mm c) "liability"
             [] false false 0.0;
      mkItem "CET1 Buffer" (bank_cet1_buffer_mm c) "equity"
             [] false false 0.0 ].

  (** The body of [BankAgent.__init__] after the call of
      [super().__init__]. *)
Definition bank_body (c : BankConfig) (base : Agent) : Agent :=
    set_balance_sheet base (bank_balance_sheet c).

  (** [BankAgent.__init__]: it passes [buffer_usability] on to
      [BaseAgent.__init__]. *)
Definition BankAgent_init (c : BankConfig) : result Agent :=
    let kwargs :=
      [("name", VStr (bank_name c));
       ("agent_type", VStr "bank");
       ("theta", VNum (bank_theta c));
       ("size_factor", VNum (bank_total_bs_mm c));
       ("buffer_usability",
        VNum (match bank_buffer_usability c with Some u => u | None => 0.0 end))]
    in
    match BaseAgent_init kwargs (bank_name c) (bank_theta c) (bank_total_bs_mm c)
                         (bank_ext c) with
    | inl e => inl e
    | inr base => inr (bank_body c base)
    end.

  (** The bank the body of the constructor builds on a base object that
      was made with the four parameters only. *)
Definition bank_object (c : BankConfig) : Agent :=
    bank_body c (base_object (bank_name c) (bank_theta c) (bank_total_bs_mm c)
                             (bank_ext c)).

  (** *** Hedge fund *)

  (** [_sample_range] and [_mid]: the middle of a two-element range. *)
Definition mid_range (r : list Q) : Q :=
    match r with
    | [a; b] => (a + b) / 2.0
    | _ => 0.0
    end.

Definition or_default {A : Type} (x : option A) (d : A) : A :=
    match x with Some v => v | None => d end.

Record HFProfile := mkHFProfile {
    prof_primary_sensitivities : option (list string);
    prof_secondary_sensitivities : option (list string);
    prof_gilt_exposure_pct : option (list Q);
    prof_equity_exposure_pct : option (list Q);
    prof_corp_bond_exposure_pct : option (list Q);
    prof_basis_trade_pct : option (list Q)
  }.

Record HFConfig := mkHFConfig {
    hf_name : string;
    hf_theta : Q;
    hf_aum_mm : Q;
    hf_strategy : string;
    hf_gross_leverage : Q;
    hf_var_utilisation : Q;
    hf_deleverage_trigger_var_pct : Q;
    hf_repo_dependence : option string;
    hf_strategy_profile : HFProfile
  }.

  (** [REPO_DEP_MULT.get(self.repo_dependence, 0.5)]. *)
Definition REPO_DEP_MULT : dict Q :=
    [("low", 0.2); ("medium", 0.5); ("high", 0.8); ("very_high", 1.0)].

Definition mem (x : string) (xs : list string) : bool :=
    existsb (String.eqb x) xs.

Definition build_gilt_sensitivity (primary secondary : list string) : dict Q :=
    let s1 := if mem "gilt_10y_yield" primary
              then [("gilt_10y_yield", -0.0006)]
              else if mem "gilt_10y_yield" secondary
              then [("gilt_10y_yield", -0.0002)] else [] in
    let s2 := if mem "gilt_30y_yield" primary
              then dict_set s1 "gilt_30y_yield" (-0.0008) else s1 in
    let s3 := if mem "sonia_swap" primary
              then dict_set s2 "sonia_swap" (-0.0003) else s2 in
    match s3 with
    | [] => [("gilt_10y_yield", -0.0002)]
    | _ => s3
    end.

Definition build_equity_sensitivity (primary secondary : list string) : dict Q :=
    if mem "equity" primary then [("equity", 0.012)]
    else if mem "equity" secondary then [("equity", 0.005)]
    else [("equity", 0.002)].

Definition build_corp_sensitivity (primary : list string) : dict Q :=
    let s1 := if mem "ig_corp_spread" primary
              then [("ig_corp_spread", -0.0005)] else [] in
    let s2 := if mem "hy_corp_spread" primary
              then dict_set s1 "hy_corp_spread" (-0.0003) else s1 in
    match s2 with
    | [] => [("ig_corp_spread", -0.0002)]
    | _ => s2
    end.

Definition HedgeFundAgent_init (c : HFConfig) : result Agent :=
    let kwargs :=
      [("name", VStr (hf_name c));
       ("agent_type", VStr "hedge_fund");
       ("theta", VNum (hf_theta c));
       ("size_factor", VNum (hf_aum_mm c))] in
    let repo_dependence := or_default (hf_repo_dependence c) "medium" in
    let repo_dep_mult := dict_get_default REPO_DEP_MULT repo_dependence 0.5 in
    let profile := hf_strategy_profile c in
    let primary := or_default (prof_primary_sensitivities profile) [] in
    let secondary := or_default (prof_secondary_sensitivities profile) [] in
    let e :=
      IsHedgeFund
        (HedgeFund.mk (hf_strategy c) (hf_aum_mm c) (hf_gross_leverage c)
                      (hf_var_utilisation c) (hf_deleverage_trigger_var_pct c)
                      repo_dependence repo_dep_mult primary secondary
                      false false) in
    match BaseAgent_init kwargs (hf_name c) (hf_theta c) (hf_aum_mm c) e with
    | inl err => inl err
    | inr base =>
        let gross_exposure := hf_aum_mm c * hf_gross_leverage c in
        let gilt_pct :=
          mid_range (or_default (prof_gilt_exposure_pct profile) [0.0; 0.1]) in
        let equity_pct :=
          mid_range (or_default (prof_equity_exposure_pct profile) [0.0; 0.1]) in
        let corp_pct :=
          mid_range (or_default (prof_corp_bond_exposure_pct profile) [0.0; 0.1]) in
        let basis_pct :=
          mid_range (or_default (prof_basis_trade_pct profile) [0.0; 0.0]) in
        inr (set_balance_sheet base
          [ mkItem "Gilt Positions (net)" (gross_exposure * gilt_pct) "liquid_asset"
                   (build_gilt_sensitivity primary secondary) true true 0.0;
            mkItem "Equity Positions" (gross_exposure * equity_pct) "liquid_asset"
                   (build_equity_sensitivity primary secondary) false true 0.0;
            mkItem "Corp Bond Positions" (gross_exposure * corp_pct) "liquid_asset"
                   (build_corp_sensitivity primary) true true 0.0;
            mkItem "Basis Trade Positions" (gross_exposure * basis_pct) "liquid_asset"
                   [("bond_futures_basis", -0.001); ("gilt_10y_yield", -0.0003)]
                   false true 0.0;
            mkItem "Cash & Margin" (hf_aum_mm c * 0.10) "liquid_asset"
                   [] false false 0.0;
            mkItem "Repo Borrowing" (gross_exposure * repo_dep_mult * 0.3) "liability"
                   [] false false 0.0;
            mkItem "Margin Posted" (hf_aum_mm c * 0.08) "illiquid_asset"
                   [] false false 0.0 ])
    end.

  (** *** LDI / pension fund *)

Record LDIConfig := mkLDIConfig {
    ldi_name : string;
    ldi_theta : Q;
    ldi_yield_buffer_bps : Q;
    ldi_gilt_holdings_mm : Q;
    ldi_il_gilt_holdings_mm : Q;
    ldi_corp_bond_holdings_mm : Q;
    ldi_cash_and_mmf_mm : Q;
    ldi_derivatives_exposure_notional_mm : Q;
    ldi_leverage_ratio : Q;
    ldi_unencumbered_collateral_mm : Q;
    ldi_margin_posted_mm : Q;
    ldi_pension_scheme_can_recapitalise_mm : Q;
    ldi_recapitalisation_speed_days : Z;
    ldi_pre_agreed_waterfall : bool
  }.

Definition LDIPensionAgent_init (c : LDIConfig) : result Agent :=
    let aum_mm := ldi_gilt_holdings_mm c + ldi_il_gilt_holdings_mm c
                  + ldi_corp_bond_holdings_mm c + ldi_cash_and_mmf_mm c in
    let kwargs :=
      [("name", VStr (ldi_name c));
       ("agent_type", VStr "ldi_pension");
       ("theta", VNum (ldi_theta c));
       ("size_factor", VNum aum_mm)] in
    let e :=
      IsLDI (LDI.mk (ldi_yield_buffer_bps c) (ldi_leverage_ratio c) aum_mm
                    (ldi_pension_scheme_can_recapitalise_mm c)
                    (ldi_recapitalisation_speed_days c)
                    (ldi_pre_agreed_waterfall c) 0.0 0.0) in
    match BaseAgent_init kwargs (ldi_name c) (ldi_theta c) aum_mm e with
    | inl err => inl err
    | inr base =>
        inr (set_balance_sheet base
          [ mkItem "Gilt Holdings" (ldi_gilt_holdings_mm c) "liquid_asset"
                   [("gilt_10y_yield", -0.0006); ("gilt_30y_yield", -0.0009)]
                   true true 0.0;
            mkItem "IL Gilt Holdings" (ldi_il_gilt_holdings_mm c) "liquid_asset"
                   [("il_gilt_yield", -0.0007)] true true 0.0;
            mkItem "Corporate Bond Holdings" (ldi_corp_bond_holdings_mm c)
                   "liquid_asset" [("ig_corp_spread", -0.0004)] true true 0.0;
            mkItem "Cash & MMF" (ldi_cash_and_mmf_mm c) "liquid_asset"
                   [] false false 0.0;
            mkItem "Derivatives Exposure" (ldi_derivatives_exposure_notional_mm c)
                   "off_bs"
                   [("gilt_10y_yield", -0.0003); ("sonia_swap", -0.0003);
                    ("gilt_30y_yield", -0.0004)] false false 0.0;
            mkItem "Unencumbered Collateral" (ldi_unencumbered_collateral_mm c)
                   "liquid_asset" [] true false 0.0;
            mkItem "Margin Posted" (ldi_margin_posted_mm c) "illiquid_asset"
                   [] false false 0.0 ])
    end.

  (** *** Insurer *)

Record InsurerConfig := mkInsurerConfig {
    ins_name : string;
    ins_theta : Q;
    ins_hedge_ratio : Q;
    ins_dirty_csa_pct : Q;
    ins_gilt_holdings_mm : Q;
    ins_corp_bond_holdings_mm : Q;
    ins_equity_portfolio_mm : Q;
    ins_derivative_hedges_notional_mm : Q;
    ins_cash_and_liquid_mm : Q;
    ins_margin_posted_mm : Q;
    ins_committed_repo_lines_mm : Q;
    ins_rcf_available_mm : Q
  }.

Definition InsurerAgent_init (c : InsurerConfig) : result Agent :=
    let total_mm := ins_gilt_holdings_mm c + ins_corp_bond_holdings_mm c
                    + ins_equity_portfolio_mm c + ins_cash_and_liquid_mm c in
    let kwargs :=
      [("name", VStr (ins_name c));
       ("agent_type", VStr "insurer");
       ("theta", VNum (ins_theta c));
       ("size_factor", VNum total_mm)] in
    let e :=
      IsInsurer (Insurer.mk (ins_hedge_ratio c) (ins_dirty_csa_pct c) total_mm
                            (ins_committed_repo_lines_mm c)
                            (ins_rcf_available_mm c)) in
    match BaseAgent_init kwargs (ins_name c) (ins_theta c) total_mm e with
    | inl err => inl err
    | inr base =>
        inr (set_balance_sheet base
          [ mkItem "Gilt Holdings" (ins_gilt_holdings_mm c) "liquid_asset"
                   [("gilt_10y_yield", -0.0005); ("gilt_30y_yield", -0.0007)]
                   true true 0.0;
            mkItem "Corporate Bond Holdings" (ins_corp_bond_holdings_mm c)
                   "liquid_asset"
                   [("ig_corp_spread", -0.0004); ("hy_corp_spread", -0.0002)]
                   true true 0.0;
            mkItem "Equity Portfolio" (ins_equity_portfolio_mm c) "liquid_asset"
                   [("equity", 0.01)] false true 0.0;
            mkItem "Derivative Hedges" (ins_derivative_hedges_notional_mm c)
                   "off_bs"
                   [("gilt_10y_yield", -0.0002); ("sonia_swap", -0.0002)]
                   false false 0.0;
            mkItem "Cash & Liquid" (ins_cash_and_liquid_mm c) "liquid_asset"
                   [] false false 0.0;
            mkItem "Margin Posted" (ins_margin_posted_mm c) "illiquid_asset"
                   [] false false 0.0;
            mkItem "Committed Repo Lines" (ins_committed_repo_lines_mm c)
                   "liquid_asset" [] true false 0.0;
            mkItem "RCF Available" (ins_rcf_available_mm c) "liquid_asset"
                   [] false false 0.0 ])
    end.

  (** *** Pooled fund *)

Record OEFConfig := mkOEFConfig {
    oef_name : string;
    oef_theta : Q;
    oef_aum_mm : Q;
    oef_strategy : string;
    oef_pension_investor_pct : Q;
    oef_insurer_investor_pct : Q;
    oef_cash_buffer_pct : Q;
    comp_gilt_pct : option (list Q);
    comp_corp_pct : option (list Q);
    comp_abs_pct : option (list Q);
    comp_cash_pct : option (list Q)
  }.

Definition OEFMMFAgent_init (c : OEFConfig) : result Agent :=
    let kwargs :=
      [("name", VStr (oef_name c));
       ("agent_type", VStr "oef_mmf");
       ("theta", VNum (oef_theta c));
       ("size_factor", VNum (oef_aum_mm c))] in
    let e :=
      IsOEF (OEF.mk (oef_strategy c) (oef_aum_mm c) (oef_pension_investor_pct c)
                    (oef_insurer_investor_pct c) (oef_cash_buffer_pct c) 0.0) in
    match BaseAgent_init kwargs (oef_name c) (oef_theta c) (oef_aum_mm c) e with
    | inl err => inl err
    | inr base =>
        let gilt_pct := mid_range (or_default (comp_gilt_pct c) [0.2; 0.3]) in
        let corp_pct := mid_range (or_default (comp_corp_pct c) [0.1; 0.2]) in
        let abs_pct := mid_range (or_default (comp_abs_pct c) [0.0; 0.05]) in
        let cash_pct0 := mid_range (or_default (comp_cash_pct c) [0.0; 0.0]) in
        let cash_pct := if Qeq_bool cash_pct0 0 then oef_cash_buffer_pct c
                        else cash_pct0 in
        inr (set_balance_sheet base
          [ mkItem "Gilt Holdings" (oef_aum_mm c * gilt_pct) "liquid_asset"
                   [("gilt_10y_yield", -0.0005); ("gilt_30y_yield", -0.0006)]
                   true true 0.0;
            mkItem "Corporate Bond Holdings" (oef_aum_mm c * corp_pct)
                   "liquid_asset"
                   [("ig_corp_spread", -0.0004); ("hy_corp_spread", -0.0002)]
                   true true 0.0;
            mkItem "ABS Holdings" (oef_aum_mm c * abs_pct) "illiquid_asset"
                   [("ig_corp_spread", -0.0002)] false false 0.0;
            mkItem "Cash Buffer" (oef_aum_mm c * cash_pct) "liquid_asset"
                   [] false false 0.0 ])
    end.

End Construct.

(** ** The names of the actions *)

(** The actions the five classes record, by the branch of
    [compute_stage2] that prices them. *)
Definition sale_actions : list string :=
  ["sell_gilt"; "sell_corp_bonds"; "sell_equity"; "sell_gilt_basis_unwind";
   "sell_gilt_il"].
Definition repo_actions : list string :=
  ["seek_repo"; "reduce_repo_lending"; "draw_repo_line"].
Definition boe_actions : list string := ["boe_facility"].
Definition redeem_actions : list string := ["redeem_mmf"].
Definition other_actions : list string :=
  ["use_cash_buffer"; "post_collateral"; "recapitalisation"; "draw_rcf";
   "swing_pricing"].

Definition known_actions : list string :=
  (sale_actions ++ repo_actions ++ boe_actions ++ redeem_actions
   ++ other_actions)%list.

(** The keys of a waterfall are action names that [compute_stage2] knows. *)
Definition known (st : waterfall) : Prop :=
  incl (dict_keys (fst st)) known_actions.

(** [amount * realisation] of a recorded reaction. *)
Definition realised (market : MarketState) (aa : string * Q) : Q :=
  snd aa * BaseAgent.realisation market (fst aa).

(** ** Vocabulary of the statements *)

(** Two lookups that both fail, or both find related agents. *)
Definition option_rel (R : Agent -> Agent -> Prop) (x y : option Agent) : Prop :=
  match x, y with
  | Some a, Some b => R a b
  | None, None => True
  | _, _ => False
  end.

(** What [compute_redemptions] of a pooled fund reads of another agent. *)
Definition same_view (a b : Agent) : Prop :=
  name a = name b /\ liquidity a = liquidity b
  /\ size_factor a = size_factor b /\ agent_type a = agent_type b.

(** [cumulative_redemption_inflows_mm] of a pooled fund. *)
Definition inflows (a : Agent) : Q :=
  match ext a with
  | IsOEF o => OEF.cumulative_redemption_inflows_mm o
  | _ => 0.0
  end.

(** The names of the agents of a class. *)
Definition names_of (ty : string) (agents : list Agent) : list string :=
  map name (filter (Builder.has_type ty) agents).

(** The edges of the graph that join a node to a bank. *)
Definition joins_bank (bank_names : list string) (n : string)
           (e : string * string * string) : bool :=
  (String.eqb (fst (fst e)) n && existsb (String.eqb (snd (fst e))) bank_names)
  || (String.eqb (snd (fst e)) n && existsb (String.eqb (fst (fst e))) bank_names).

Definition bank_edges_of (net : RelationshipNetwork) (bank_names : list string)
           (n : string) : list (string * string * string) :=
  filter (joins_bank bank_names n) (graph_edges net).

(** The rounds of a loop of [build_network]: each agent with the agents
    drawn for it. *)
Definition round_edges (r : Agent * list Agent) : list (string * string) :=
  map (fun b => (name b, name (fst r))) (snd r).

Definition round_edges_oef (r : Agent * list Agent) : list (string * string) :=
  map (fun o => (name (fst r), name o)) (snd r).

(** An agent without what stage 3 writes: [E2] and [B3]. *)
Definition erase (a : Agent) : Agent :=
  let l := liquidity a in
  set_liquidity a (mkLiq (B0 l) (B1 l) (B2 l) 0 (E1 l) 0).

(** A market without what only [apply_endogenous_feedback] reads. *)
Definition erase_depth (m : MarketState) : MarketState := Market.set_depth m 0 0.

(** Well-formed agents: a threshold that is not negative, holdings that
    are not negative, a risk appetite of at most 1, a size that is not
    negative. *)
Definition wf_item (it : BalanceSheetItem) : Prop := 0 <= amount_mm it.

Definition wf_agent (a : Agent) : Prop :=
  0 <= theta a
  /\ Forall wf_item (balance_sheet a)
  /\ match ext a with
     | IsBank b => Bank.risk_appetite b <= 1
     | IsHedgeFund h => 0 <= HedgeFund.aum_mm h
     | IsLDI l => 0 <= LDI.aum_mm l
     | IsInsurer i => 0 <= Insurer.total_mm i
     | IsOEF _ => True
     end.

(** The amounts of a waterfall, and of an agent's reactions. *)
Definition amounts_nonneg (r : dict Q) : Prop := Forall (fun aa => 0 <= snd aa) r.

(** An agent as stage 3 finds it. *)
Definition settled (a : Agent) : Prop :=
  Forall wf_item (balance_sheet a)
  /\ amounts_nonneg (reactions a)
  /\ (has_reacted a = true -> 0 <= E1 (liquidity a)).

(** One [apply_stage3] with a contribution that is not negative. *)
Definition bumped (a a' : Agent) : Prop :=
  exists e2, 0 <= e2 /\ a' = BaseAgent.apply_stage3 a e2.

(** ** The claims of the specification, in its own words, where they are
    compared with the code *)

Module Claimed.

  (** The willingness of a bank to lend: linear from 1 at zero stress to 0
      at the refusal threshold, the stress being [E1 / B0]. *)
Definition willingness (bank : Agent) : Q :=
    let stress := E1 (liquidity bank) / B0 (liquidity bank) in
    Qmax 0 (1 - stress / Config.bank_repo_refusal_stress_threshold).

Definition assess_repo_request (bank : Agent) (b : Bank.t) (amount : Q) : Q :=
    Qmin amount (Bank.repo_capacity_mm b * Bank.willingness_to_extend_new_pct b
                 * Bank.risk_appetite b * willingness bank).

  (** The realisation rate of an action by its kind, the insurer's two
      draws being facility draws. *)
Definition facility_draws : list string :=
    ["boe_facility"; "draw_repo_line"; "draw_rcf"].

Definition realisation (market : MarketState) (action : string) : Q :=
    if startswith action "sell_" then
      Qmax 0.5 (1 - gilt_bid_ask_spread_bps market / 100)
    else if existsb (String.eqb action) facility_draws then 0.95
    else if str_in "repo" action then repo_market_availability_pct market
    else if str_in "redeem" action then 0.90
    else 0.80.

  (** Two calls of [compute_redemptions] in a row, on the agent at
      position [i]: the same result, and the agent as the first call left
      it. *)
Definition redemptions_query_is_pure (i : nat) (store : list Agent)
             (market : MarketState) (network : option RelationshipNetwork)
    : Prop :=
    match nth_error store i with
    | Some self =>
        let r1 := BaseAgent.compute_redemptions self market network store in
        let r2 := BaseAgent.compute_redemptions (snd r1) market network
                    (put i (snd r1) store) in
        fst r2 == fst r1 /\ snd r2 = snd r1
    | None => True
    end.

End Claimed.

(** ** A small population to run the code on *)

Module Fixtures.
Import Construct.

Definition empty_network : RelationshipNetwork := mkNetwork [] [] [] [] [] [].

  (** One day: gilt yields up 200bp, the volatility index at 30. *)
Definition scenario : Scenario :=
    mkScenario (Some 1%nat) [("gilt_10y_yield", [200]); ("vix", [30])].

Definition day_values : dict Q := [("gilt_10y_yield", 200); ("vix", 30)].

Definition market : MarketState :=
    Market.apply_exogenous_scenario Market.init day_values.

  (** A bank whose buffer is its floor, [250 * 0.002 = 0.5]. *)
Definition bank_config : BankConfig :=
    mkBankConfig "Bank_01" 0.4 250 None "small" 1
                 10 3 0
                 100 0.9 1 1
                 0 0 0 0 100 0 0 0.

Definition small_bank : Agent :=
    BaseAgent.compute_initial_buffer (bank_object bank_config).

Definition bank_network : RelationshipNetwork :=
    mkNetwork [("Bank_01", "bank"); ("HF_01", "hedge_fund")]
              [("HF_01", "Bank_01", "prime_brokerage")]
              [("Bank_01", "HF_01")] [] [] [].

  (** The bank after stage 1 of a day on which only the gilt yield has
      moved (by 200bp, at a calm volatility index). *)
Definition small_bank_attributes : Bank.t := bank_attributes bank_config.

Definition stressed_bank : Agent :=
    match BaseAgent.compute_stage1 0 [small_bank]
            (Market.apply_exogenous_scenario Market.init [("gilt_10y_yield", 200)])
            [] (Some bank_network) with
    | Some (a :: _) => a
    | _ => small_bank
    end.

  (** An insurer that holds cash, hedges and its two facilities only. *)
Definition insurer_config : InsurerConfig :=
    mkInsurerConfig "Insurer_01" 0.45 0.5 0 0 0 0 100000 10 0 100 100.

Definition built (r : result Agent) : list Agent :=
    match r with inr a => [a] | inl _ => [] end.

Definition insurers : list Agent := built (InsurerAgent_init insurer_config).

  (** The insurer after stage 1 and after stage 2 of the day. *)
Definition insurers_stage1 : list Agent :=
    match Simulation.stage1_at market day_values empty_network 0 insurers with
    | Some s => s
    | None => insurers
    end.

Definition insurers_stage2 : list Agent :=
    Simulation.stage2_at market empty_network 0 insurers_stage1.

  (** A pooled fund of which the insurer is an investor. *)
Definition oef_config : OEFConfig :=
    mkOEFConfig "OEF_01" 0.2 4 "short_duration" 0.4 0.3 0.05
                None None None None.

Definition redemption_network : RelationshipNetwork :=
    mkNetwork [("Insurer_01", "insurer"); ("OEF_01", "oef_mmf")]
              [("Insurer_01", "OEF_01", "redemption")]
              [] [] [] [("Insurer_01", "OEF_01")].

Definition funds : list Agent :=
    (insurers ++ built (OEFMMFAgent_init oef_config))%list.

  (** Stage 1 for the insurer, then for the pooled fund. *)
Definition funds_stage1 : list Agent :=
    match Simulation.for_each_index_opt
            (Simulation.stage1_at market day_values redemption_network) funds with
    | Some s => s
    | None => funds
    end.

Definition pooled_fund : Agent := nth 1 funds_stage1 (hd small_bank funds).

  (** Three banks and one fund of each other class, for the network
      builder. *)
Definition named_bank (n : string) (total_bs : Q) : Agent :=
    bank_object
      (mkBankConfig n 0.4 total_bs None "small" 0.5
                    10 3 0 100 0.9 0.8 1
                    0 0 0 0 100 0 0 0).

Definition hf_config : HFConfig :=
    mkHFConfig "HF_01" 0.25 2000 "macro_rates" 5 0.9 0.8 (Some "high")
               (mkHFProfile (Some ["gilt_10y_yield"]) None
                            (Some [0.3; 0.5]) None None None).

Definition ldi_config : LDIConfig :=
    mkLDIConfig "LDI_01" 0.3 80 3000 1000 500 200 6000 3 400 250 300 3 false.

Definition population : list Agent :=
    ([named_bank "Bank_01" 100000; named_bank "Bank_02" 200000;
      named_bank "Bank_03" 300000]
     ++ built (HedgeFundAgent_init hf_config)
     ++ built (LDIPensionAgent_init ldi_config)
     ++ insurers
     ++ built (OEFMMFAgent_init oef_config))%list.

  (** A square root on rationals, from below, to six decimals. *)
Definition sqrt6 (x : Q) : Q :=
    Z.sqrt (Qnum x * Zpos (Qden x) * 1000000000000) # (Qden x * 1000000).

End Fixtures.

(** ** Vocabulary of the further properties *)

(** The values of [config.MarketVariable], the names [get_variable]
    knows. *)
Definition MarketVariable : list string :=
  ["gilt_10y_yield"; "gilt_30y_yield"; "il_gilt_yield"; "ust_10y_yield";
   "ig_corp_spread"; "hy_corp_spread"; "equity"; "sonia_swap"; "fx_gbpusd";
   "repo_haircut_gilt"; "repo_haircut_corp"; "bond_futures_basis"; "vix"].

(** [day_values.get(k, default)] as [apply_exogenous_scenario] writes it:
    15.0 for the volatility index, 0.0 for everything else. *)
Definition scenario_default (k : string) : Q :=
  if String.eqb k "vix" then 15.0 else 0.0.

(** The floor [compute_initial_buffer] puts under the buffer: the class's
    fraction of the agent's size. *)
Definition buffer_floor (a : Agent) : Q :=
  match ext a with
  | IsBank b => Bank.total_bs_mm b * Config.bank_floor_pct_of_bs
  | IsHedgeFund h => HedgeFund.aum_mm h * Config.hf_floor_pct_of_aum
  | IsLDI l => LDI.aum_mm l * Config.ldi_floor_pct_of_aum
  | IsInsurer i => Insurer.total_mm i * Config.insurer_floor_pct_of_assets
  | IsOEF o => OEF.aum_mm o * Config.oef_floor_pct_of_aum
  end.

(** The day's moves with every sign turned. *)
Definition negated (d : dict Q) : dict Q := map (fun kv => (fst kv, - snd kv)) d.

(** A leverage that does not turn a loss into a gain: at least 1 for a
    hedge fund, not negative for an LDI fund. *)
Definition leverage_ok (a : Agent) : Prop :=
  match ext a with
  | IsHedgeFund h => 1 <= HedgeFund.gross_leverage h
  | IsLDI l => 0 <= LDI.ldi_leverage_ratio l
  | _ => True
  end.

(** The actions by the accumulator [register_actions_to_market] adds them
    to. *)
Definition gilt_sale_actions : list string :=
  ["sell_gilt"; "sell_gilt_il"; "sell_gilt_basis_unwind"].
Definition unregistered_actions : list string :=
  ["sell_equity"; "boe_facility"; "redeem_mmf"; "use_cash_buffer";
   "post_collateral"; "recapitalisation"; "draw_rcf"; "swing_pricing"].

(** A waterfall that has raised, in amounts that are not negative and
    under the names [L], what is missing from [S] in its shortfall. *)
Definition within (S : Q) (L : list string) (st : waterfall) : Prop :=
  amounts_nonneg (fst st) /\ 0 <= snd st
  /\ Qsum (dict_values (fst st)) + snd st == S
  /\ incl (dict_keys (fst st)) L.

(** A line of a balance sheet after sales: the same line, with an amount
    between 0 and the old one. *)
Definition sold_from (it it' : BalanceSheetItem) : Prop :=
  item_name it' = item_name it /\ category it' = category it
  /\ sensitivity_map it' = sensitivity_map it
  /\ 0 <= amount_mm it' <= amount_mm it.

(** An agent of which at most the balance sheet has changed, by sales. *)
Definition after_sales (a a' : Agent) : Prop :=
  Forall2 sold_from (balance_sheet a) (balance_sheet a')
  /\ set_balance_sheet a' (balance_sheet a) = a.

(** The same agent at another time: the same name and class. *)
Definition same_agent (a a' : Agent) : Prop :=
  name a' = name a /\ agent_type a' = agent_type a.

(** The day and the agent of a recorded snapshot. *)
Definition snapshot_key (s : Snapshot) : nat * string :=
  (snap_day s, snap_agent s).

(** An agent as its constructor leaves it. *)
Definition fresh_agent (a : Agent) (n ty : string) (th size : Q) : Prop :=
  name a = n /\ agent_type a = ty /\ theta a = th /\ size_factor a = size
  /\ liquidity a = mkLiq 0.0 0.0 0.0 0.0 0.0 0.0
  /\ has_reacted a = false /\ reactions a = []
  /\ NoDup (map item_name (balance_sheet a)).

(** The condition [wf_agent] puts on the attributes of the class. *)
Definition wf_ext (e : AgentExt) : Prop :=
  match e with
  | IsBank b => Bank.risk_appetite b <= 1
  | IsHedgeFund h => 0 <= HedgeFund.aum_mm h
  | IsLDI l => 0 <= LDI.aum_mm l
  | IsInsurer i => 0 <= Insurer.total_mm i
  | IsOEF _ => True
  end.

(** An agent of a run as stage 3 finds it on the first round of a day. *)
Definition ready (a : Agent) : Prop :=
  wf_agent a /\ settled a /\ E2 (liquidity a) = 0.0.

(** An agent of a run between two rounds of stage 3, and after the last. *)
Definition in_feedback (a : Agent) : Prop :=
  wf_agent a /\ settled a /\ 0 <= E2 (liquidity a).

Definition after_feedback (a : Agent) : Prop :=
  in_feedback a /\ B3 (liquidity a) <= B2 (liquidity a).

(** The System-Wide ratio a run reports. *)
Definition reported_system_wide (r : Results) : Q :=
  dict_get_default (amplification_ratios r) "System-Wide" 0.0.

(** An agent of the run with feedback beside the agent of the run without
    it: the same agent but for [E2] and [B3], with a [B3] that is not
    higher. *)
Definition behind (a b : Agent) : Prop :=
  erase a = erase b /\ B3 (liquidity a) <= B3 (liquidity b).




(** The calls that write the market during a run: the two of [Market.call]
    and the registration of an agent's reactions. *)
Inductive market_call :=
| OnMarket (c : Market.call)
| Register (a : Agent).

Definition run_market_call (m : MarketState) (c : market_call) : MarketState :=
  match c with
  | OnMarket c => Market.run_call m c
  | Register a => BaseAgent.register_actions_to_market a m
  end.

Definition run_market_calls (m : MarketState) (cs : list market_call)
  : MarketState :=
  fold_left run_market_call cs m.

(** ** Further agents to run the code on *)

Module Examples.
Import Construct.

  (** A bank with holdings and a risk appetite of one half, as the body of
      its constructor builds it, with its initial buffer (540). *)
Definition bank_config : BankConfig :=
    mkBankConfig "Bank_01" 0.4 100000 None "large" 0.5
                 1000 500 0
                 2000 0.9 0.8 1
                 20000 10000 5000 8000 3000 6000 4000 500.

Definition bank : Agent :=
    BaseAgent.compute_initial_buffer (bank_object bank_config).

Definition bank_attributes : Bank.t := Construct.bank_attributes bank_config.

  (** A day on which gilt yields rise by 300bp at a volatility index of
      45. *)
Definition shock : dict Q :=
    [("gilt_10y_yield", 300); ("gilt_30y_yield", 300); ("vix", 45)].

Definition shocked_market : MarketState :=
    Market.apply_exogenous_scenario Market.init shock.

  (** The bank after stage 1 of that day. *)
Definition shocked_bank : Agent :=
    match BaseAgent.compute_stage1 0 [bank] shocked_market shock
            (Some Fixtures.bank_network) with
    | Some (a :: _) => a
    | _ => bank
    end.

  (** An insurer with gilts, corporate bonds and equities, after stages 1
      and 2 of that day. *)
Definition insurer_config : InsurerConfig :=
    mkInsurerConfig "Insurer_01" 0.45 0.5 0 8000 4000 2000 10000 300 0 100 100.

Definition insurers : list Agent :=
    Fixtures.built (InsurerAgent_init insurer_config).

Definition insurers_stage2 : list Agent :=
    match Simulation.for_each_index_opt
            (Simulation.stage1_at shocked_market shock Fixtures.empty_network)
            insurers with
    | Some s =>
        Simulation.for_each_index
          (Simulation.stage2_at shocked_market Fixtures.empty_network) s
    | None => insurers
    end.

End Examples.

(** * Properties *)

(** ** Comparisons and lists *)

(** Split a conjunction into its parts, and no further. *)
Ltac split_conj := repeat match goal with |- _ /\ _ => split end.

Lemma Qgtb_true (a b : Q) : Qgtb a b = true <-> b < a.
Proof.
  unfold Qgtb. rewrite negb_true_iff. split; intro H.
  - apply Qnot_le_lt. intro Hle. apply Qle_bool_iff in Hle. congruence.
  - destruct (Qle_bool a b) eqn:E; [|reflexivity].
    apply Qle_bool_iff in E. exfalso. apply (Qlt_not_le _ _ H E).
Qed.

Lemma Qgtb_false (a b : Q) : Qgtb a b = false <-> a <= b.
Proof.
  unfold Qgtb. rewrite negb_false_iff. apply Qle_bool_iff.
Qed.

Lemma Qleb_true (a b : Q) : Qleb a b = true <-> a <= b.
Proof. apply Qle_bool_iff. Qed.

Lemma Qleb_false (a b : Q) : Qleb a b = false <-> b < a.
Proof.
  unfold Qleb. split; intro H.
  - apply Qnot_le_lt. intro Hle. apply Qle_bool_iff in Hle. congruence.
  - destruct (Qle_bool a b) eqn:E; [|reflexivity].
    apply Qle_bool_iff in E. exfalso. apply (Qlt_not_le _ _ H E).
Qed.

Lemma nth_error_put_same (i : nat) (a : Agent) (store : list Agent) :
  (i < List.length store)%nat -> nth_error (put i a store) i = Some a.
Proof.
  revert i. induction store as [|x tl IH]; intros [|i] H; simpl in *;
    try lia; [reflexivity | apply IH; lia].
Qed.

Lemma nth_error_put_other (i j : nat) (a : Agent) (store : list Agent) :
  i <> j -> nth_error (put i a store) j = nth_error store j.
Proof.
  revert i j. induction store as [|x tl IH]; intros [|i] [|j] H; simpl;
    try reflexivity; try congruence.
  apply IH. congruence.
Qed.

Lemma length_put (i : nat) (a : Agent) (store : list Agent) :
  List.length (put i a store) = List.length store.
Proof.
  revert i. induction store as [|x tl IH]; intros [|i]; simpl; auto.
Qed.

(** ** C1: the gating rule *)

(** C1.  [should_react] answers true exactly when [B0 > 0] and
    [E1 / B0 > theta]; for [B0 <= 0] it answers false whatever [E1] is.
    The agent is any agent object, of any class. *)
Theorem should_react_iff (a : Agent) :
  (BaseAgent.should_react a = true
   <-> 0 < B0 (liquidity a) /\ theta a < E1 (liquidity a) / B0 (liquidity a))
  /\ (B0 (liquidity a) <= 0 -> BaseAgent.should_react a = false).
Proof.
  unfold BaseAgent.should_react. split.
  - destruct (Qleb (B0 (liquidity a)) 0) eqn:E.
    + apply Qleb_true in E. split; [discriminate|].
      intros [H _]. exfalso. apply (Qlt_not_le _ _ H E).
    + apply Qleb_false in E. rewrite Qgtb_true. tauto.
  - intro H. apply Qleb_true in H. rewrite H. reflexivity.
Qed.

(** ** C2: the balance identities *)

Lemma apply_stage3_B3 (a : Agent) (e2 : Q) :
  let a' := BaseAgent.apply_stage3 a e2 in
  B3 (liquidity a') = B2 (liquidity a') - E2 (liquidity a')
  /\ E2 (liquidity a') = E2 (liquidity a) + e2
  /\ B2 (liquidity a') = B2 (liquidity a).
Proof. simpl. auto. Qed.


(** ** C10: the repo market never closes *)

Lemma exogenous_repo_floor (m : MarketState) (dv : dict Q) :
  0.5 <= repo_market_availability_pct (Market.apply_exogenous_scenario m dv).
Proof. simpl. apply Q.le_max_l. Qed.

Lemma endogenous_repo_floor (m : MarketState) :
  0.5 <= repo_market_availability_pct
           (outcome_state (Market.apply_endogenous_feedback m)).
Proof.
  unfold Market.apply_endogenous_feedback.
  destruct (Qeq_bool _ 0); simpl; apply Q.le_max_l.
Qed.

Lemma run_call_repo_floor (m : MarketState) (c : Market.call) :
  0.5 <= repo_market_availability_pct (Market.run_call m c).
Proof.
  destruct c as [dv|];
    [exact (exogenous_repo_floor m dv) | exact (endogenous_repo_floor m)].
Qed.

Lemma run_market_calls_repo_floor (cs : list market_call) (m : MarketState) :
  0.5 <= repo_market_availability_pct m ->
  0.5 <= repo_market_availability_pct (run_market_calls m cs).
Proof.
  unfold run_market_calls. revert m.
  induction cs as [|c cs IH]; intros m Hm; cbn [fold_left]; [exact Hm|].
  apply IH. destruct c as [c|a]; cbn [run_market_call].
  - apply run_call_repo_floor.
  - exact Hm.
Qed.

(** C10.  After [apply_exogenous_scenario], and after
    [apply_endogenous_feedback] (also when it raises half-way),
    [repo_market_availability_pct] is at least 0.5, whatever the market
    was before the call, the repo demand it had accumulated included.  So
    it is at least 0.5 after any sequence, from the initial market, of
    these two calls and of the registrations of reactions that add to the
    repo demand.  The floor is reached: from an availability of at most 1
    and a repo demand of 100000 or more, the feedback leaves exactly
    0.5. *)
Theorem repo_availability_floor :
  (forall m dv,
      0.5 <= repo_market_availability_pct (Market.apply_exogenous_scenario m dv))
  /\ (forall m,
         0.5 <= repo_market_availability_pct
                  (outcome_state (Market.apply_endogenous_feedback m)))
  /\ (forall cs,
         0.5 <= repo_market_availability_pct (run_market_calls Market.init cs))
  /\ (forall m,
         repo_market_availability_pct m <= 1 ->
         100000 <= endogenous_repo_demand_mm m ->
         repo_market_availability_pct
           (outcome_state (Market.apply_endogenous_feedback m)) == 0.5).
Proof.
  split; [exact exogenous_repo_floor|].
  split; [exact endogenous_repo_floor|].
  split.
  - intro cs. apply run_market_calls_repo_floor. discriminate.
  - intros m Hav Hdemand. unfold Market.apply_endogenous_feedback.
    assert (Hp : 2 <= endogenous_repo_demand_mm m / 50000.0).
    { apply Qle_shift_div_l; [reflexivity|].
      apply Qle_trans with 100000; [discriminate | exact Hdemand]. }
    destruct (Qeq_bool _ 0); cbn [outcome_state repo_market_availability_pct
                                   Market.set_depth Market.feedback_prices];
      apply Q.max_l; lra.
Qed.

(** ** C8: what a bank lends *)

Lemma stress_scaling_shape (self : Agent) :
  let stress := BankAgent.stress_ratio self in
  let threshold := Config.bank_repo_refusal_stress_threshold in
  (stress == 0 -> BankAgent.stress_scaling self == 1)
  /\ (threshold <= stress -> BankAgent.stress_scaling self == 0)
  /\ (stress <= threshold ->
      BankAgent.stress_scaling self == 1 - stress / threshold).
Proof.
  intros stress threshold. unfold BankAgent.stress_scaling.
  fold stress. fold threshold.
  assert (Ht : 0 < threshold) by (unfold threshold, Qlt; simpl; lia).
  assert (Hdiv : stress / threshold * threshold == stress)
    by (field; intro H; rewrite H in Ht; apply (Qlt_irrefl _ Ht)).
  assert (H1 : (1.0 : Q) == 1) by reflexivity.
  assert (H0 : (0.0 : Q) == 0) by reflexivity.
  repeat split; intro H.
  - rewrite H. destruct (Q.max_spec 0.0 (1.0 - 0 / threshold)) as [[_ ->]|[Hc ->]].
    + rewrite H1. field. intro E. rewrite E in Ht. apply (Qlt_irrefl _ Ht).
    + exfalso. apply (Qle_not_lt _ _ Hc). rewrite H0, H1.
      unfold Qdiv. rewrite Qmult_0_l. unfold Qlt. simpl. lia.
  - assert (1 <= stress / threshold).
    { apply Qle_shift_div_l; [exact Ht|]. rewrite Qmult_1_l. exact H. }
    destruct (Q.max_spec 0.0 (1.0 - stress / threshold)) as [[Hc _]|[_ ->]].
    + exfalso. rewrite H0, H1 in Hc. lra.
    + exact H0.
  - assert (stress / threshold <= 1).
    { apply Qle_shift_div_r; [exact Ht|]. rewrite Qmult_1_l. exact H. }
    destruct (Q.max_spec 0.0 (1.0 - stress / threshold)) as [[_ ->]|[Hc ->]].
    + rewrite H1. reflexivity.
    + rewrite H0, H1 in *. lra.
Qed.

(** C8, as amended.  [assess_repo_request] returns 0 for a requester the
    network does not connect to the bank (and without a network).  For a
    connected requester it returns the minimum of the amount asked and
    [repo_capacity * willingness_to_extend_new * risk_appetite * w], where
    the stress is [E1 / max(B0, 1)] and [w] is 1 at zero stress, falls
    linearly with the stress, and is 0 from the refusal threshold on. *)
Theorem assess_repo_request_amended
        (self : Agent) (b : Bank.t) (requester : string) (amount : Q)
        (net : RelationshipNetwork) :
  BankAgent.assess_repo_request self b requester amount None = 0.0
  /\ (BankAgent.connected_to net (name self) requester = false ->
      BankAgent.assess_repo_request self b requester amount (Some net) = 0.0)
  /\ (BankAgent.connected_to net (name self) requester = true ->
      BankAgent.assess_repo_request self b requester amount (Some net)
      = Qmin amount (Bank.repo_capacity_mm b
                     * Bank.willingness_to_extend_new_pct b
                     * Bank.risk_appetite b * BankAgent.stress_scaling self))
  /\ BankAgent.stress_ratio self
     = E1 (liquidity self) / Qmax (B0 (liquidity self)) 1.0
  /\ (BankAgent.stress_ratio self == 0 -> BankAgent.stress_scaling self == 1)
  /\ (Config.bank_repo_refusal_stress_threshold <= BankAgent.stress_ratio self ->
      BankAgent.stress_scaling self == 0)
  /\ (BankAgent.stress_ratio self <= Config.bank_repo_refusal_stress_threshold ->
      BankAgent.stress_scaling self
      == 1 - BankAgent.stress_ratio self
             / Config.bank_repo_refusal_stress_threshold).
Proof.
  destruct (stress_scaling_shape self) as (S0 & S1 & S2).
  repeat split; auto.
  - intro H. simpl. rewrite H. reflexivity.
  - intro H. simpl. rewrite H. reflexivity.
Qed.

(** The amended statement at the bank of the fixtures, which is connected
    to [HF_01] and is asked for 50. *)
Lemma assess_repo_request_amended_witness :
  BankAgent.connected_to Fixtures.bank_network (name Fixtures.stressed_bank)
                         "HF_01" = true
  /\ BankAgent.assess_repo_request Fixtures.stressed_bank
       Fixtures.small_bank_attributes "HF_01" 50 (Some Fixtures.bank_network)
     = Qmin 50 (Bank.repo_capacity_mm Fixtures.small_bank_attributes
                * Bank.willingness_to_extend_new_pct Fixtures.small_bank_attributes
                * Bank.risk_appetite Fixtures.small_bank_attributes
                * BankAgent.stress_scaling Fixtures.stressed_bank).
Proof.
  split; [reflexivity|].
  apply (assess_repo_request_amended Fixtures.stressed_bank
           Fixtures.small_bank_attributes "HF_01" 50 Fixtures.bank_network).
  reflexivity.
Defined.

(** C8 as stated fails: the bank of the fixtures has [B0 = 0.5] and
    [E1 = 0.1], so [E1 / B0 = 0.2] is below the threshold and the claimed
    willingness is [1 - 0.2 / 0.266353]; the code divides by
    [max(B0, 1) = 1] and lends the 50 asked for. *)
Lemma assess_repo_request_counterexample :
  B0 (liquidity Fixtures.stressed_bank) == 0.5
  /\ E1 (liquidity Fixtures.stressed_bank) == 0.1
  /\ BankAgent.connected_to Fixtures.bank_network (name Fixtures.stressed_bank)
                            "HF_01" = true
  /\ BankAgent.assess_repo_request Fixtures.stressed_bank
       Fixtures.small_bank_attributes "HF_01" 50 (Some Fixtures.bank_network)
     == 50
  /\ Claimed.assess_repo_request Fixtures.stressed_bank
       Fixtures.small_bank_attributes 50 == 6635300 # 266353
  /\ ~ (BankAgent.assess_repo_request Fixtures.stressed_bank
         Fixtures.small_bank_attributes "HF_01" 50 (Some Fixtures.bank_network)
       == Claimed.assess_repo_request Fixtures.stressed_bank
            Fixtures.small_bank_attributes 50).
Proof.
  split_conj; try (vm_compute; reflexivity).
  vm_compute. discriminate.
Qed.

(** ** C3: what stage 2 credits *)

Lemma dict_keys_set (d : dict Q) (k : string) (v : Q) :
  incl (dict_keys (dict_set d k v)) (k :: dict_keys d).
Proof.
  induction d as [|[k' v'] d IH]; simpl.
  - intros x Hx. exact Hx.
  - destruct (String.eqb k' k) eqn:E; simpl.
    + intros x [<-|Hx]; [right; left; reflexivity | right; right; exact Hx].
    + intros x [<-|Hx]; [right; left; reflexivity|].
      destruct (IH x Hx) as [<-|H]; [left; reflexivity | right; right; exact H].
Qed.


Lemma known_set (st : waterfall) (k : string) (v s : Q) :
  In k known_actions -> known st -> known (dict_set (fst st) k v, s).
Proof.
  intros Hk Hst x Hx. apply dict_keys_set in Hx.
  destruct Hx as [<-|Hx]; [exact Hk | exact (Hst x Hx)].
Qed.

Lemma known_waterfall_step item action sf hc st :
  In action known_actions -> known st ->
  known (waterfall_step item action sf hc st).
Proof.
  intros Hk Hst. unfold waterfall_step.
  destruct item as [it|]; [|exact Hst].
  destruct (Qgtb (amount_mm it) 0); [|exact Hst].
  apply known_set; assumption.
Qed.

Lemma known_if_shortfall f st :
  (forall s, known s -> known (f s)) -> known st -> known (if_shortfall f st).
Proof.
  intros Hf Hst. unfold if_shortfall. destruct (Qgtb (snd st) 0); auto.
Qed.

Lemma known_seek_repo_step self_name market network agents banks_of ask st :
  known st ->
  known (seek_repo_step self_name market network agents banks_of ask st).
Proof.
  intro Hst. unfold seek_repo_step.
  destruct network as [net|]; [|exact Hst].
  destruct (Qgtb (snd st) 0); [|exact Hst].
  destruct (Qgtb _ 0); [|exact Hst].
  apply known_set; [|exact Hst]. unfold known_actions. simpl. tauto.
Qed.

Lemma known_redeem_step self_name network sf cap st :
  known st -> known (redeem_step self_name network sf cap st).
Proof.
  intro Hst. unfold redeem_step.
  destruct network as [net|]; [|exact Hst].
  destruct (Qgtb (snd st) 0); [|exact Hst].
  destruct (Network.get_redemption_targets net self_name); [exact Hst|].
  apply known_set; [|exact Hst]. unfold known_actions. simpl. tauto.
Qed.

Lemma known_nil (s : Q) : known ([], s).
Proof. intros x []. Qed.

Ltac known_action := unfold known_actions; simpl; tauto.

Ltac known_steps :=
  repeat first
    [ apply known_nil
    | apply known_redeem_step
    | apply known_seek_repo_step
    | apply known_if_shortfall; [intros ? ?|]
    | apply known_waterfall_step; [known_action|]
    | assumption ].

Lemma known_bank_reactions self b :
  incl (dict_keys (BankAgent.compute_reactions self b)) known_actions.
Proof.
  unfold BankAgent.compute_reactions.
  change (known (if_shortfall
    (waterfall_step (get_item self "Corporate Bond Holdings") "sell_corp_bonds"
       (fst Config.bank_sell_corp) (snd Config.bank_sell_corp))
    (if_shortfall
       (waterfall_step (get_item self "Gilt Holdings") "sell_gilt"
          (fst Config.bank_sell_gilt) (snd Config.bank_sell_gilt))
       (if_shortfall
          (waterfall_step (get_item self "Repo Lending") "reduce_repo_lending"
             0.3 ((1.0 - Bank.risk_appetite b) * 0.3))
          (waterfall_step (get_item self "BoE Facility Eligible")
             "boe_facility" 0.3 0.5 ([], Qmax 0 (- B1 (liquidity self)))))))).
  known_steps.
Qed.

Lemma known_insurer_reactions self i market network agents :
  incl (dict_keys (InsurerAgent.compute_reactions self i market network agents))
       known_actions.
Proof.
  unfold InsurerAgent.compute_reactions.
  match goal with |- incl (dict_keys (fst ?st)) _ => change (known st) end.
  known_steps.
Qed.

Lemma known_oef_reactions self o :
  incl (dict_keys (OEFMMFAgent.compute_reactions self o)) known_actions.
Proof.
  unfold OEFMMFAgent.compute_reactions.
  match goal with |- incl (dict_keys (fst ?st)) _ => change (known st) end.
  match goal with
  | |- known (if ?c then _ else ?st3) =>
      assert (H3 : known st3) by known_steps; destruct c; [|exact H3]
  end.
  match goal with
  | |- known (if ?c then _ else _) => destruct c; [|exact H3]
  end.
  apply known_set; [known_action | exact H3].
Qed.

Lemma known_ldi_reactions self l market network agents :
  incl (dict_keys (fst (LDIPensionAgent.compute_reactions self l market
                          network agents)))
       known_actions.
Proof.
  unfold LDIPensionAgent.compute_reactions.
  match goal with
  | |- context [LDIPensionAgent.recap_step l ?st1] =>
      assert (H1 : known st1) by known_steps;
      assert (H2 : known (fst (LDIPensionAgent.recap_step l st1)))
  end.
  { unfold LDIPensionAgent.recap_step.
    destruct (_ && _); [|exact H1].
    apply known_set; [known_action | exact H1]. }
  destruct (LDIPensionAgent.recap_step l _) as [st2 l2]. simpl in H2. simpl.
  match goal with |- incl (dict_keys (fst ?st)) _ => change (known st) end.
  known_steps.
Qed.

Lemma known_hf_reactions self h market network agents :
  incl (dict_keys (fst (HedgeFundAgent.compute_reactions self h market
                          network agents)))
       known_actions.
Proof.
  unfold HedgeFundAgent.compute_reactions.
  match goal with
  | |- context [HedgeFundAgent.repo_step self h market network agents ?st0] =>
      assert (H0 : known st0) by known_steps;
      assert (H1 : known (fst (HedgeFundAgent.repo_step self h market network
                                 agents st0)))
  end.
  { unfold HedgeFundAgent.repo_step.
    destruct network as [net|]; [|exact H0].
    destruct (Qgtb (HedgeFund.repo_dep_mult h) 0); [|exact H0].
    destruct (Qgtb _ 0); [apply known_set; [known_action | exact H0]|].
    destruct (Qgtb _ 0); exact H0. }
  destruct (HedgeFundAgent.repo_step self h market network agents _) as [st1 h1].
  simpl in H1. simpl.
  match goal with |- incl (dict_keys (fst ?st)) _ => change (known st) end.
  assert (Hs : forall s, known s -> known (HedgeFundAgent.sales_step self h s)).
  { intros s Hs. unfold HedgeFundAgent.sales_step.
    repeat match goal with
           | |- known (if String.eqb ?a ?b then _ else _) =>
               destruct (String.eqb a b)
           end; try solve [known_steps].
    assert (Hb : forall ia st,
               In (snd ia) known_actions -> known st ->
               known (if Qleb (snd st) 0 then st
                      else waterfall_step (get_item self (fst ia)) (snd ia)
                             (fst Config.hf_multi_strategy)
                             (snd Config.hf_multi_strategy) st)).
    { intros ia st Hia Hst. destruct (Qleb (snd st) 0); [exact Hst|].
      apply known_waterfall_step; assumption. }
    simpl fold_left.
    apply (Hb ("Equity Positions", "sell_equity")); [known_action|].
    apply (Hb ("Corp Bond Positions", "sell_corp_bonds")); [known_action|].
    apply (Hb ("Gilt Positions (net)", "sell_gilt")); [known_action|].
    exact Hs. }
  unfold HedgeFundAgent.redeem_mmf_step.
  assert (H2 : known (if_shortfall (HedgeFundAgent.sales_step self h) st1))
    by (apply known_if_shortfall; auto).
  destruct network as [net|]; [|exact H2].
  destruct (Qgtb _ 0); [|exact H2].
  destruct (Network.get_redemption_targets net (name self)); [exact H2|].
  apply known_set; [known_action | exact H2].
Qed.

Lemma known_reactions self market network agents :
  incl (dict_keys (fst (BaseAgent.compute_reactions self market network agents)))
       known_actions.
Proof.
  unfold BaseAgent.compute_reactions. destruct (ext self) as [b|h|l|i|o].
  - apply known_bank_reactions.
  - pose proof (known_hf_reactions self h market network agents) as H.
    destruct (HedgeFundAgent.compute_reactions self h market network agents).
    exact H.
  - pose proof (known_ldi_reactions self l market network agents) as H.
    destruct (LDIPensionAgent.compute_reactions self l market network agents).
    exact H.
  - apply known_insurer_reactions.
  - apply known_oef_reactions.
Qed.

Lemma compute_reactions_frame self market network agents :
  let a := snd (BaseAgent.compute_reactions self market network agents) in
  liquidity a = liquidity self /\ name a = name self
  /\ balance_sheet a = balance_sheet self.
Proof.
  unfold BaseAgent.compute_reactions. destruct (ext self) as [b|h|l|i|o];
    try (simpl; auto; fail).
  - destruct (HedgeFundAgent.compute_reactions self h market network agents).
    simpl. auto.
  - destruct (LDIPensionAgent.compute_reactions self l market network agents).
    simpl. auto.
Qed.

(** The rate of every action the classes record. *)
Lemma realisation_table (market : MarketState) (action : string) :
  (In action sale_actions ->
   BaseAgent.realisation market action
   = Qmax 0.5 (1.0 - gilt_bid_ask_spread_bps market / 100.0))
  /\ (In action repo_actions ->
      BaseAgent.realisation market action = repo_market_availability_pct market)
  /\ (In action boe_actions -> BaseAgent.realisation market action = 0.95)
  /\ (In action redeem_actions -> BaseAgent.realisation market action = 0.90)
  /\ (In action other_actions -> BaseAgent.realisation market action = 0.80).
Proof.
  repeat split; intro H; simpl in H;
    repeat (destruct H as [<-|H]; [reflexivity|]); destruct H.
Qed.

Lemma Qsum_from (xs : list Q) (u : Q) :
  fold_left Qplus xs u == u + Qsum xs.
Proof.
  unfold Qsum. revert u. induction xs as [|x xs IH]; intro u; simpl.
  - ring.
  - rewrite IH, (IH (0 + x)). ring.
Qed.

Lemma Qsum_cons (x : Q) (xs : list Q) : Qsum (x :: xs) == x + Qsum xs.
Proof.
  change (Qsum (x :: xs)) with (fold_left Qplus xs (0 + x)).
  rewrite Qsum_from. ring.
Qed.

Lemma Qsum_nil : Qsum [] == 0.
Proof. reflexivity. Qed.

Lemma mitigation_is_sum (market : MarketState) (r : dict Q) :
  BaseAgent.mitigation_of market r == Qsum (map (realised market) r).
Proof.
  unfold BaseAgent.mitigation_of.
  assert (G : forall u,
             fold_left (fun m aa => m + snd aa * BaseAgent.realisation market (fst aa))
                       r u
             == u + Qsum (map (realised market) r)).
  { induction r as [|aa r IH]; intro u.
    - simpl. rewrite Qsum_nil. ring.
    - simpl fold_left. simpl map. rewrite IH, Qsum_cons.
      unfold realised. ring. }
  rewrite G. ring.
Qed.

(** C3, as amended.  For the agent at position [i], [compute_stage2] sets
    [B2 = B1] and records no reactions when [should_react] is false;
    otherwise [B2] is [B1] plus the sum over the recorded reactions of
    amount times rate.  Every recorded action is one of [known_actions],
    and the rate follows the action's name: the sales at
    [max(0.5, 1 - gilt bid-ask spread / 100)]; [seek_repo],
    [reduce_repo_lending] and the insurer's [draw_repo_line] at the repo
    market availability; [boe_facility] at 0.95; [redeem_mmf] at 0.90; the
    rest, the insurer's [draw_rcf] among them, at 0.80. *)
Theorem compute_stage2_amended
        (i : nat) (store : list Agent) (market : MarketState)
        (network : option RelationshipNetwork) (self : Agent)
        (Hi : nth_error store i = Some self) :
  exists a',
    nth_error (BaseAgent.compute_stage2 i store market network) i = Some a'
    /\ B1 (liquidity a') = B1 (liquidity self)
    /\ (BaseAgent.should_react self = false ->
        has_reacted a' = false /\ reactions a' = []
        /\ B2 (liquidity a') = B1 (liquidity self))
    /\ (BaseAgent.should_react self = true ->
        has_reacted a' = true
        /\ B2 (liquidity a')
           == B1 (liquidity self) + Qsum (map (realised market) (reactions a'))
        /\ incl (dict_keys (reactions a')) known_actions)
    /\ (forall action,
           (In action sale_actions ->
            BaseAgent.realisation market action
            = Qmax 0.5 (1.0 - gilt_bid_ask_spread_bps market / 100.0))
           /\ (In action repo_actions ->
               BaseAgent.realisation market action
               = repo_market_availability_pct market)
           /\ (In action boe_actions ->
               BaseAgent.realisation market action = 0.95)
           /\ (In action redeem_actions ->
               BaseAgent.realisation market action = 0.90)
           /\ (In action other_actions ->
               BaseAgent.realisation market action = 0.80)).
Proof.
  assert (Hlt : (i < List.length store)%nat)
    by (apply nth_error_Some; congruence).
  unfold BaseAgent.compute_stage2. rewrite Hi.
  destruct (BaseAgent.should_react self) eqn:Hr; simpl negb; cbv iota.
  - pose proof (known_reactions (set_reacted self true (reactions self)) market
                  network (put i (set_reacted self true (reactions self)) store))
      as Hk.
    pose proof (compute_reactions_frame
                  (set_reacted self true (reactions self)) market
                  network (put i (set_reacted self true (reactions self)) store))
      as Hf.
    destruct (BaseAgent.compute_reactions _ market network _) as [r self2].
    simpl in Hk, Hf. destruct Hf as (Hl & _ & _).
    match goal with
    | |- context [fold_left BaseAgent.count_action r ?c] =>
        destruct (fold_left BaseAgent.count_action r c) as [[sales gilt] repo]
    end.
    eexists. split; [apply nth_error_put_same; exact Hlt|].
    simpl. rewrite Hl. simpl.
    split; [reflexivity|]. split; [discriminate|].
    split; [|apply realisation_table].
    intros _. split; [reflexivity|]. split; [|exact Hk].
    rewrite mitigation_is_sum. reflexivity.
  - eexists. split; [apply nth_error_put_same; exact Hlt|].
    simpl. split; [reflexivity|]. split; [auto|].
    split; [discriminate | apply realisation_table].
Qed.

(** The amended statement at the insurer of the fixtures, which reacts. *)
Lemma compute_stage2_amended_witness :
  exists a',
    nth_error Fixtures.insurers_stage2 0 = Some a'
    /\ has_reacted a' = true
    /\ dict_keys (reactions a') = ["draw_repo_line"; "draw_rcf"].
Proof.
  assert (Hi : nth_error Fixtures.insurers_stage1 0
               = Some (nth 0 Fixtures.insurers_stage1 Fixtures.small_bank))
    by (vm_compute; reflexivity).
  assert (Hr : BaseAgent.should_react
                 (nth 0 Fixtures.insurers_stage1 Fixtures.small_bank) = true)
    by (vm_compute; reflexivity).
  destruct (@compute_stage2_amended 0 Fixtures.insurers_stage1 Fixtures.market
              (Some Fixtures.empty_network) _ Hi)
    as (a' & Ha & _ & _ & Hreact & _).
  exists a'. split; [exact Ha|].
  split; [apply Hreact; exact Hr|].
  vm_compute in Ha. injection Ha as <-. reflexivity.
Defined.

(** C3 as stated fails: the insurer of the fixtures draws 50 on its repo
    line and 50 on its RCF; the code credits the first at the repo market
    availability (0.85 that day) and the second at 0.80, not both at
    0.95. *)
Lemma compute_stage2_counterexample :
  exists a',
    nth_error (BaseAgent.compute_stage2 0 Fixtures.insurers_stage1 Fixtures.market
                 (Some Fixtures.empty_network)) 0 = Some a'
    /\ map (fun aa => (fst aa, Qred (snd aa))) (reactions a')
       = [("draw_repo_line", 50); ("draw_rcf", 50)]
    /\ BaseAgent.realisation Fixtures.market "draw_repo_line" == 0.85
    /\ BaseAgent.realisation Fixtures.market "draw_rcf" == 0.80
    /\ Claimed.realisation Fixtures.market "draw_repo_line" = 0.95
    /\ Claimed.realisation Fixtures.market "draw_rcf" = 0.95
    /\ ~ (B2 (liquidity a')
          == B1 (liquidity a')
             + Qsum (map (fun aa => snd aa * Claimed.realisation Fixtures.market
                                               (fst aa))
                         (reactions a'))).
Proof.
  eexists. split; [vm_compute; reflexivity|].
  split_conj; try (vm_compute; reflexivity).
  vm_compute. discriminate.
Qed.

(** ** C4: the system-wide amplification ratio *)

Lemma dict_get_set (V : Type) (d : dict V) (k : string) (v : V) :
  dict_get (dict_set d k v) k = Some v.
Proof.
  induction d as [|[k' v'] d IH]; simpl.
  - rewrite String.eqb_refl. reflexivity.
  - destruct (String.eqb k' k) eqn:E; simpl; rewrite E; [reflexivity | exact IH].
Qed.

Lemma Qsum_positive (xs : list Q) :
  xs <> [] -> (forall x, In x xs -> 0 < x) -> 0 < Qsum xs.
Proof.
  induction xs as [|x xs IH]; intros Hne Hpos; [congruence|].
  rewrite Qsum_cons.
  assert (0 < x) by (apply Hpos; left; reflexivity).
  destruct xs as [|y ys].
  - rewrite Qsum_nil. lra.
  - assert (0 < Qsum (y :: ys)).
    { apply IH; [discriminate|]. intros z Hz. apply Hpos. right. exact Hz. }
    lra.
Qed.



Lemma floored_monotone (x y : Q) : x <= y -> Qmax x 0.001 <= Qmax y 0.001.
Proof. intro H. apply Q.max_le_compat_r. exact H. Qed.





(** ** C6: the constructors *)

(** C6.  [BankAgent.__init__] raises [TypeError] for every configuration:
    it passes the keyword [buffer_usability] to [BaseAgent.__init__],
    which has no such parameter.  The constructors of the four other
    classes return an agent of their class. *)
Theorem bank_constructor_raises :
  (forall c, Construct.BankAgent_init c = inl (TypeError "buffer_usability"))
  /\ (forall c, exists a, Construct.HedgeFundAgent_init c = inr a
                          /\ agent_type a = "hedge_fund")
  /\ (forall c, exists a, Construct.LDIPensionAgent_init c = inr a
                          /\ agent_type a = "ldi_pension")
  /\ (forall c, exists a, Construct.InsurerAgent_init c = inr a
                          /\ agent_type a = "insurer")
  /\ (forall c, exists a, Construct.OEFMMFAgent_init c = inr a
                          /\ agent_type a = "oef_mmf").
Proof.
  repeat split; intro c; try reflexivity; eexists; split; reflexivity.
Qed.

(** ** C9: calling the queries twice *)

Lemma find_rel (R : Agent -> Agent -> Prop) (p : Agent -> bool)
      (l l' : list Agent) :
  (forall a b, R a b -> p a = p b) ->
  Forall2 R l l' -> option_rel R (find p l) (find p l').
Proof.
  intros Hp H. induction H as [|a b l l' Hab _ IH]; simpl; [exact I|].
  rewrite <- (Hp a b Hab). destruct (p a); [exact Hab | exact IH].
Qed.

Lemma Forall2_rev_rel (R : Agent -> Agent -> Prop) (l l' : list Agent) :
  Forall2 R l l' -> Forall2 R (rev l) (rev l').
Proof.
  intro H. induction H as [|a b l l' Hab _ IH]; simpl; [constructor|].
  apply Forall2_app; [exact IH | constructor; [exact Hab | constructor]].
Qed.

Lemma agent_map_get_rel (R : Agent -> Agent -> Prop) (l l' : list Agent)
      (n : string) :
  (forall a b, R a b -> name a = name b) ->
  Forall2 R l l' -> option_rel R (agent_map_get l n) (agent_map_get l' n).
Proof.
  intros Hname H. unfold agent_map_get. apply find_rel.
  - intros a b Hab. rewrite (Hname a b Hab). reflexivity.
  - apply Forall2_rev_rel. exact H.
Qed.

Lemma Forall2_put (R : Agent -> Agent -> Prop) (i : nat) (self a : Agent)
      (store : list Agent) :
  (forall x, R x x) -> nth_error store i = Some self -> R self a ->
  Forall2 R store (put i a store).
Proof.
  intros Hrefl. revert i. induction store as [|x tl IH]; intros [|i] Hi Ha;
    simpl in *; try discriminate.
  - injection Hi as ->. constructor; [exact Ha|].
    clear -Hrefl. induction tl; constructor; auto.
  - constructor; [apply Hrefl | apply IH; assumption].
Qed.

Lemma same_view_refl (a : Agent) : same_view a a.
Proof. unfold same_view. auto. Qed.

Lemma redemption_of_view (o o' : OEF.t) (agents agents' : list Agent)
      (acc : Q) (n : string) :
  OEF.pension_investor_pct o = OEF.pension_investor_pct o' ->
  OEF.insurer_investor_pct o = OEF.insurer_investor_pct o' ->
  Forall2 same_view agents agents' ->
  OEFMMFAgent.redemption_of o agents acc n
  = OEFMMFAgent.redemption_of o' agents' acc n.
Proof.
  intros Hp Hi H. unfold OEFMMFAgent.redemption_of.
  pose proof (@agent_map_get_rel same_view agents agents' n
                (fun a b Hab => proj1 Hab) H) as Hg.
  destruct (agent_map_get agents n) as [x|], (agent_map_get agents' n) as [y|];
    simpl in Hg; try contradiction; [|reflexivity].
  destruct Hg as (_ & Hl & Hs & Ht). rewrite Hl, Hs, Ht, Hp, Hi. reflexivity.
Qed.

Lemma fold_left_ext (A B : Type) (f g : A -> B -> A) (l : list B) (a : A) :
  (forall x y, f x y = g x y) -> fold_left f l a = fold_left g l a.
Proof.
  intro H. revert a. induction l as [|y l IH]; intro a; simpl; [reflexivity|].
  rewrite H. apply IH.
Qed.

Lemma margin_calls_twice (self : Agent) (market : MarketState)
      (day_delta : dict Q) (x : Q) (a1 : Agent) :
  BaseAgent.compute_margin_calls self market = Some (x, a1) ->
  BaseAgent.compute_margin_calls a1 market = Some (x, a1)
  /\ BaseAgent.compute_mtm_impact a1 market day_delta
     = BaseAgent.compute_mtm_impact self market day_delta
  /\ BaseAgent.compute_initial_buffer (BaseAgent.compute_initial_buffer a1)
     = BaseAgent.compute_initial_buffer a1.
Proof.
  unfold BaseAgent.compute_margin_calls, BaseAgent.compute_mtm_impact,
    BaseAgent.compute_initial_buffer.
  destruct (ext self) as [b|h|l|i|o] eqn:E; intro H;
    try (injection H as <- <-; rewrite E; simpl; rewrite E; auto; fail).
  unfold LDIPensionAgent.compute_margin_calls in H.
  change (get_item (set_ext self ?e) ?n) with (get_item self n).
  destruct (get_item self "Derivatives Exposure") as [deriv|] eqn:Ed.
  - destruct (Qeq_bool (LDI.yield_buffer_bps l) 0) eqn:Ez; [discriminate|].
    injection H as <- <-. simpl ext. cbv iota.
    unfold LDIPensionAgent.compute_margin_calls.
    change (get_item (set_ext self ?e) ?n) with (get_item self n).
    rewrite Ed. simpl LDI.yield_buffer_bps. rewrite Ez. auto.
  - injection H as <- <-. simpl ext. cbv iota.
    unfold LDIPensionAgent.compute_margin_calls.
    change (get_item (set_ext self ?e) ?n) with (get_item self n).
    rewrite Ed. auto.
Qed.

Lemma redemptions_twice (i : nat) (store : list Agent) (market : MarketState)
      (day_delta : dict Q) (network : option RelationshipNetwork)
      (self : Agent) :
  nth_error store i = Some self ->
  let r1 := BaseAgent.compute_redemptions self market network store in
  let r2 := BaseAgent.compute_redemptions (snd r1) market network
              (put i (snd r1) store) in
  fst r2 = fst r1
  /\ BaseAgent.compute_mtm_impact (snd r1) market day_delta
     = BaseAgent.compute_mtm_impact self market day_delta
  /\ (agent_type self <> "oef_mmf" -> snd r1 = self /\ snd r2 = self)
  /\ (agent_type self = "oef_mmf" ->
      inflows (snd r1) == inflows self + fst r1
      /\ inflows (snd r2) == inflows (snd r1) + fst r2).
Proof.
  intros Hi r1 r2. subst r1 r2.
  unfold BaseAgent.compute_redemptions, BaseAgent.compute_mtm_impact, inflows,
    agent_type.
  destruct (ext self) as [b|h|l|ins|o] eqn:E;
    try (simpl; rewrite E; repeat split; auto; discriminate).
  assert (Hx : forall o' store',
             OEF.pension_investor_pct o = OEF.pension_investor_pct o' ->
             OEF.insurer_investor_pct o = OEF.insurer_investor_pct o' ->
             Forall2 same_view store store' ->
             fst (OEFMMFAgent.compute_redemptions self o' network store')
             = fst (OEFMMFAgent.compute_redemptions self o network store)).
  { intros o' store' Hp Hq Hs. unfold OEFMMFAgent.compute_redemptions.
    destruct network as [net|]; [|reflexivity].
    destruct (Network.get_oef_redeemers net (name self)) as [|n ns];
      [reflexivity|].
    cbn [fst]. apply fold_left_ext. intros acc m. symmetry.
    apply redemption_of_view; assumption. }
  destruct (OEFMMFAgent.compute_redemptions self o network store) as [x o1] eqn:E1.
  simpl snd. simpl fst.
  assert (Ho1 : OEF.pension_investor_pct o = OEF.pension_investor_pct o1
                /\ OEF.insurer_investor_pct o = OEF.insurer_investor_pct o1
                /\ OEF.cumulative_redemption_inflows_mm o1
                   == OEF.cumulative_redemption_inflows_mm o + x).
  { unfold OEFMMFAgent.compute_redemptions in E1.
    destruct network as [net|].
    - destruct (Network.get_oef_redeemers net (name self)) as [|n ns].
      + injection E1 as <- <-.
        repeat split; auto; try (assert ((0.0 : Q) == 0) as -> by reflexivity; ring).
      + injection E1 as <- <-. simpl. repeat split; auto; reflexivity.
    - injection E1 as <- <-.
      repeat split; auto; try (assert ((0.0 : Q) == 0) as -> by reflexivity; ring). }
  destruct Ho1 as (Hp & Hq & Hc).
  simpl ext. cbv iota.
  assert (Hs : Forall2 same_view store (put i (set_ext self (IsOEF o1)) store)).
  { apply Forall2_put with (self := self);
      [apply same_view_refl | exact Hi |].
    unfold same_view, agent_type. simpl. rewrite E. auto. }
  pose proof (Hx o1 (put i (set_ext self (IsOEF o1)) store) Hp Hq Hs) as Hfst.
  assert (Hself : OEFMMFAgent.compute_redemptions (set_ext self (IsOEF o1)) o1
                    network (put i (set_ext self (IsOEF o1)) store)
                  = OEFMMFAgent.compute_redemptions self o1 network
                      (put i (set_ext self (IsOEF o1)) store)) by reflexivity.
  cbn [fst] in Hfst. rewrite Hself.
  destruct (OEFMMFAgent.compute_redemptions self o1 network
              (put i (set_ext self (IsOEF o1)) store)) as [x2 o2] eqn:E2.
  simpl in Hfst. subst x2. simpl.
  split; [reflexivity|]. split; [reflexivity|].
  split; [intro H; congruence|].
  intros _. split; [exact Hc|].
  unfold OEFMMFAgent.compute_redemptions in E2.
  destruct network as [net|].
  - destruct (Network.get_oef_redeemers net (name self)) as [|n ns].
    + injection E2 as <- <-.
      try (assert ((0.0 : Q) == 0) as -> by reflexivity; ring).
    + injection E2 as Hx2 <-. simpl. rewrite Hx2. reflexivity.
  - injection E2 as <- <-.
    try (assert ((0.0 : Q) == 0) as -> by reflexivity; ring).
Qed.

(** C9, as amended.  On the agent at position [i] and a fixed market:
    [compute_initial_buffer] called twice leaves the agent as one call
    does; [compute_mtm_impact] only returns a number, the same one after
    any of the other queries; [compute_margin_calls] called again returns
    the same number and leaves the agent as the first call did;
    [compute_redemptions] called again returns the same number, and
    leaves every agent but a pooled fund untouched.  A pooled fund's
    [compute_redemptions] adds what it returns to
    [cumulative_redemption_inflows_mm] at each call. *)
Theorem queries_twice
        (i : nat) (store : list Agent) (market : MarketState)
        (day_delta : dict Q) (network : option RelationshipNetwork)
        (self : Agent) (Hi : nth_error store i = Some self) :
  BaseAgent.compute_initial_buffer (BaseAgent.compute_initial_buffer self)
  = BaseAgent.compute_initial_buffer self
  /\ BaseAgent.compute_mtm_impact (BaseAgent.compute_initial_buffer self)
       market day_delta
     = BaseAgent.compute_mtm_impact self market day_delta
  /\ (forall x a1,
         BaseAgent.compute_margin_calls self market = Some (x, a1) ->
         BaseAgent.compute_margin_calls a1 market = Some (x, a1)
         /\ BaseAgent.compute_mtm_impact a1 market day_delta
            = BaseAgent.compute_mtm_impact self market day_delta)
  /\ (let r1 := BaseAgent.compute_redemptions self market network store in
      let r2 := BaseAgent.compute_redemptions (snd r1) market network
                  (put i (snd r1) store) in
      fst r2 = fst r1
      /\ BaseAgent.compute_mtm_impact (snd r1) market day_delta
         = BaseAgent.compute_mtm_impact self market day_delta
      /\ (agent_type self <> "oef_mmf" -> snd r1 = self /\ snd r2 = self)
      /\ (agent_type self = "oef_mmf" ->
          inflows (snd r1) == inflows self + fst r1
          /\ inflows (snd r2) == inflows (snd r1) + fst r2)).
Proof.
  split; [|split; [|split]].
  - unfold BaseAgent.compute_initial_buffer.
    destruct (ext self) eqn:E; simpl; rewrite E; reflexivity.
  - unfold BaseAgent.compute_mtm_impact, BaseAgent.compute_initial_buffer.
    destruct (ext self) eqn:E; simpl; rewrite E; reflexivity.
  - intros x a1 H.
    destruct (margin_calls_twice self market day_delta H) as (H1 & H2 & _).
    auto.
  - apply redemptions_twice. exact Hi.
Qed.

(** The amended statement at the pooled fund of the fixtures. *)
Lemma queries_twice_witness :
  let r1 := BaseAgent.compute_redemptions Fixtures.pooled_fund Fixtures.market
              (Some Fixtures.redemption_network) Fixtures.funds_stage1 in
  let r2 := BaseAgent.compute_redemptions (snd r1) Fixtures.market
              (Some Fixtures.redemption_network)
              (put 1 (snd r1) Fixtures.funds_stage1) in
  fst r2 = fst r1.
Proof.
  assert (Hi : nth_error Fixtures.funds_stage1 1 = Some Fixtures.pooled_fund)
    by (vm_compute; reflexivity).
  apply (@queries_twice 1 Fixtures.funds_stage1 Fixtures.market []
           (Some Fixtures.redemption_network) Fixtures.pooled_fund Hi).
Defined.

(** C9 as stated fails: the pooled fund of the fixtures has been through
    stage 1, so [compute_redemptions] has run once and the fund's inflows
    stand at 0.3496 of its assets of 4, below the 15% that trigger swing
    pricing.  A second call returns the same 0.3496 and raises the inflows
    to 0.6992, above 15%: [compute_reactions] now records
    [swing_pricing], which it did not before. *)
Lemma queries_twice_counterexample :
  let net := Some Fixtures.redemption_network in
  let r := BaseAgent.compute_redemptions Fixtures.pooled_fund Fixtures.market
             net Fixtures.funds_stage1 in
  nth_error Fixtures.funds_stage1 1 = Some Fixtures.pooled_fund
  /\ fst r == 0.3496
  /\ inflows Fixtures.pooled_fund == 0.3496
  /\ inflows (snd r) == 0.6992
  /\ dict_keys (fst (BaseAgent.compute_reactions Fixtures.pooled_fund
                       Fixtures.market net Fixtures.funds_stage1))
     = ["use_cash_buffer"; "sell_gilt"; "sell_corp_bonds"]
  /\ dict_keys (fst (BaseAgent.compute_reactions (snd r) Fixtures.market net
                       (put 1 (snd r) Fixtures.funds_stage1)))
     = ["use_cash_buffer"; "sell_gilt"; "sell_corp_bonds"; "swing_pricing"]
  /\ ~ Claimed.redemptions_query_is_pure 1 Fixtures.funds_stage1 Fixtures.market
         net.
Proof.
  intros net r. subst net r.
  split_conj; try (vm_compute; reflexivity).
  unfold Claimed.redemptions_query_is_pure.
  assert (Hi : nth_error Fixtures.funds_stage1 1 = Some Fixtures.pooled_fund)
    by (vm_compute; reflexivity).
  rewrite Hi. intros [_ H].
  apply (f_equal inflows) in H. vm_compute in H. discriminate.
Qed.

(** ** C7: the degrees of the network *)

Lemma flat_map_nth_length (pop : list Agent) (idx : list nat) :
  Forall (fun i => (i < List.length pop)%nat) idx ->
  let chosen := flat_map (fun i => match nth_error pop i with
                                   | Some a => [a] | None => [] end) idx in
  List.length chosen = List.length idx /\ incl chosen pop.
Proof.
  induction 1 as [|i idx Hi _ IH]; simpl; [split; [reflexivity | intros x []]|].
  destruct IH as [IHl IHi].
  destruct (nth_error pop i) as [a|] eqn:E.
  - simpl. split; [f_equal; exact IHl|].
    intros x [<-|Hx]; [eapply nth_error_In; exact E | apply IHi; exact Hx].
  - apply nth_error_None in E. lia.
Qed.

Lemma fold_link_bank (rel : string) (x : Agent) (chosen : list Agent)
      (acc : list (string * string * string) * list (string * string)) :
  fold_left (Builder.link_bank rel x) chosen acc
  = (fold_left (fun es b => Network.add_edge es (name x) (name b) rel) chosen
               (fst acc),
     (snd acc ++ round_edges (x, chosen))%list).
Proof.
  revert acc. induction chosen as [|b tl IH]; intros [es l]; simpl.
  - unfold round_edges. simpl. rewrite app_nil_r. reflexivity.
  - rewrite IH. simpl. unfold round_edges. simpl. rewrite <- app_assoc.
    reflexivity.
Qed.

Lemma fold_link_oef (x : Agent) (chosen : list Agent)
      (acc : list (string * string * string) * list (string * string)) :
  fold_left (Builder.link_oef x) chosen acc
  = (fold_left (fun es o => Network.add_edge es (name x) (name o) "redemption")
               chosen (fst acc),
     (snd acc ++ round_edges_oef (x, chosen))%list).
Proof.
  revert acc. induction chosen as [|b tl IH]; intros [es l]; simpl.
  - unfold round_edges_oef. simpl. rewrite app_nil_r. reflexivity.
  - rewrite IH. simpl. unfold round_edges_oef. simpl. rewrite <- app_assoc.
    reflexivity.
Qed.

(** An edge added to the graph starts at the agent that adds it. *)
Lemma add_edge_sources (P : string -> Prop) (es : list (string * string * string))
      (u v rel : string) :
  P u -> Forall (fun e => P (fst (fst e))) es ->
  Forall (fun e => P (fst (fst e))) (Network.add_edge es u v rel).
Proof.
  intros Hu H. induction H as [|e tl He Htl IH]; simpl.
  - constructor; [exact Hu | constructor].
  - destruct (Network.same_edge u v e).
    + constructor; [exact He | exact Htl].
    + constructor; [exact He | exact IH].
Qed.

Lemma fold_add_edge_sources (P : string -> Prop) (u rel : string)
      (f : Agent -> string) (chosen : list Agent)
      (es : list (string * string * string)) :
  P u -> Forall (fun e => P (fst (fst e))) es ->
  Forall (fun e => P (fst (fst e)))
         (fold_left (fun es b => Network.add_edge es u (f b) rel) chosen es).
Proof.
  intro Hu. revert es. induction chosen as [|b tl IH]; intros es H; simpl;
    [exact H|].
  apply IH. apply add_edge_sources; assumption.
Qed.

(** The degree of a node in a list of (bank, node) edges. *)
Lemma degree_app (l1 l2 : list (string * string)) (n : string) :
  Network.firsts_where_second (l1 ++ l2) n
  = (Network.firsts_where_second l1 n ++ Network.firsts_where_second l2 n)%list.
Proof.
  unfold Network.firsts_where_second. rewrite filter_app, map_app. reflexivity.
Qed.

Lemma degree_round (r : Agent * list Agent) (n : string) :
  List.length (Network.firsts_where_second (round_edges r) n)
  = if String.eqb (name (fst r)) n then List.length (snd r) else 0%nat.
Proof.
  unfold round_edges, Network.firsts_where_second.
  destruct r as [x chosen]. simpl fst. simpl snd.
  induction chosen as [|b tl IH]; simpl.
  - destruct (String.eqb (name x) n); reflexivity.
  - destruct (String.eqb (name x) n); simpl; rewrite IH; reflexivity.
Qed.

Lemma degree_rounds (rounds : list (Agent * list Agent)) (n : string) :
  (forall r, In r rounds -> name (fst r) <> n) ->
  Network.firsts_where_second (flat_map round_edges rounds) n = [].
Proof.
  induction rounds as [|r rs IH]; intro H; simpl; [reflexivity|].
  rewrite degree_app, IH by (intros r' Hr'; apply H; right; exact Hr').
  rewrite app_nil_r. apply length_zero_iff_nil. rewrite degree_round.
  destruct (String.eqb (name (fst r)) n) eqn:E; [|reflexivity].
  apply String.eqb_eq in E. exfalso. apply (H r); [left; reflexivity | exact E].
Qed.

Lemma degree_of_round (rounds : list (Agent * list Agent)) (r : Agent * list Agent) :
  NoDup (map (fun r => name (fst r)) rounds) -> In r rounds ->
  List.length (Network.firsts_where_second (flat_map round_edges rounds)
                                            (name (fst r)))
  = List.length (snd r).
Proof.
  induction rounds as [|r0 rs IH]; intros Hnd Hin; [destruct Hin|].
  simpl in Hnd. inversion Hnd as [|? ? Hnotin Hnd']; subst.
  simpl flat_map. rewrite degree_app, length_app, degree_round.
  destruct Hin as [->|Hin].
  - rewrite String.eqb_refl. rewrite degree_rounds; [simpl; lia|].
    intros r' Hr' E. apply Hnotin. rewrite <- E.
    apply (in_map (fun r => name (fst r))). exact Hr'.
  - destruct (String.eqb (name (fst r0)) (name (fst r))) eqn:E.
    + apply String.eqb_eq in E. exfalso. apply Hnotin. rewrite E.
      apply (in_map (fun r => name (fst r))). exact Hin.
    + rewrite IH by assumption. reflexivity.
Qed.

Lemma NoDup_name_inj (agents : list Agent) (a b : Agent) :
  NoDup (map name agents) -> In a agents -> In b agents -> name a = name b ->
  a = b.
Proof.
  induction agents as [|x tl IH]; intros Hnd Ha Hb E; [destruct Ha|].
  simpl in Hnd. inversion Hnd as [|? ? Hnotin Hnd']; subst.
  destruct Ha as [->|Ha], Hb as [->|Hb]; auto.
  - exfalso. apply Hnotin. rewrite E. apply in_map. exact Hb.
  - exfalso. apply Hnotin. rewrite <- E. apply in_map. exact Ha.
Qed.

Lemma NoDup_map_filter (agents : list Agent) (p : Agent -> bool) :
  NoDup (map name agents) -> NoDup (map name (filter p agents)).
Proof.
  induction agents as [|x tl IH]; intro H; simpl; [constructor|].
  simpl in H. inversion H as [|? ? Hnotin Hnd']; subst.
  destruct (p x); [|apply IH; exact Hnd'].
  simpl. constructor; [|apply IH; exact Hnd'].
  intro Hin. apply Hnotin. apply in_map_iff in Hin.
  destruct Hin as (y & Hy & Hf). apply filter_In in Hf.
  apply in_map_iff. exists y. tauto.
Qed.

Section Built.
Variable rng : Type.
Variable integers : rng -> Z -> Z -> Z * rng.
Variable choice : rng -> nat -> nat -> list Q -> list nat * rng.

(** [rng.integers(low, high)] lies in [[low, high)]. *)
Hypothesis integers_range :
  forall g low high,
    (low < high)%Z ->
    (low <= fst (integers g low high) < high)%Z.

(** [rng.choice(a, size, replace=False, p)], when it does not raise,
    returns [size] positions of the population. *)
Hypothesis choice_positions :
  forall g n size p,
    Builder.choice_ok n size p = true ->
    List.length (fst (choice g n size p)) = size
    /\ Forall (fun i => (i < n)%nat) (fst (choice g n size p)).

Lemma choose_spec (g g' : rng) (pop chosen : list Agent) (size : nat)
      (p : option (list Q)) :
  Builder.choose choice g pop size p = Some (chosen, g') ->
  List.length chosen = size /\ incl chosen pop.
Proof.
  unfold Builder.choose. destruct p as [p|]; [|discriminate].
  destruct (Builder.choice_ok (List.length pop) size p) eqn:Eok; [|discriminate].
  destruct (choice_positions g _ _ _ Eok) as [Hlen Hall].
  destruct (choice g (List.length pop) size p) as [idx g1]. simpl in *.
  intro H. injection H as <- <-.
  destruct (flat_map_nth_length pop Hall) as [H1 H2].
  split; [rewrite H1; exact Hlen | exact H2].
Qed.

Lemma bank_rounds_none (banks : list Agent) (probs : option (list Q))
      (low high : Z) (cap : bool) (rel : string) (xs : list Agent) :
  fold_left (Builder.bank_round integers choice banks probs low high cap rel) xs
            None = None.
Proof. induction xs as [|x xs IH]; simpl; [reflexivity | exact IH]. Qed.

Lemma oef_rounds_none (oefs : list Agent) (xs : list Agent) :
  fold_left (Builder.oef_round integers choice oefs) xs None = None.
Proof. induction xs as [|x xs IH]; simpl; [reflexivity | exact IH]. Qed.

(** The rounds of a loop over [xs]: what the loop appends to the edge
    list, and the sources of the graph's edges. *)
Lemma bank_rounds_spec (banks : list Agent) (probs : option (list Q))
      (low high : Z) (cap : bool) (rel : string) (P : string -> Prop)
      (xs : list Agent) :
  (0 <= low < high)%Z ->
  forall g es l g' es' l',
    fold_left (Builder.bank_round integers choice banks probs low high cap rel) xs
              (Some (g, (es, l))) = Some (g', (es', l')) ->
    (forall x, In x xs -> P (name x)) ->
    Forall (fun e => P (fst (fst e))) es ->
    exists rounds,
      map fst rounds = xs
      /\ l' = (l ++ flat_map round_edges rounds)%list
      /\ Forall (fun r => incl (snd r) banks
                          /\ (cap = false ->
                              (low <= Z.of_nat (List.length (snd r)) < high)%Z))
                rounds
      /\ Forall (fun e => P (fst (fst e))) es'.
Proof.
  intro Hlh. induction xs as [|x xs IH]; intros g es l g' es' l' H HP Hes.
  - simpl in H. injection H as <- <- <-. exists []. simpl.
    rewrite app_nil_r. repeat split; auto.
  - cbn [fold_left] in H.
    destruct (Builder.bank_round integers choice banks probs low high cap rel
                (Some (g, (es, l))) x) as [[g1 [es1 l1]]|] eqn:E1.
    2:{ rewrite bank_rounds_none in H. discriminate. }
    unfold Builder.bank_round in E1.
    pose proof (integers_range g (proj2 Hlh)) as Hn.
    destruct (integers g low high) as [n_banks g0]. simpl in Hn.
    destruct (Builder.choose choice g0 banks _ probs) as [[chosen g2]|] eqn:Ec;
      [|discriminate].
    injection E1 as <- E1. rewrite fold_link_bank in E1. simpl in E1.
    injection E1 as <- <-.
    destruct (choose_spec _ _ _ _ Ec) as [Hlen Hincl].
    destruct (IH _ _ _ _ _ _ H) as (rounds & Hr1 & Hr2 & Hr3 & Hr4).
    + intros y Hy. apply HP. right. exact Hy.
    + apply fold_add_edge_sources; [apply HP; left; reflexivity | exact Hes].
    + exists ((x, chosen) :: rounds). simpl. split; [f_equal; exact Hr1|].
      split; [rewrite Hr2, <- app_assoc; reflexivity|].
      split; [|exact Hr4].
      constructor; [|exact Hr3]. simpl. split; [exact Hincl|].
      intros ->. rewrite Hlen. rewrite Z2Nat.id by lia. exact Hn.
Qed.

Lemma oef_rounds_spec (oefs : list Agent) (P : string -> Prop) (xs : list Agent) :
  forall g es l g' es' l',
    fold_left (Builder.oef_round integers choice oefs) xs (Some (g, (es, l)))
    = Some (g', (es', l')) ->
    (forall x, In x xs -> P (name x)) ->
    Forall (fun e => P (fst (fst e))) es ->
    Forall (fun e => P (fst (fst e))) es'
    /\ (forall e, In e l' -> In e l \/ P (fst e)).
Proof.
  induction xs as [|x xs IH]; intros g es l g' es' l' H HP Hes.
  - simpl in H. injection H as <- <- <-. auto.
  - cbn [fold_left] in H.
    destruct (Builder.oef_round integers choice oefs (Some (g, (es, l))) x)
      as [[g1 [es1 l1]]|] eqn:E1.
    2:{ rewrite oef_rounds_none in H. discriminate. }
    assert (Hstep : Forall (fun e => P (fst (fst e))) es1
                    /\ (forall e, In e l1 -> In e l \/ P (fst e))).
    { unfold Builder.oef_round in E1. destruct oefs as [|o os].
      - injection E1 as <- <- <-. auto.
      - destruct (integers g 1 _) as [n_oefs g0].
        destruct (Builder.choose choice g0 (o :: os) _ _) as [[chosen g2]|];
          [|discriminate].
        injection E1 as <- E1. rewrite fold_link_oef in E1. simpl in E1.
        injection E1 as <- <-. split.
        + apply fold_add_edge_sources; [apply HP; left; reflexivity | exact Hes].
        + intros e He. apply in_app_or in He. destruct He as [He|He];
            [left; exact He | right].
          unfold round_edges_oef in He. apply in_map_iff in He.
          destruct He as (y & <- & _). simpl. apply HP. left. reflexivity. }
    destruct Hstep as [Hes1 Hl1].
    destruct (IH _ _ _ _ _ _ H) as [H1 H2]; auto.
    + intros y Hy. apply HP. right. exact Hy.
    + split; [exact H1|]. intros e He. destruct (H2 e He) as [H3|H3]; auto.
Qed.

(** What [build_network] leaves in the network it returns. *)
Lemma build_network_rounds (g : rng) (agents : list Agent)
      (net : RelationshipNetwork) :
  Builder.build_network integers choice g agents = Some net ->
  let banks := filter (Builder.has_type "bank") agents in
  let nbfis := (filter (Builder.has_type "hedge_fund") agents
                ++ filter (Builder.has_type "ldi_pension") agents
                ++ filter (Builder.has_type "insurer") agents)%list in
  exists rounds_hf rounds_ldi rounds_ins,
    map fst rounds_hf = filter (Builder.has_type "hedge_fund") agents
    /\ bank_hf_edges net = flat_map round_edges rounds_hf
    /\ Forall (fun r => (2 <= List.length (snd r) <= 3)%nat) rounds_hf
    /\ map fst rounds_ldi = filter (Builder.has_type "ldi_pension") agents
    /\ bank_ldi_edges net = flat_map round_edges rounds_ldi
    /\ map fst rounds_ins = filter (Builder.has_type "insurer") agents
    /\ bank_insurer_edges net = flat_map round_edges rounds_ins
    /\ Forall (fun e => In (fst (fst e)) (map name nbfis)) (graph_edges net)
    /\ Forall (fun e => In (fst e) (map name nbfis)) (nbfi_oef_edges net).
Proof.
  intros H banks nbfis. unfold Builder.build_network in H.
  fold banks in H.
  set (P := fun n => In n (map name nbfis)).
  assert (Phf : forall x, In x (filter (Builder.has_type "hedge_fund") agents) ->
                          P (name x)).
  { intros x Hx. apply in_map. unfold nbfis. apply in_or_app. left. exact Hx. }
  assert (Pldi : forall x, In x (filter (Builder.has_type "ldi_pension") agents) ->
                           P (name x)).
  { intros x Hx. apply in_map. unfold nbfis. apply in_or_app. right.
    apply in_or_app. left. exact Hx. }
  assert (Pins : forall x, In x (filter (Builder.has_type "insurer") agents) ->
                           P (name x)).
  { intros x Hx. apply in_map. unfold nbfis. apply in_or_app. right.
    apply in_or_app. right. exact Hx. }
  destruct (fold_left (Builder.bank_round integers choice banks _ 2 4 false _) _ _)
    as [[g1 [e1 bank_hf]]|] eqn:E1; [|discriminate].
  destruct (fold_left (Builder.bank_round integers choice banks _ 1 3 false _) _ _)
    as [[g2 [e2 bank_ldi]]|] eqn:E2; [|discriminate].
  destruct (fold_left (Builder.bank_round integers choice banks _ 1 4 true _) _ _)
    as [[g3 [e3 bank_ins]]|] eqn:E3; [|discriminate].
  destruct (fold_left (Builder.oef_round integers choice _) _ _)
    as [[g4 [e4 nbfi_oef]]|] eqn:E4; [|discriminate].
  injection H as <-. simpl.
  destruct (@bank_rounds_spec banks _ 2 4 false _ P _ ltac:(lia) _ _ _ _ _ _ E1 Phf
              (Forall_nil _)) as (r1 & A1 & A2 & A3 & A4).
  destruct (@bank_rounds_spec banks _ 1 3 false _ P _ ltac:(lia) _ _ _ _ _ _ E2 Pldi
              A4) as (r2 & B1 & B2 & B3 & B4).
  destruct (@bank_rounds_spec banks _ 1 4 true _ P _ ltac:(lia) _ _ _ _ _ _ E3 Pins
              B4) as (r3 & C1 & C2 & C3 & C4).
  destruct (@oef_rounds_spec _ P _ _ _ _ _ _ _ E4) as [D1 D2].
  { intros x Hx. apply in_map. exact Hx. }
  { exact C4. }
  exists r1, r2, r3. split_conj; auto.
  - apply Forall_forall. intros r Hr.
    rewrite Forall_forall in A3. destruct (A3 r Hr) as [_ Hb].
    specialize (Hb eq_refl). lia.
  - apply Forall_forall. intros e He. destruct (D2 e He) as [[]|Hp]. exact Hp.
Qed.

Lemma has_type_true (ty : string) (a : Agent) :
  Builder.has_type ty a = true <-> agent_type a = ty.
Proof. unfold Builder.has_type. apply String.eqb_eq. Qed.

Lemma other_class (agents : list Agent) (ty ty' : string) (o : Agent) (n : string) :
  NoDup (map name agents) -> In o agents -> agent_type o = ty ->
  ty <> ty' -> n = name o -> ~ In n (names_of ty' agents).
Proof.
  intros Hnd Ho Hty Hne -> Hin. unfold names_of in Hin.
  apply in_map_iff in Hin. destruct Hin as (x & Hx & Hf).
  apply filter_In in Hf. destruct Hf as [Hxin Hxt].
  apply has_type_true in Hxt.
  assert (x = o) by (apply (NoDup_name_inj agents); auto). subst x. congruence.
Qed.

Lemma no_rounds_for (agents : list Agent) (ty ty' : string) (o : Agent)
      (rounds : list (Agent * list Agent)) :
  NoDup (map name agents) -> In o agents -> agent_type o = ty -> ty <> ty' ->
  map fst rounds = filter (Builder.has_type ty') agents ->
  Network.firsts_where_second (flat_map round_edges rounds) (name o) = [].
Proof.
  intros Hnd Ho Hty Hne Hr. apply degree_rounds. intros r Hin E.
  apply (@other_class agents ty ty' o (name o) Hnd Ho Hty Hne eq_refl).
  unfold names_of. rewrite <- Hr, <- E, map_map.
  apply (in_map (fun r => name (fst r))). exact Hin.
Qed.

(** Sizes that make [choice] legal. *)
Lemma probs_positive (sizes : list Q) :
  sizes <> [] -> (forall x, In x sizes -> 0 < x) ->
  exists p, Builder.probs sizes = Some p
            /\ List.length p = List.length sizes
            /\ (forall size, (size <= List.length sizes)%nat ->
                             Builder.choice_ok (List.length sizes) size p = true).
Proof.
  intros Hne Hpos. pose proof (Qsum_positive Hne Hpos) as Hs.
  unfold Builder.probs.
  destruct (Qeq_bool (Qsum sizes) 0) eqn:E.
  { apply Qeq_bool_iff in E. rewrite E in Hs. exfalso. apply (Qlt_irrefl _ Hs). }
  eexists. split; [reflexivity|]. split; [apply length_map|].
  intros size Hsize. unfold Builder.choice_ok.
  assert (Hall : forall y, In y (map (fun x => x / Qsum sizes) sizes) -> 0 < y).
  { intros y Hy. apply in_map_iff in Hy. destruct Hy as (x & <- & Hx).
    apply Qlt_shift_div_l; [exact Hs|]. rewrite Qmult_0_l. apply Hpos. exact Hx. }
  rewrite length_map, Nat.eqb_refl. simpl andb.
  apply Nat.leb_le in Hsize. rewrite Hsize. simpl andb.
  assert (Hf : forallb (fun x => Qleb 0 x) (map (fun x => x / Qsum sizes) sizes)
               = true).
  { apply forallb_forall. intros y Hy. apply Qleb_true. apply Qlt_le_weak.
    apply Hall. exact Hy. }
  rewrite Hf. simpl andb.
  assert (Hfilter : filter (fun x => Qgtb x 0) (map (fun x => x / Qsum sizes) sizes)
                    = map (fun x => x / Qsum sizes) sizes).
  { generalize (map (fun x => x / Qsum sizes) sizes) Hall. clear.
    induction l as [|y l IH]; intro Hall; simpl; [reflexivity|].
    assert (Hy : Qgtb y 0 = true) by (apply Qgtb_true; apply Hall; left; reflexivity).
    rewrite Hy, IH; [reflexivity|]. intros z Hz. apply Hall. right. exact Hz. }
  rewrite Hfilter, length_map. exact Hsize.
Qed.

Lemma bank_rounds_total (banks : list Agent) (p : list Q)
      (low high : Z) (cap : bool) (rel : string) (xs : list Agent) :
  (0 <= low < high)%Z ->
  (cap = false -> (high - 1 <= Z.of_nat (List.length banks))%Z) ->
  (forall size, (size <= List.length banks)%nat ->
                Builder.choice_ok (List.length banks) size p = true) ->
  forall st, exists st',
      fold_left (Builder.bank_round integers choice banks (Some p) low high cap rel)
                xs (Some st) = Some st'.
Proof.
  intros Hlh Hcap Hok. induction xs as [|x xs IH]; intro st.
  - exists st. reflexivity.
  - cbn [fold_left]. destruct st as [g acc].
    match goal with
    | |- exists _, fold_left _ _ ?X = _ => destruct X as [st1|] eqn:E1
    end; [apply IH|].
    exfalso. unfold Builder.bank_round in E1.
    pose proof (integers_range g (proj2 Hlh)) as Hn.
    destruct (integers g low high) as [n_banks g0]. simpl in Hn.
    unfold Builder.choose in E1. rewrite Hok in E1.
    + destruct (choice g0 _ _ p) as [idx g']. discriminate.
    + destruct cap; [apply Nat.le_min_r|]. specialize (Hcap eq_refl). lia.
Qed.

Lemma oef_rounds_total (oefs : list Agent) (xs : list Agent) :
  (forall o, In o oefs -> 0 < size_factor o) ->
  forall st, exists st',
      fold_left (Builder.oef_round integers choice oefs) xs (Some st) = Some st'.
Proof.
  intros Hpos. induction xs as [|x xs IH]; intro st.
  - exists st. reflexivity.
  - cbn [fold_left]. destruct st as [g acc].
    match goal with
    | |- exists _, fold_left _ _ ?X = _ => destruct X as [st1|] eqn:E1
    end; [apply IH|].
    exfalso. unfold Builder.oef_round in E1.
    destruct oefs as [|o os] eqn:Eo; [discriminate|].
    rewrite <- Eo in *.
    destruct (@probs_positive (map size_factor oefs)) as (p & Hp & _ & Hok).
    { rewrite Eo. discriminate. }
    { intros y Hy. apply in_map_iff in Hy. destruct Hy as (a & <- & Ha).
      apply Hpos. exact Ha. }
    rewrite Hp in E1. rewrite length_map in Hok.
    assert (Hlen : (1 <= List.length oefs)%nat) by (rewrite Eo; simpl; lia).
    pose proof (integers_range g (low := 1)
                  (high := Z.min 4 (Z.of_nat (List.length oefs) + 1))
                  ltac:(lia)) as Hn.
    destruct (integers g 1 _) as [n_oefs g0]. simpl in Hn.
    unfold Builder.choose in E1. rewrite Hok in E1 by lia.
    destruct (choice g0 _ _ p) as [idx g']. discriminate.
Qed.

(** C7.  A network that [build_network] returns on a population of
    agents with distinct names gives every hedge fund two or three banks
    ([get_connected_banks], which the engine and the tests read), and
    joins no pooled fund to a bank, neither in the three lists of bank
    edges nor in the graph.  On a population with at least three banks,
    all banks and pooled funds having a positive size, [build_network]
    does return.  A run reports the summary of the network it was given:
    no operation of the engine returns or changes a network. *)
Theorem build_network_degrees (g : rng) (agents : list Agent)
        (Hnames : NoDup (map name agents)) :
  (forall net,
      Builder.build_network integers choice g agents = Some net ->
      (forall hf, In hf agents -> agent_type hf = "hedge_fund" ->
                  (2 <= List.length (Network.get_connected_banks net (name hf)) <= 3)%nat)
      /\ (forall oef, In oef agents -> agent_type oef = "oef_mmf" ->
                      Network.get_connected_banks net (name oef) = []
                      /\ Network.get_clearing_banks net (name oef) = []
                      /\ Network.banks_of_insurer net (name oef) = []
                      /\ bank_edges_of net (names_of "bank" agents) (name oef) = []))
  /\ ((3 <= List.length (filter (Builder.has_type "bank") agents))%nat ->
      (forall a, In a agents ->
                 agent_type a = "bank" \/ agent_type a = "oef_mmf" ->
                 0 < size_factor a) ->
      exists net, Builder.build_network integers choice g agents = Some net)
  /\ (forall np_sqrt net scenario enable_feedback feedback_iterations r final,
         Simulation.run_simulation np_sqrt agents net scenario enable_feedback
                                   feedback_iterations = Some (r, final) ->
         network_summary r = Network.network_summary net).
Proof.
  split; [|split].
  - intros net Hnet.
    destruct (build_network_rounds _ _ Hnet)
      as (r1 & r2 & r3 & A1 & A2 & A3 & B1 & B2 & C1 & C2 & D1 & D2).
    split.
    + intros hf Hin Hty.
      assert (Hhf : In hf (map fst r1)).
      { rewrite A1. apply filter_In. split; [exact Hin|].
        apply has_type_true. exact Hty. }
      apply in_map_iff in Hhf. destruct Hhf as (r & <- & Hr).
      unfold Network.get_connected_banks. rewrite A2, degree_of_round.
      * rewrite Forall_forall in A3. apply A3. exact Hr.
      * replace (map (fun r => name (fst r)) r1) with (map name (map fst r1))
          by (rewrite map_map; reflexivity).
        rewrite A1. apply NoDup_map_filter. exact Hnames.
      * exact Hr.
    + intros oef Hin Hty.
      unfold Network.get_connected_banks, Network.get_clearing_banks,
        Network.banks_of_insurer.
      rewrite A2, B2, C2.
      split; [apply (@no_rounds_for agents "oef_mmf" "hedge_fund"); auto;
              discriminate|].
      split; [apply (@no_rounds_for agents "oef_mmf" "ldi_pension"); auto;
              discriminate|].
      split; [apply (@no_rounds_for agents "oef_mmf" "insurer"); auto;
              discriminate|].
      unfold bank_edges_of.
      assert (Hnbfi : forall n a ty,
                 In n (map name
                         (filter (Builder.has_type "hedge_fund") agents
                          ++ filter (Builder.has_type "ldi_pension") agents
                          ++ filter (Builder.has_type "insurer") agents)) ->
                 In a agents -> agent_type a = ty ->
                 ty <> "hedge_fund" -> ty <> "ldi_pension" -> ty <> "insurer" ->
                 n <> name a).
      { intros n a ty Hn Ha Hta N1 N2 N3 ->.
        rewrite !map_app in Hn.
        apply in_app_or in Hn. destruct Hn as [Hn|Hn].
        - exact (@other_class agents ty "hedge_fund" a _ Hnames Ha Hta N1 eq_refl Hn).
        - apply in_app_or in Hn. destruct Hn as [Hn|Hn].
          + exact (@other_class agents ty "ldi_pension" a _ Hnames Ha Hta N2 eq_refl Hn).
          + exact (@other_class agents ty "insurer" a _ Hnames Ha Hta N3 eq_refl Hn). }
      rewrite Forall_forall in D1.
      induction (graph_edges net) as [|e es IH]; [reflexivity|].
      simpl. rewrite IH by (intros x Hx; apply D1; right; exact Hx).
      assert (He := D1 e (or_introl eq_refl)).
      unfold joins_bank.
      destruct (String.eqb (fst (fst e)) (name oef)) eqn:E1.
      { apply String.eqb_eq in E1. exfalso.
        apply (Hnbfi _ oef "oef_mmf" He Hin Hty); try discriminate. exact E1. }
      simpl orb.
      destruct (existsb (String.eqb (fst (fst e))) (names_of "bank" agents)) eqn:E2;
        [|rewrite andb_false_r; reflexivity].
      exfalso. apply existsb_exists in E2. destruct E2 as (n & Hn & En).
      apply String.eqb_eq in En. unfold names_of in Hn.
      apply in_map_iff in Hn. destruct Hn as (b & <- & Hb).
      apply filter_In in Hb. destruct Hb as [Hbin Hbt].
      apply has_type_true in Hbt.
      apply (Hnbfi _ b "bank" He Hbin Hbt); try discriminate. exact En.
  - intros Hbanks Hpos. unfold Builder.build_network. cbv zeta.
    set (banks := filter (Builder.has_type "bank") agents) in *.
    destruct (@probs_positive (map size_factor banks)) as (p & -> & _ & Hok).
    { destruct banks; [simpl in Hbanks; lia | discriminate]. }
    { intros y Hy. apply in_map_iff in Hy. destruct Hy as (a & <- & Ha).
      apply filter_In in Ha. destruct Ha as [Ha Ht]. apply has_type_true in Ht.
      apply Hpos; auto. }
    rewrite length_map in Hok.
    destruct (fold_left (Builder.bank_round integers choice banks _ 2 4 false _) _ _)
      as [[g1 [e1 l1]]|] eqn:E1.
    2:{ exfalso. destruct (@bank_rounds_total banks p 2 4 false "prime_brokerage"
                  (filter (Builder.has_type "hedge_fund") agents)
                  ltac:(lia) ltac:(intros _; lia) Hok (g, ([], []))) as [st E].
        assert (Hn : Some st = None) by (rewrite <- E; exact E1).
        discriminate Hn. }
    destruct (fold_left (Builder.bank_round integers choice banks _ 1 3 false _) _ _)
      as [[g2 [e2 l2]]|] eqn:E2.
    2:{ exfalso. destruct (@bank_rounds_total banks p 1 3 false "clearing_member"
                  (filter (Builder.has_type "ldi_pension") agents)
                  ltac:(lia) ltac:(intros _; lia) Hok (g1, (e1, []))) as [st E].
        assert (Hn : Some st = None) by (rewrite <- E; exact E2).
        discriminate Hn. }
    destruct (fold_left (Builder.bank_round integers choice banks _ 1 4 true _) _ _)
      as [[g3 [e3 l3]]|] eqn:E3.
    2:{ exfalso. destruct (@bank_rounds_total banks p 1 4 true "derivatives_repo"
                  (filter (Builder.has_type "insurer") agents)
                  ltac:(lia) ltac:(intros H; discriminate H) Hok (g2, (e2, [])))
          as [st E].
        assert (Hn : Some st = None) by (rewrite <- E; exact E3).
        discriminate Hn. }
    destruct (fold_left (Builder.oef_round integers choice _) _ _)
      as [[g4 [e4 l4]]|] eqn:E4.
    2:{ exfalso.
        destruct (@oef_rounds_total (filter (Builder.has_type "oef_mmf") agents)
                    (filter (Builder.has_type "hedge_fund") agents
                     ++ filter (Builder.has_type "ldi_pension") agents
                     ++ filter (Builder.has_type "insurer") agents)%list)
          with (st := (g3, (e3, @nil (string * string)))) as [st E].
        { intros o Ho. apply filter_In in Ho. destruct Ho as [Ho Ht].
          apply has_type_true in Ht. apply Hpos; auto. }
        assert (Hn : Some st = None) by (rewrite <- E; exact E4).
        discriminate Hn. }
    eexists. reflexivity.
  - intros np_sqrt net scenario fb iters r final H.
    unfold Simulation.run_simulation in H.
    destruct (Simulation.run_days _ _ _ _ _ _ _); [|discriminate].
    injection H as <- _. reflexivity.
Qed.

End Built.

(** The counter generator of the fixtures behaves as the builder expects
    of numpy's. *)
Lemma counter_integers_range (g : nat) (low high : Z) :
  (low < high)%Z ->
  (low <= fst (Builder.counter_integers g low high) < high)%Z.
Proof.
  intro H. unfold Builder.counter_integers. simpl.
  pose proof (Z.mod_pos_bound (Z.of_nat g) (high - low) ltac:(lia)). lia.
Qed.

Lemma positive_positions_spec (p : list Q) (i : nat) :
  List.length (Builder.positive_positions i p)
  = List.length (filter (fun x => Qgtb x 0) p)
  /\ Forall (fun j => (j < i + List.length p)%nat) (Builder.positive_positions i p).
Proof.
  revert i. induction p as [|x p IH]; intro i; simpl; [split; constructor|].
  destruct (IH (S i)) as [H1 H2].
  assert (H3 : Forall (fun j => (j < i + S (List.length p))%nat)
                      (Builder.positive_positions (S i) p)).
  { eapply Forall_impl; [|exact H2]. simpl. intros. lia. }
  destruct (Qgtb x 0); simpl.
  - split; [f_equal; exact H1|]. constructor; [lia | exact H3].
  - split; [exact H1 | exact H3].
Qed.

Lemma in_firstn (A : Type) (n : nat) (l : list A) (x : A) :
  In x (firstn n l) -> In x l.
Proof.
  revert l. induction n as [|n IH]; intros [|y l] H; simpl in *; try tauto.
  destruct H as [H|H]; [left; exact H | right; apply IH; exact H].
Qed.

Lemma counter_choice_positions (g n size : nat) (p : list Q) :
  Builder.choice_ok n size p = true ->
  List.length (fst (Builder.counter_choice g n size p)) = size
  /\ Forall (fun i => (i < n)%nat) (fst (Builder.counter_choice g n size p)).
Proof.
  unfold Builder.choice_ok, Builder.counter_choice. simpl fst.
  rewrite !andb_true_iff. intros [[[Hlen _] _] Hcount].
  apply Nat.eqb_eq in Hlen. apply Nat.leb_le in Hcount.
  destruct (positive_positions_spec p 0) as [H1 H2].
  split.
  - apply firstn_length_le. rewrite H1. exact Hcount.
  - apply Forall_forall. intros i Hi. apply in_firstn in Hi.
    rewrite Forall_forall in H2. specialize (H2 i Hi). simpl in H2. lia.
Qed.

Lemma population_names : NoDup (map name Fixtures.population).
Proof.
  vm_compute.
  repeat (constructor; [simpl; intuition discriminate|]). constructor.
Qed.

(** C7 at the population of the fixtures: the builder returns, and the
    hedge fund has two or three banks. *)
Lemma build_network_degrees_witness :
  exists net,
    Builder.build_network Builder.counter_integers Builder.counter_choice
                          0%nat Fixtures.population = Some net
    /\ (2 <= List.length (Network.get_connected_banks net "HF_01") <= 3)%nat.
Proof.
  destruct (@build_network_degrees nat Builder.counter_integers
              Builder.counter_choice counter_integers_range
              counter_choice_positions 0%nat Fixtures.population
              population_names) as (Hdeg & Htotal & _).
  destruct Htotal as [net Hnet].
  - vm_compute. lia.
  - intros a Ha _. vm_compute in Ha.
    repeat (destruct Ha as [<-|Ha]; [vm_compute; reflexivity|]). destruct Ha.
  - exists net. split; [exact Hnet|].
    destruct (Hdeg net Hnet) as [Hhf _].
    assert (Hin : exists hf, In hf Fixtures.population
                             /\ agent_type hf = "hedge_fund"
                             /\ name hf = "HF_01").
    { exists (nth 3 Fixtures.population Fixtures.small_bank).
      split; [|split]; [|vm_compute; reflexivity..].
      apply nth_In. vm_compute. lia. }
    destruct Hin as (hf & Hin & Hty & Hname).
    rewrite <- Hname. apply Hhf; assumption.
Defined.

(** ** Loops over the shared list of agents *)

Lemma put_app (pre post : list Agent) (t a : Agent) :
  put (List.length pre) a (pre ++ t :: post) = (pre ++ a :: post)%list.
Proof. induction pre as [|x pre IH]; simpl; [reflexivity | rewrite IH; reflexivity]. Qed.

Lemma nth_error_middle (pre post : list Agent) (t : Agent) :
  nth_error (pre ++ t :: post) (List.length pre) = Some t.
Proof. induction pre as [|x pre IH]; simpl; [reflexivity | exact IH]. Qed.

Lemma put_map (f : Agent -> Agent) (i : nat) (a : Agent) (store : list Agent) :
  put i (f a) (map f store) = map f (put i a store).
Proof.
  revert i. induction store as [|x tl IH]; intros [|i]; simpl; try reflexivity.
  rewrite IH. reflexivity.
Qed.

(** A loop whose round [i] replaces the agent at [i] by one related to
    it, under an invariant of the whole list. *)
Lemma for_each_index_rel (R : Agent -> Agent -> Prop) (Inv : list Agent -> Prop)
      (f : nat -> list Agent -> list Agent) (store : list Agent) :
  (forall i st t, Inv st -> nth_error st i = Some t ->
                  exists t', f i st = put i t' st /\ R t t' /\ Inv (put i t' st)) ->
  Inv store ->
  Forall2 R store (Simulation.for_each_index f store)
  /\ Inv (Simulation.for_each_index f store).
Proof.
  intros Hf Hinv. unfold Simulation.for_each_index.
  assert (G : forall post pre,
             Inv (pre ++ post)%list ->
             exists post',
               fold_left (fun st i => f i st)
                         (seq (List.length pre) (List.length post))
                         (pre ++ post)%list
               = (pre ++ post')%list
               /\ Forall2 R post post' /\ Inv (pre ++ post')%list).
  { induction post as [|t post IH]; intros pre Hpre.
    - exists []. simpl. auto.
    - simpl seq. cbn [fold_left].
      destruct (Hf (List.length pre) (pre ++ t :: post)%list t Hpre
                   (nth_error_middle pre post t)) as (t' & -> & Ht & Hinv').
      rewrite put_app in *.
      replace (pre ++ t' :: post)%list with ((pre ++ [t']) ++ post)%list in *
        by (rewrite <- app_assoc; reflexivity).
      replace (S (List.length pre)) with (List.length (pre ++ [t'])%list)
        by (rewrite length_app; simpl; lia).
      destruct (IH (pre ++ [t'])%list Hinv') as (post' & -> & Hpost & Hinv'').
      exists (t' :: post'). rewrite <- !app_assoc in *. simpl in *.
      split; [reflexivity|]. split; [constructor; assumption | exact Hinv'']. }
  destruct (G store [] Hinv) as (post' & E & H1 & H2). simpl in E.
  rewrite E. simpl in H2. auto.
Qed.

(** The same for a loop that can raise. *)
Lemma for_each_index_opt_rel (R : Agent -> Agent -> Prop)
      (Inv : list Agent -> Prop)
      (f : nat -> list Agent -> option (list Agent)) (store store' : list Agent) :
  (forall i st t st', Inv st -> nth_error st i = Some t -> f i st = Some st' ->
                      exists t', st' = put i t' st /\ R t t' /\ Inv (put i t' st)) ->
  Inv store ->
  Simulation.for_each_index_opt f store = Some store' ->
  Forall2 R store store' /\ Inv store'.
Proof.
  intros Hf Hinv. unfold Simulation.for_each_index_opt.
  assert (Hnone : forall l, fold_left
                    (fun st i => match st with Some s => f i s | None => None end)
                    l None = None).
  { induction l as [|i l IH]; simpl; [reflexivity | exact IH]. }
  assert (G : forall post pre res,
             Inv (pre ++ post)%list ->
             fold_left (fun st i => match st with Some s => f i s | None => None end)
                       (seq (List.length pre) (List.length post))
                       (Some (pre ++ post)%list) = Some res ->
             exists post', res = (pre ++ post')%list
                           /\ Forall2 R post post' /\ Inv (pre ++ post')%list).
  { induction post as [|t post IH]; intros pre res Hpre Hres.
    - simpl in Hres. injection Hres as <-. exists []. auto.
    - simpl seq in Hres. cbn [fold_left] in Hres.
      destruct (f (List.length pre) (pre ++ t :: post)%list) as [st1|] eqn:E1;
        [|rewrite Hnone in Hres; discriminate].
      destruct (Hf _ _ t _ Hpre (nth_error_middle pre post t) E1)
        as (t' & -> & Ht & Hinv').
      rewrite put_app in *.
      replace (pre ++ t' :: post)%list with ((pre ++ [t']) ++ post)%list in *
        by (rewrite <- app_assoc; reflexivity).
      replace (S (List.length pre)) with (List.length (pre ++ [t'])%list) in Hres
        by (rewrite length_app; simpl; lia).
      destruct (IH (pre ++ [t'])%list res Hinv' Hres) as (post' & -> & Hpost & Hinv'').
      exists (t' :: post'). rewrite <- !app_assoc in *. simpl in *.
      split; [reflexivity|]. split; [constructor; assumption | exact Hinv'']. }
  intro H. destruct (G store [] store' Hinv H) as (post' & -> & H1 & H2).
  simpl in *. auto.
Qed.

Lemma for_each_index_modify (f : Agent -> Agent) (store : list Agent) :
  Simulation.for_each_index (Simulation.modify f) store = map f store.
Proof.
  destruct (@for_each_index_rel (fun a b => b = f a) (fun _ => True)
              (Simulation.modify f) store) as [H _].
  - intros i st t _ Hi. exists (f t). unfold Simulation.modify. rewrite Hi. auto.
  - exact I.
  - induction H as [|a b l l' Hab _ IH]; simpl; [reflexivity|].
    rewrite Hab, IH. reflexivity.
Qed.

(** A loop that commutes with a map, round by round. *)
Lemma for_each_index_map (g : Agent -> Agent)
      (f : nat -> list Agent -> list Agent) (store : list Agent) :
  (forall i st, f i (map g st) = map g (f i st)) ->
  Simulation.for_each_index f (map g store)
  = map g (Simulation.for_each_index f store).
Proof.
  intro Hf. unfold Simulation.for_each_index. rewrite length_map.
  generalize (seq 0 (List.length store)). intro idx. revert store.
  induction idx as [|i idx IH]; intro store; simpl; [reflexivity|].
  rewrite Hf. apply IH.
Qed.

Lemma for_each_index_opt_map (g : Agent -> Agent)
      (f : nat -> list Agent -> option (list Agent)) (store : list Agent) :
  (forall i st, f i (map g st) = option_map (map g) (f i st)) ->
  Simulation.for_each_index_opt f (map g store)
  = option_map (map g) (Simulation.for_each_index_opt f store).
Proof.
  intro Hf. unfold Simulation.for_each_index_opt. rewrite length_map.
  generalize (seq 0 (List.length store)). intro idx.
  change (Some (map g store)) with (option_map (map g) (Some store)).
  generalize (Some store). intro o. revert o.
  induction idx as [|i idx IH]; intro o; simpl; [reflexivity|].
  rewrite <- IH. f_equal. destruct o as [s|]; simpl; [apply Hf | reflexivity].
Qed.

Lemma for_each_index_ext (f g : nat -> list Agent -> list Agent)
      (store : list Agent) :
  (forall i st, f i st = g i st) ->
  Simulation.for_each_index f store = Simulation.for_each_index g store.
Proof.
  intro H. unfold Simulation.for_each_index. apply fold_left_ext.
  intros st i. apply H.
Qed.

Lemma for_each_index_opt_ext (f g : nat -> list Agent -> option (list Agent))
      (store : list Agent) :
  (forall i st, f i st = g i st) ->
  Simulation.for_each_index_opt f store = Simulation.for_each_index_opt g store.
Proof.
  intro H. unfold Simulation.for_each_index_opt. apply fold_left_ext.
  intros [st|] i; [apply H | reflexivity].
Qed.

(** ** Stages 1 and 2 do not read what stage 3 writes *)

Lemma find_name_erase (n : string) (l : list Agent) :
  find (fun a => String.eqb (name a) n) (map erase l)
  = option_map erase (find (fun a => String.eqb (name a) n) l).
Proof.
  induction l as [|a l IH]; simpl; [reflexivity|].
  destruct (String.eqb (name a) n); [reflexivity | exact IH].
Qed.

Lemma agent_map_get_erase (st : list Agent) (n : string) :
  agent_map_get (map erase st) n = option_map erase (agent_map_get st n).
Proof. unfold agent_map_get. rewrite <- map_rev. apply find_name_erase. Qed.

Lemma repo_from_banks_erase (self_name : string) (market : MarketState)
      (net : RelationshipNetwork) (st : list Agent) (banks : list string)
      (repo_ask : Q) :
  repo_from_banks self_name market net (map erase st) banks repo_ask
  = repo_from_banks self_name market net st banks repo_ask.
Proof.
  unfold repo_from_banks. apply fold_left_ext. intros acc bank_name.
  unfold repo_from_bank. rewrite agent_map_get_erase.
  destruct (agent_map_get st bank_name) as [bank|]; simpl; [|reflexivity].
  destruct (ext bank); reflexivity.
Qed.

Lemma seek_repo_step_erase self_name market network st banks_of ask w :
  seek_repo_step self_name market network (map erase st) banks_of ask w
  = seek_repo_step self_name market network st banks_of ask w.
Proof.
  unfold seek_repo_step. destruct network as [net|]; [|reflexivity].
  rewrite repo_from_banks_erase. reflexivity.
Qed.

Lemma compute_reactions_erase (a : Agent) (market : MarketState)
      (network : option RelationshipNetwork) (st : list Agent) :
  BaseAgent.compute_reactions (erase a) market network (map erase st)
  = (fst (BaseAgent.compute_reactions a market network st),
     erase (snd (BaseAgent.compute_reactions a market network st))).
Proof.
  unfold BaseAgent.compute_reactions.
  change (ext (erase a)) with (ext a).
  destruct (ext a) as [b|h|l|i|o]; try reflexivity.
  - assert (E : HedgeFundAgent.compute_reactions (erase a) h market network
                  (map erase st)
                = HedgeFundAgent.compute_reactions a h market network st).
    { unfold HedgeFundAgent.compute_reactions, HedgeFundAgent.repo_step.
      destruct network as [net|]; [|reflexivity].
      rewrite repo_from_banks_erase. reflexivity. }
    rewrite E. destruct (HedgeFundAgent.compute_reactions a h market network st).
    reflexivity.
  - assert (E : LDIPensionAgent.compute_reactions (erase a) l market network
                  (map erase st)
                = LDIPensionAgent.compute_reactions a l market network st).
    { unfold LDIPensionAgent.compute_reactions.
      change (get_item (erase a)) with (get_item a).
      change (B1 (liquidity (erase a))) with (B1 (liquidity a)).
      change (E1 (liquidity (erase a))) with (E1 (liquidity a)).
      change (name (erase a)) with (name a).
      destruct (LDIPensionAgent.recap_step l _) as [st2 l2].
      rewrite seek_repo_step_erase. reflexivity. }
    rewrite E. destruct (LDIPensionAgent.compute_reactions a l market network st).
    reflexivity.
  - unfold InsurerAgent.compute_reactions.
    rewrite seek_repo_step_erase. reflexivity.
Qed.

Lemma redemption_of_erase (o : OEF.t) (st : list Agent) (acc : Q) (n : string) :
  OEFMMFAgent.redemption_of o (map erase st) acc n
  = OEFMMFAgent.redemption_of o st acc n.
Proof.
  unfold OEFMMFAgent.redemption_of. rewrite agent_map_get_erase.
  destruct (agent_map_get st n); reflexivity.
Qed.

Lemma compute_redemptions_erase (a : Agent) (market : MarketState)
      (network : option RelationshipNetwork) (st : list Agent) :
  BaseAgent.compute_redemptions (erase a) market network (map erase st)
  = (fst (BaseAgent.compute_redemptions a market network st),
     erase (snd (BaseAgent.compute_redemptions a market network st))).
Proof.
  unfold BaseAgent.compute_redemptions.
  change (ext (erase a)) with (ext a).
  destruct (ext a) as [b|h|l|i|o]; try reflexivity.
  assert (E : OEFMMFAgent.compute_redemptions (erase a) o network (map erase st)
              = OEFMMFAgent.compute_redemptions a o network st).
  { unfold OEFMMFAgent.compute_redemptions.
    destruct network as [net|]; [|reflexivity].
    change (name (erase a)) with (name a).
    destruct (Network.get_oef_redeemers net (name a)); [reflexivity|].
    rewrite (fold_left_ext (OEFMMFAgent.redemption_of o (map erase st))
                           (OEFMMFAgent.redemption_of o st));
      [reflexivity | intros; apply redemption_of_erase]. }
  rewrite E. destruct (OEFMMFAgent.compute_redemptions a o network st).
  reflexivity.
Qed.

Lemma compute_margin_calls_erase (a : Agent) (market : MarketState) :
  BaseAgent.compute_margin_calls (erase a) market
  = option_map (fun xa => (fst xa, erase (snd xa)))
               (BaseAgent.compute_margin_calls a market).
Proof.
  unfold BaseAgent.compute_margin_calls.
  change (ext (erase a)) with (ext a).
  destruct (ext a) as [b|h|l|i|o]; try reflexivity.
  change (LDIPensionAgent.compute_margin_calls (erase a) l market)
    with (LDIPensionAgent.compute_margin_calls a l market).
  destruct (LDIPensionAgent.compute_margin_calls a l market) as [[x l']|];
    reflexivity.
Qed.

Lemma modify_erase (f : Agent -> Agent) (i : nat) (st : list Agent) :
  (forall a, f (erase a) = erase (f a)) ->
  Simulation.modify f i (map erase st) = map erase (Simulation.modify f i st).
Proof.
  intro Hf. unfold Simulation.modify. rewrite nth_error_map.
  destruct (nth_error st i) as [a|]; simpl; [|reflexivity].
  rewrite Hf. apply put_map.
Qed.

Lemma compute_stage1_erase (i : nat) (st : list Agent)
      (market : MarketState)
      (day_delta : dict Q) (network : option RelationshipNetwork) :
  BaseAgent.compute_stage1 i (map erase st) market day_delta network
  = option_map (map erase)
               (BaseAgent.compute_stage1 i st market day_delta network).
Proof.
  unfold BaseAgent.compute_stage1. rewrite nth_error_map.
  destruct (nth_error st i) as [self|]; simpl option_map; cbv iota;
    [|reflexivity].
  change (BaseAgent.compute_mtm_impact (erase self) market day_delta)
    with (BaseAgent.compute_mtm_impact self market day_delta).
  rewrite compute_margin_calls_erase.
  destruct (BaseAgent.compute_margin_calls self market) as [[margin self1]|];
    simpl option_map; cbv iota beta; [|reflexivity].
  simpl fst. simpl snd. rewrite put_map, compute_redemptions_erase.
  destruct (BaseAgent.compute_redemptions self1 market network (put i self1 st))
    as [redemptions self2].
  simpl fst. simpl snd. cbv iota beta. simpl option_map. rewrite <- put_map.
  reflexivity.
Qed.

(** * Further properties of the code *)

(** ** market.py *)

Lemma Qdiv_nonneg (a b : Q) : 0 <= a -> 0 < b -> 0 <= a / b.
Proof.
  intros Ha Hb. apply Qle_shift_div_l; [exact Hb|]. rewrite Qmult_0_l. exact Ha.
Qed.

Lemma stress_zero (v : Q) : v / 15.0 == 0 <-> v == 0.
Proof.
  split; intro H.
  - assert (E : v == v / 15.0 * 15.0) by (field; discriminate).
    rewrite E, H. reflexivity.
  - rewrite H. reflexivity.
Qed.

(** X1 ([MarketState.apply_endogenous_feedback] followed by
    [MarketState.apply_exogenous_scenario]).  When the feedback of one day
    has returned, the market after the next day's scenario values is the
    market a fresh [MarketState()] would have after them, except for the two
    market depths, which are [max(1000, 5000 / stress)] and
    [max(500, 2000 / stress)] for the stress of the day before, and the day
    number: no yield, spread, availability or accumulator of the day before
    is carried over. *)
Theorem next_day_market (m m1 : MarketState) (dv : dict Q) :
  Market.apply_endogenous_feedback m = Returned m1 ->
  Market.apply_exogenous_scenario m1 dv
  = Simulation.set_day
      (Market.set_depth (Market.apply_exogenous_scenario Market.init dv)
         (Qmax 1000.0 (5000.0 / (vix_level m / 15.0)))
         (Qmax 500.0 (2000.0 / (vix_level m / 15.0))))
      (day m).
Proof.
  unfold Market.apply_endogenous_feedback.
  destruct (Qeq_bool _ 0); intro H; [discriminate|].
  injection H as <-. reflexivity.
Qed.

(** The statement on the market of the fixtures (volatility index 30). *)
Lemma next_day_market_witness :
  exists m1,
    Market.apply_endogenous_feedback Fixtures.market = Returned m1
    /\ market_depth_gilt_mm (Market.apply_exogenous_scenario m1 []) == 2500.
Proof.
  destruct (Market.apply_endogenous_feedback Fixtures.market) as [m1|m1] eqn:E;
    [|vm_compute in E; discriminate].
  exists m1. split; [reflexivity|].
  rewrite (@next_day_market Fixtures.market m1 [] E).
  vm_compute. reflexivity.
Defined.

(** X2 ([MarketState.apply_endogenous_feedback]).  The method raises
    ([ZeroDivisionError] at [5000.0 / stress]) exactly when the quotient
    [vix_level / 15.0] it has just computed is zero, as it is for a
    volatility index of zero; the spreads have been widened by then and
    the depths are still the old ones.  When it returns, the gilt depth is
    at least 1000 and the corporate depth at least 500, and they are at
    most 5000 and 2000 once the volatility index is 15 or more. *)
Theorem endogenous_feedback_outcome (m : MarketState) :
  (returned (Market.apply_endogenous_feedback m) = None
   <-> vix_level m / 15.0 == 0)
  /\ (vix_level m == 0 -> returned (Market.apply_endogenous_feedback m) = None)
  /\ (forall m', Market.apply_endogenous_feedback m = Raised m' ->
        market_depth_gilt_mm m' = market_depth_gilt_mm m
        /\ market_depth_corp_mm m' = market_depth_corp_mm m
        /\ gilt_bid_ask_spread_bps m'
           = gilt_bid_ask_spread_bps m + endogenous_gilt_selling_mm m * 0.001
        /\ corp_bid_ask_spread_bps m'
           = corp_bid_ask_spread_bps m + endogenous_corp_selling_mm m * 0.002)
  /\ (forall m', Market.apply_endogenous_feedback m = Returned m' ->
        1000 <= market_depth_gilt_mm m' /\ 500 <= market_depth_corp_mm m'
        /\ (15 <= vix_level m ->
            market_depth_gilt_mm m' <= 5000 /\ market_depth_corp_mm m' <= 2000)).
Proof.
  unfold Market.apply_endogenous_feedback.
  change (vix_level (Market.feedback_prices m)) with (vix_level m).
  destruct (Qeq_bool (vix_level m / 15.0) 0) eqn:E.
  - apply Qeq_bool_iff in E.
    split; [split; [intros _; exact E | reflexivity]|].
    split; [reflexivity|].
    split; [|intros m' H; discriminate].
    intros m' H. injection H as <-. repeat split.
  - assert (Hq : ~ vix_level m / 15.0 == 0).
    { intro H. apply Qeq_bool_iff in H. congruence. }
    split; [split; [discriminate | intro H; contradiction]|].
    split; [intro H; exfalso; apply Hq, (proj2 (stress_zero _)), H|].
    split; [intros m' H; discriminate|].
    intros m' H. injection H as <-. simpl.
    split; [apply Qle_trans with 1000.0; [discriminate | apply Q.le_max_l]|].
    split; [apply Qle_trans with 500.0; [discriminate | apply Q.le_max_l]|].
    intro H15.
    assert (H1 : 1 <= vix_level m / 15.0).
    { apply Qle_shift_div_l; [reflexivity|]. rewrite Qmult_1_l.
      apply Qle_trans with 15; [discriminate | exact H15]. }
    assert (Hpos : 0 < vix_level m / 15.0)
      by (apply Qlt_le_trans with 1; [reflexivity | exact H1]).
    split; apply Q.max_lub; try discriminate;
      (apply Qle_shift_div_r; [exact Hpos|]).
    + setoid_replace (5000.0 : Q) with (5000 * 1) at 1 by reflexivity.
      apply Qmult_le_l; [reflexivity | exact H1].
    + setoid_replace (2000.0 : Q) with (2000 * 1) at 1 by reflexivity.
      apply Qmult_le_l; [reflexivity | exact H1].
Qed.

(** X3 ([MarketState.apply_endogenous_feedback]).  With selling and repo
    demand that are not negative, the feedback never lowers a gilt yield or
    a credit spread, never narrows a bid-ask spread and never raises the
    availability of repo above its floor; it never moves the index-linked
    and US yields, equities, the swap rate, the exchange rate, the
    haircuts, the futures basis or the volatility index. *)
Theorem endogenous_feedback_monotone (m : MarketState) :
  0 <= endogenous_gilt_selling_mm m ->
  0 <= endogenous_corp_selling_mm m ->
  0 <= endogenous_repo_demand_mm m ->
  let m' := outcome_state (Market.apply_endogenous_feedback m) in
  (gilt_10y_yield_chg_bps m <= gilt_10y_yield_chg_bps m'
   /\ gilt_30y_yield_chg_bps m <= gilt_30y_yield_chg_bps m'
   /\ ig_corp_spread_chg_bps m <= ig_corp_spread_chg_bps m'
   /\ hy_corp_spread_chg_bps m <= hy_corp_spread_chg_bps m'
   /\ gilt_bid_ask_spread_bps m <= gilt_bid_ask_spread_bps m'
   /\ corp_bid_ask_spread_bps m <= corp_bid_ask_spread_bps m'
   /\ repo_market_availability_pct m'
      <= Qmax 0.5 (repo_market_availability_pct m))
  /\ (il_gilt_yield_chg_bps m' = il_gilt_yield_chg_bps m
      /\ ust_10y_yield_chg_bps m' = ust_10y_yield_chg_bps m
      /\ equity_chg_pct m' = equity_chg_pct m
      /\ sonia_swap_chg_bps m' = sonia_swap_chg_bps m
      /\ fx_gbpusd_chg_pct m' = fx_gbpusd_chg_pct m
      /\ repo_haircut_gilt_chg_pct m' = repo_haircut_gilt_chg_pct m
      /\ repo_haircut_corp_chg_pct m' = repo_haircut_corp_chg_pct m
      /\ bond_futures_basis_chg_bps m' = bond_futures_basis_chg_bps m
      /\ vix_level m' = vix_level m
      /\ endogenous_equity_add_pct m' = endogenous_equity_add_pct m).
Proof.
  intros Hg Hc Hr m'.
  assert (G2 : forall d s k1 k2 : Q, 0 <= s -> 0 <= k1 -> 0 <= k2 -> forall y : Q,
               y <= (if Qgtb d 0 then y + s / d * k1 * k2 else y)).
  { intros d s k1 k2 Hs Hk1 Hk2 y. destruct (Qgtb d 0) eqn:E; [|apply Qle_refl].
    apply Qgtb_true in E.
    assert (0 <= s / d * k1 * k2).
    { apply Qmult_le_0_compat; [|exact Hk2].
      apply Qmult_le_0_compat; [apply Qdiv_nonneg; assumption | exact Hk1]. }
    lra. }
  assert (Hrepo : Qmax 0.5 (repo_market_availability_pct m
                            - endogenous_repo_demand_mm m / 50000.0 * 0.25)
                  <= Qmax 0.5 (repo_market_availability_pct m)).
  { apply Q.max_le_compat_l.
    assert (0 <= endogenous_repo_demand_mm m / 50000.0 * 0.25).
    { apply Qmult_le_0_compat; [apply Qdiv_nonneg; [exact Hr | reflexivity]|].
      unfold Qle; simpl; lia. }
    lra. }
  assert (Hsg : gilt_bid_ask_spread_bps m
                <= gilt_bid_ask_spread_bps m + endogenous_gilt_selling_mm m * 0.001)
    by lra.
  assert (Hsc : corp_bid_ask_spread_bps m
                <= corp_bid_ask_spread_bps m + endogenous_corp_selling_mm m * 0.002)
    by lra.
  assert (P5 : (0 : Q) <= 0.5) by (unfold Qle; simpl; lia).
  assert (P7 : (0 : Q) <= 0.7) by (unfold Qle; simpl; lia).
  assert (P6 : (0 : Q) <= 0.6) by (unfold Qle; simpl; lia).
  assert (P12 : (0 : Q) <= 1.2) by (unfold Qle; simpl; lia).
  assert (P20 : (0 : Q) <= 20.0) by (unfold Qle; simpl; lia).
  assert (P30 : (0 : Q) <= 30.0) by (unfold Qle; simpl; lia).
  assert (P : forall m1 : MarketState,
             (m1 = Market.feedback_prices m
              \/ exists g c, m1 = Market.set_depth (Market.feedback_prices m) g c) ->
             (gilt_10y_yield_chg_bps m <= gilt_10y_yield_chg_bps m1
              /\ gilt_30y_yield_chg_bps m <= gilt_30y_yield_chg_bps m1
              /\ ig_corp_spread_chg_bps m <= ig_corp_spread_chg_bps m1
              /\ hy_corp_spread_chg_bps m <= hy_corp_spread_chg_bps m1
              /\ gilt_bid_ask_spread_bps m <= gilt_bid_ask_spread_bps m1
              /\ corp_bid_ask_spread_bps m <= corp_bid_ask_spread_bps m1
              /\ repo_market_availability_pct m1
                 <= Qmax 0.5 (repo_market_availability_pct m))
             /\ (il_gilt_yield_chg_bps m1 = il_gilt_yield_chg_bps m
                 /\ ust_10y_yield_chg_bps m1 = ust_10y_yield_chg_bps m
                 /\ equity_chg_pct m1 = equity_chg_pct m
                 /\ sonia_swap_chg_bps m1 = sonia_swap_chg_bps m
                 /\ fx_gbpusd_chg_pct m1 = fx_gbpusd_chg_pct m
                 /\ repo_haircut_gilt_chg_pct m1 = repo_haircut_gilt_chg_pct m
                 /\ repo_haircut_corp_chg_pct m1 = repo_haircut_corp_chg_pct m
                 /\ bond_futures_basis_chg_bps m1 = bond_futures_basis_chg_bps m
                 /\ vix_level m1 = vix_level m
                 /\ endogenous_equity_add_pct m1 = endogenous_equity_add_pct m)).
  { intros m1 [->|(g & c & ->)];
      (split; [|split_conj; reflexivity]);
      (split; [exact (G2 _ _ 20.0 0.5 Hg P20 P5 _)|]);
      (split; [exact (G2 _ _ 20.0 0.7 Hg P20 P7 _)|]);
      (split; [exact (G2 _ _ 30.0 0.6 Hc P30 P6 _)|]);
      (split; [exact (G2 _ _ 30.0 1.2 Hc P30 P12 _)|]);
      (split; [exact Hsg|]); (split; [exact Hsc | exact Hrepo]). }
  subst m'. apply P. unfold Market.apply_endogenous_feedback.
  destruct (Qeq_bool _ 0); cbn [outcome_state];
    [left; reflexivity | right; eexists; eexists; reflexivity].
Qed.

(** The statement on the market of the fixtures after 100 of gilt sales
    have been registered. *)
Lemma endogenous_feedback_monotone_witness :
  gilt_10y_yield_chg_bps Fixtures.market
  <= gilt_10y_yield_chg_bps
       (outcome_state
          (Market.apply_endogenous_feedback
             (BaseAgent.set_endogenous Fixtures.market (100, 0, 0)))).
Proof.
  apply (@endogenous_feedback_monotone
           (BaseAgent.set_endogenous Fixtures.market (100, 0, 0)));
    vm_compute; discriminate.
Defined.

(** X4 ([MarketState.get_variable] after
    [MarketState.apply_exogenous_scenario]).  For each of the thirteen
    names of [MarketVariable], [get_variable] reads back what the scenario
    values gave for that name, or the default (15.0 for the volatility
    index, 0.0 otherwise) when they gave nothing; for any other name it
    returns 0.0, whatever the market. *)
Theorem get_variable_after_scenario (m : MarketState) (dv : dict Q) (k : string) :
  (In k MarketVariable ->
   Market.get_variable (Market.apply_exogenous_scenario m dv) k
   = dict_get_default dv k (scenario_default k))
  /\ (~ In k MarketVariable -> Market.get_variable m k = 0.0).
Proof.
  split; intro H.
  - unfold MarketVariable in H. simpl in H.
    repeat (destruct H as [<-|H]; [reflexivity|]). destruct H.
  - unfold MarketVariable in H. cbn [In] in H.
    unfold Market.get_variable, dict_get_default. cbn [dict_get].
    repeat match goal with
           | |- context [String.eqb ?s k] =>
               destruct (String.eqb_spec s k) as [E|_];
               [exfalso; apply H; rewrite <- E;
                repeat (first [left; reflexivity | right])|]
           end.
    reflexivity.
Qed.

(** X5 ([get_scenario_day]).  The call fails ([IndexError]) exactly when
    one of the variable paths has no entry for that day; otherwise the
    day's values have the keys of the paths, in their order, and each
    variable's value is the entry of its path at that day. *)
Theorem get_scenario_day_spec (s : Scenario) (d : nat) :
  (get_scenario_day s d = None
   <-> exists k vals, In (k, vals) (variable_paths s)
                      /\ (List.length vals <= d)%nat)
  /\ (forall dv, get_scenario_day s d = Some dv ->
        dict_keys dv = dict_keys (variable_paths s)
        /\ forall k vals, dict_get (variable_paths s) k = Some vals ->
                          dict_get dv k = nth_error vals d).
Proof.
  unfold get_scenario_day. generalize (variable_paths s). intro paths.
  induction paths as [|[k0 vals0] tl [IHn IHs]].
  - split.
    + split; [discriminate | intros (k & vals & [] & _)].
    + intros dv H. injection H as <-. split; [reflexivity | discriminate].
  - simpl. split.
    + destruct (nth_error vals0 d) as [v|] eqn:E0.
      * destruct (get_scenario_day_paths tl d) as [rest|] eqn:Et.
        -- split; [discriminate|].
           intros (k & vals & [Hin|Hin] & Hlen).
           ++ injection Hin as _ <-.
              apply nth_error_None in Hlen. congruence.
           ++ assert (Hn : @None (dict Q) = None) by reflexivity.
              destruct IHn as [_ IHn].
              assert (X : Some rest = None)
                by (apply IHn; exists k, vals; auto).
              discriminate X.
        -- split; [intros _|reflexivity].
           destruct IHn as [IHn _]. destruct (IHn eq_refl) as (k & vals & Hin & Hl).
           exists k, vals. auto.
      * split; [intros _|reflexivity].
        exists k0, vals0. split; [left; reflexivity|].
        apply nth_error_None. exact E0.
    + intros dv H.
      destruct (nth_error vals0 d) as [v|] eqn:E0; [|discriminate].
      destruct (get_scenario_day_paths tl d) as [rest|] eqn:Et; [|discriminate].
      injection H as <-. destruct (IHs rest eq_refl) as [Hk Hv].
      split; [simpl; f_equal; exact Hk|].
      intros k vals. simpl. destruct (String.eqb k0 k).
      * intro H. injection H as <-. symmetry. exact E0.
      * apply Hv.
Qed.


(** ** network.py: the lookups *)

Lemma seconds_where_first_In (edges : list (string * string)) (x y : string) :
  In y (Network.seconds_where_first edges x) <-> In (x, y) edges.
Proof.
  unfold Network.seconds_where_first. rewrite in_map_iff. split.
  - intros ([a b] & <- & H). apply filter_In in H. destruct H as [H E].
    simpl in E. apply String.eqb_eq in E. subst a. exact H.
  - intro H. exists (x, y). split; [reflexivity|].
    apply filter_In. split; [exact H | apply String.eqb_refl].
Qed.

Lemma firsts_where_second_In (edges : list (string * string)) (x y : string) :
  In x (Network.firsts_where_second edges y) <-> In (x, y) edges.
Proof.
  unfold Network.firsts_where_second. rewrite in_map_iff. split.
  - intros ([a b] & <- & H). apply filter_In in H. destruct H as [H E].
    simpl in E. apply String.eqb_eq in E. subst b. exact H.
  - intro H. exists (x, y). split; [reflexivity|].
    apply filter_In. split; [exact H | apply String.eqb_refl].
Qed.

(** X6 ([RelationshipNetwork.get_connected_hfs], [get_connected_banks],
    [get_connected_ldis], [get_clearing_banks], [get_oef_redeemers],
    [get_redemption_targets]).  The lookups in the two directions agree: a
    fund is among the hedge funds of a bank exactly when the bank is among
    the banks of the fund, and likewise for the LDI funds and their
    clearing banks, for the funds an agent can redeem from and their
    redeemers, and for the insurers of a bank as [assess_repo_request]
    reads them. *)
Theorem adjacency_symmetric (n : RelationshipNetwork) (x y : string) :
  (In y (Network.get_connected_hfs n x) <-> In x (Network.get_connected_banks n y))
  /\ (In y (Network.get_connected_ldis n x)
      <-> In x (Network.get_clearing_banks n y))
  /\ (In y (Network.get_redemption_targets n x)
      <-> In x (Network.get_oef_redeemers n y))
  /\ (In y (Network.insurers_of_bank n x)
      <-> In x (Network.banks_of_insurer n y)).
Proof.
  unfold Network.get_connected_hfs, Network.get_connected_banks,
    Network.get_connected_ldis, Network.get_clearing_banks,
    Network.get_redemption_targets, Network.get_oef_redeemers,
    Network.insurers_of_bank, Network.banks_of_insurer.
  split_conj; rewrite seconds_where_first_In, firsts_where_second_In; reflexivity.
Qed.

(** ** agents: buffers, first-round losses and the booking of actions *)

(** X7 ([compute_initial_buffer] of the five classes).  The initial buffer
    is never below the class's floor (0.2% of a bank's balance sheet or of
    an insurer's assets, 0.5% of the assets under management of a hedge
    fund or an LDI fund, 1% of those of a pooled fund); computing it again
    changes nothing; and with a positive floor [should_react] is the
    comparison of [E1 / B0] with the threshold. *)
Theorem initial_buffer_floor (a : Agent) :
  let a' := BaseAgent.compute_initial_buffer a in
  buffer_floor a <= B0 (liquidity a')
  /\ BaseAgent.compute_initial_buffer a' = a'
  /\ (0 < buffer_floor a ->
      BaseAgent.should_react a'
      = Qgtb (E1 (liquidity a') / B0 (liquidity a')) (theta a')).
Proof.
  intro a'.
  assert (H1 : buffer_floor a <= B0 (liquidity a')).
  { subst a'. unfold BaseAgent.compute_initial_buffer, buffer_floor.
    destruct (ext a); simpl; apply Q.le_max_r. }
  split; [exact H1|]. split.
  - subst a'. unfold BaseAgent.compute_initial_buffer.
    destruct a as [n th sf bs l hr r c1 c2 c3 c4 c5 e]. destruct e; reflexivity.
  - intro Hpos. unfold BaseAgent.should_react.
    assert (E : Qleb (B0 (liquidity a')) 0 = false).
    { apply Qleb_false. apply Qlt_le_trans with (buffer_floor a); assumption. }
    rewrite E. reflexivity.
Qed.

Lemma dict_get_default_negated (dd : dict Q) (k : string) :
  dict_get_default (negated dd) k 0.0 == - dict_get_default dd k 0.0.
Proof.
  unfold dict_get_default, negated.
  induction dd as [|[k' v] dd IH]; simpl; [reflexivity|].
  destruct (String.eqb k' k); [reflexivity | exact IH].
Qed.

Lemma item_mtm_negated (dd : dict Q) (item : BalanceSheetItem) (t t' : Q) :
  t == t' -> item_mtm (negated dd) t item == item_mtm dd t' item.
Proof.
  unfold item_mtm. generalize (sensitivity_map item). intro sm. revert t t'.
  induction sm as [|[var sens] sm IH]; intros t t' H; cbn [fold_left fst snd];
    [exact H|].
  apply IH. rewrite H, dict_get_default_negated.
  setoid_replace (amount_mm item * sens * - dict_get_default dd var 0.0)
    with (- (amount_mm item * sens * dict_get_default dd var 0.0)) by ring.
  rewrite Qabs_opp. reflexivity.
Qed.

Lemma item_mtm_ge (dd : dict Q) (item : BalanceSheetItem) (t : Q) :
  t <= item_mtm dd t item.
Proof.
  unfold item_mtm. generalize (sensitivity_map item). intro sm. revert t.
  induction sm as [|[var sens] sm IH]; intro t; cbn [fold_left fst snd];
    [apply Qle_refl|].
  eapply Qle_trans; [|apply IH].
  pose proof (Qabs_nonneg (amount_mm item * sens * dict_get_default dd var 0.0)).
  lra.
Qed.

Lemma items_fold_negated (dd : dict Q) (p : BalanceSheetItem -> bool)
      (items : list BalanceSheetItem) (t t' : Q) :
  t == t' ->
  fold_left (fun t item => if p item then item_mtm (negated dd) t item else t)
            items t
  == fold_left (fun t item => if p item then item_mtm dd t item else t) items t'.
Proof.
  revert t t'. induction items as [|it items IH]; intros t t' H; simpl; [exact H|].
  apply IH. destruct (p it); [apply item_mtm_negated|]; exact H.
Qed.

Lemma items_fold_ge (dd : dict Q) (p : BalanceSheetItem -> bool)
      (items : list BalanceSheetItem) (t : Q) :
  t <= fold_left (fun t item => if p item then item_mtm dd t item else t) items t.
Proof.
  revert t. induction items as [|it items IH]; intro t; simpl; [apply Qle_refl|].
  eapply Qle_trans; [|apply IH].
  destruct (p it); [apply item_mtm_ge | apply Qle_refl].
Qed.

Lemma items_mtm_negated (dd : dict Q) (items : list BalanceSheetItem) :
  items_mtm (negated dd) items == items_mtm dd items.
Proof.
  exact (@items_fold_negated dd (fun _ => true) items 0.0 0.0 (Qeq_refl _)).
Qed.

Lemma items_mtm_nonneg (dd : dict Q) (items : list BalanceSheetItem) :
  0 <= items_mtm dd items.
Proof.
  apply Qle_trans with 0.0; [discriminate|].
  exact (@items_fold_ge dd (fun _ => true) items 0.0).
Qed.

(** X8 ([compute_mtm_impact] of the five classes).  The mark-to-market
    impact does not see the direction of the day's moves: turning the sign
    of every move leaves it unchanged.  It is never negative for a bank, an
    insurer or a pooled fund, nor for a hedge fund with a gross leverage of
    at least 1 or an LDI fund whose leverage ratio is not negative: a move
    in the agent's favour costs it buffer as well. *)
Theorem mtm_impact_counts_every_move_as_a_loss
        (self : Agent) (market : MarketState) (dd : dict Q) :
  BaseAgent.compute_mtm_impact self market (negated dd)
  == BaseAgent.compute_mtm_impact self market dd
  /\ (leverage_ok self -> 0 <= BaseAgent.compute_mtm_impact self market dd).
Proof.
  unfold BaseAgent.compute_mtm_impact, leverage_ok.
  destruct (ext self) as [b|h|l|i|o].
  - split; [apply items_mtm_negated | intros _; apply items_mtm_nonneg].
  - unfold HedgeFundAgent.compute_mtm_impact. split.
    + rewrite (@items_fold_negated dd
                 (fun item => String.eqb (category item) "liquid_asset"
                              || String.eqb (category item) "illiquid_asset")
                 (balance_sheet self) 0.0 0.0 (Qeq_refl _)).
      reflexivity.
    + intro Hl. apply Qmult_le_0_compat.
      * apply Qle_trans with 0.0; [discriminate|].
        apply (@items_fold_ge dd
                 (fun item => String.eqb (category item) "liquid_asset"
                              || String.eqb (category item) "illiquid_asset")).
      * assert (E : 1.0 + (HedgeFund.gross_leverage h - 1.0) * 0.3
                    == 1 + (HedgeFund.gross_leverage h - 1) * (3 # 10))
          by (apply Qplus_comp; [reflexivity|];
              apply Qmult_comp; [|reflexivity];
              apply Qplus_comp; reflexivity).
        rewrite E. lra.
  - unfold LDIPensionAgent.compute_mtm_impact. split.
    + rewrite items_mtm_negated. reflexivity.
    + intro Hl. apply Qmult_le_0_compat; [apply items_mtm_nonneg|].
      apply Qmult_le_0_compat; [exact Hl | discriminate].
  - unfold InsurerAgent.compute_mtm_impact. split.
    + destruct (get_item self "Derivative Hedges");
        rewrite items_mtm_negated; reflexivity.
    + intros _. destruct (get_item self "Derivative Hedges");
        [apply Q.le_max_l | apply items_mtm_nonneg].
  - split; [apply items_mtm_negated | intros _; apply items_mtm_nonneg].
Qed.


(** ** agents/bank.py *)

Ltac bank_fields :=
  cbn [Bank.tier Bank.risk_appetite Bank.total_bs_mm Bank.gilt_mm_appetite_mm
       Bank.corp_mm_appetite_mm Bank.mm_appetite_consumed_pct
       Bank.repo_capacity_mm Bank.willingness_to_roll_pct
       Bank.willingness_to_extend_new_pct Bank.haircut_sensitivity
       Bank.daily_capacity_history Bank.corp_appetite_consumed_pct
       Bank.daily_corp_capacity_history Bank.daily_combined_capacity_history
       BankAgent.set_consumed BankAgent.set_willingness BankAgent.set_histories]
    in *.

Lemma absorbed_share (appetite consumed risk amount : Q) :
  0 <= consumed <= 1 -> 0 <= risk -> 0 <= amount -> 0 < appetite ->
  consumed
  <= Qmin 1.0 (consumed
               + Qmin amount (appetite * (1.0 - consumed) * risk) / appetite)
  <= 1.
Proof.
  intros [Hc0 Hc1] Hr Ha Hp.
  assert (H0 : 0 <= Qmin amount (appetite * (1.0 - consumed) * risk)).
  { apply Q.min_glb; [exact Ha|].
    apply Qmult_le_0_compat; [|exact Hr].
    apply Qmult_le_0_compat; [apply Qlt_le_weak; exact Hp | lra]. }
  pose proof (Qdiv_nonneg H0 Hp) as H1.
  split.
  - apply Q.min_glb; lra.
  - apply Qle_trans with 1.0; [apply Q.le_min_l | discriminate].
Qed.

(** X10 ([BankAgent.post_registration_update], [absorb_selling_pressure],
    [absorb_corp_selling_pressure]).  For a bank whose consumed shares of
    market-making capacity are between 0 and 1 and whose risk appetite is
    not negative, absorbing selling that is not negative never lowers a
    consumed share and never takes it above 1; the update appends exactly
    one entry to each of the three capacity histories, the first two being
    the new consumed shares; and it leaves the two appetites, the repo
    capacity and the risk appetite as they were. *)
Theorem post_registration_capacity (reacted : bool) (b : Bank.t) (g c : Q) :
  0 <= Bank.mm_appetite_consumed_pct b <= 1 ->
  0 <= Bank.corp_appetite_consumed_pct b <= 1 ->
  0 <= Bank.risk_appetite b -> 0 <= g -> 0 <= c ->
  let b' := BankAgent.post_registration_update reacted b g c in
  Bank.mm_appetite_consumed_pct b <= Bank.mm_appetite_consumed_pct b' <= 1
  /\ Bank.corp_appetite_consumed_pct b <= Bank.corp_appetite_consumed_pct b' <= 1
  /\ Bank.daily_capacity_history b'
     = (Bank.daily_capacity_history b ++ [Bank.mm_appetite_consumed_pct b'])%list
  /\ Bank.daily_corp_capacity_history b'
     = (Bank.daily_corp_capacity_history b
        ++ [Bank.corp_appetite_consumed_pct b'])%list
  /\ (exists x, Bank.daily_combined_capacity_history b'
                = (Bank.daily_combined_capacity_history b ++ [x])%list)
  /\ Bank.gilt_mm_appetite_mm b' = Bank.gilt_mm_appetite_mm b
  /\ Bank.corp_mm_appetite_mm b' = Bank.corp_mm_appetite_mm b
  /\ Bank.repo_capacity_mm b' = Bank.repo_capacity_mm b
  /\ Bank.risk_appetite b' = Bank.risk_appetite b.
Proof.
  intros Hg Hc Hr Hga Hca b'. subst b'.
  destruct b as [tier risk tot gapp capp gcons rcap roll ext hs hist ccons chist cohist].
  bank_fields.
  unfold BankAgent.post_registration_update, BankAgent.absorb_selling_pressure,
    BankAgent.absorb_corp_selling_pressure,
    BankAgent.tighten_repo_for_counterparties.
  bank_fields.
  destruct (Qgtb gapp 0) eqn:Eg; bank_fields;
    destruct (Qgtb capp 0) eqn:Ec; bank_fields;
    destruct reacted; bank_fields;
    try (apply Qgtb_true in Eg); try (apply Qgtb_true in Ec);
    (split; [first [apply absorbed_share; assumption
                   | split; [apply Qle_refl | apply Hg]]|]);
    (split; [first [apply absorbed_share; assumption
                   | split; [apply Qle_refl | apply Hc]]|]);
    (split; [reflexivity|]); (split; [reflexivity|]);
    (split; [eexists; reflexivity|]); repeat split.
Qed.

(** The statement on the bank of the fixtures, which absorbs 5 of gilts
    and 1 of corporate bonds. *)
Lemma post_registration_capacity_witness :
  Bank.mm_appetite_consumed_pct
    (BankAgent.post_registration_update true Fixtures.small_bank_attributes 5 1)
  <= 1.
Proof.
  apply (@post_registration_capacity true Fixtures.small_bank_attributes 5 1);
    vm_compute; try split; discriminate.
Defined.

(** X11 ([BankAgent.tighten_repo_for_counterparties] and
    [BankAgent.assess_repo_request]).  For a bank with a risk appetite
    between 0 and 1, a repo capacity and a willingness to extend new repo
    that are not negative, tightening leaves the willingness to extend
    between 0 and its old value and the willingness to roll at 0.5 or
    more, and after it the bank never answers the same request with a
    larger amount. *)
Theorem tightening_never_lends_more
        (self : Agent) (b : Bank.t) (requester : string) (amount : Q)
        (network : option RelationshipNetwork) :
  0 <= Bank.risk_appetite b <= 1 ->
  0 <= Bank.repo_capacity_mm b ->
  0 <= Bank.willingness_to_extend_new_pct b ->
  let b' := BankAgent.tighten_repo_for_counterparties b in
  0 <= Bank.willingness_to_extend_new_pct b'
       <= Bank.willingness_to_extend_new_pct b
  /\ 0.5 <= Bank.willingness_to_roll_pct b'
  /\ BankAgent.assess_repo_request self b' requester amount network
     <= BankAgent.assess_repo_request self b requester amount network.
Proof.
  intros [Hr0 Hr1] Hcap Hext b'.
  assert (Hw : 0 <= Bank.willingness_to_extend_new_pct b'
               <= Bank.willingness_to_extend_new_pct b).
  { subst b'. unfold BankAgent.tighten_repo_for_counterparties. bank_fields.
    split.
    - apply Qle_trans with 0.0; [discriminate | apply Q.le_max_l].
    - apply Q.max_lub.
      + apply Qle_trans with 0; [discriminate | exact Hext].
      + assert (0 <= (1.0 - Bank.risk_appetite b) * 0.3)
          by (apply Qmult_le_0_compat; [lra | discriminate]).
        lra. }
  split; [exact Hw|]. split.
  - subst b'. unfold BankAgent.tighten_repo_for_counterparties. bank_fields.
    apply Q.le_max_l.
  - unfold BankAgent.assess_repo_request.
    destruct network as [net|]; [|apply Qle_refl].
    destruct (negb (BankAgent.connected_to net (name self) requester));
      [apply Qle_refl|].
    apply Q.min_le_compat_l.
    assert (Hs : 0 <= BankAgent.stress_scaling self).
    { unfold BankAgent.stress_scaling.
      apply Qle_trans with 0.0; [discriminate | apply Q.le_max_l]. }
    replace (Bank.repo_capacity_mm b') with (Bank.repo_capacity_mm b)
      by reflexivity.
    replace (Bank.risk_appetite b') with (Bank.risk_appetite b) by reflexivity.
    apply Qmult_le_compat_r; [|exact Hs].
    apply Qmult_le_compat_r; [|exact Hr0].
    rewrite !(Qmult_comm (Bank.repo_capacity_mm b)).
    apply Qmult_le_compat_r; [apply Hw | exact Hcap].
Qed.

(** The statement on a bank with a risk appetite of one half and no
    stress, asked for 5000 by a fund it is connected to: it lends 800
    before the tightening and 650 after it. *)
Lemma tightening_never_lends_more_witness :
  BankAgent.assess_repo_request Examples.bank
    (BankAgent.tighten_repo_for_counterparties Examples.bank_attributes)
    "HF_01" 5000 (Some Fixtures.bank_network)
  <= BankAgent.assess_repo_request Examples.bank
       Examples.bank_attributes "HF_01" 5000 (Some Fixtures.bank_network)
  /\ BankAgent.assess_repo_request Examples.bank
       Examples.bank_attributes "HF_01" 5000 (Some Fixtures.bank_network)
     == 800
  /\ BankAgent.assess_repo_request Examples.bank
       (BankAgent.tighten_repo_for_counterparties Examples.bank_attributes)
       "HF_01" 5000 (Some Fixtures.bank_network)
     == 650.
Proof.
  split; [|split; reflexivity].
  apply (@tightening_never_lends_more Examples.bank
           Examples.bank_attributes "HF_01" 5000
           (Some Fixtures.bank_network));
    vm_compute; try split; discriminate.
Defined.

(** *** Waterfalls *)

Lemma dict_set_fresh (d : dict Q) (k : string) (v : Q) :
  ~ In k (dict_keys d) -> dict_set d k v = (d ++ [(k, v)])%list.
Proof.
  induction d as [|[k' v'] d IH]; simpl; intro H; [reflexivity|].
  destruct (String.eqb_spec k' k) as [E|E]; [exfalso; apply H; left; exact E|].
  rewrite IH; [reflexivity | intro Hin; apply H; right; exact Hin].
Qed.

Lemma Qsum_snoc (xs : list Q) (x : Q) : Qsum (xs ++ [x]) = Qsum xs + x.
Proof. unfold Qsum. rewrite fold_left_app. reflexivity. Qed.

Lemma within_weaken (S : Q) (L L' : list string) (st : waterfall) :
  incl L L' -> within S L st -> within S L' st.
Proof.
  intros HL (H1 & H2 & H3 & H4). repeat split; try assumption.
  intros x Hx. apply HL, H4, Hx.
Qed.

Lemma waterfall_step_within (S : Q) (L : list string)
      (item : option BalanceSheetItem) (action : string) (sf hc : Q)
      (st : waterfall) :
  ~ In action L -> 0 <= sf <= 1 -> 0 <= hc ->
  within S L st -> within S (action :: L) (waterfall_step item action sf hc st).
Proof.
  intros Hfresh [Hsf0 Hsf1] Hhc Hst.
  assert (Hweak : within S (action :: L) st)
    by (apply (within_weaken (L:=L)); [intros x Hx; right; exact Hx | exact Hst]).
  unfold waterfall_step. destruct item as [it|]; [|exact Hweak].
  destruct (Qgtb (amount_mm it) 0) eqn:E; [|exact Hweak].
  apply Qgtb_true in E. destruct Hst as (H1 & H2 & H3 & H4).
  set (x := Qmin (snd st * sf) (amount_mm it * hc)).
  assert (Hx0 : 0 <= x).
  { apply Q.min_glb; apply Qmult_le_0_compat; try assumption.
    apply Qlt_le_weak. exact E. }
  assert (Hx1 : x <= snd st).
  { apply Qle_trans with (snd st * sf); [apply Q.le_min_l|].
    setoid_replace (snd st) with (snd st * 1) at 2 by ring.
    rewrite !(Qmult_comm (snd st)).
    apply Qmult_le_compat_r; assumption. }
  assert (Hk : ~ In action (dict_keys (fst st)))
    by (intro Hin; apply Hfresh, H4, Hin).
  cbn [fst snd]. rewrite (@dict_set_fresh _ _ x Hk).
  unfold within. cbn [fst snd]. split_conj.
  - apply Forall_app. split; [exact H1 | constructor; [exact Hx0 | constructor]].
  - lra.
  - unfold dict_values. rewrite map_app. cbn [map snd].
    rewrite Qsum_snoc. unfold dict_values in H3. lra.
  - unfold dict_keys. rewrite map_app. cbn [map fst].
    intros y Hy. apply in_app_or in Hy. destruct Hy as [Hy|[<-|[]]].
    + right. apply H4. exact Hy.
    + left. reflexivity.
Qed.

Lemma if_shortfall_within (S : Q) (L L' : list string)
      (f : waterfall -> waterfall) (st : waterfall) :
  incl L L' -> (within S L st -> within S L' (f st)) ->
  within S L st -> within S L' (if_shortfall f st).
Proof.
  intros HL Hf Hst. unfold if_shortfall.
  destruct (Qgtb (snd st) 0); [apply Hf, Hst | apply (within_weaken HL Hst)].
Qed.

Lemma nonneg_sum_zero (r : dict Q) :
  amounts_nonneg r -> Qsum (dict_values r) <= 0 ->
  Forall (fun aa => snd aa == 0) r.
Proof.
  unfold amounts_nonneg, dict_values.
  induction r as [|[k v] r IH]; intros Hn Hs; [constructor|].
  inversion Hn as [|? ? Hv Hr]; subst. cbn [map snd] in *.
  rewrite Qsum_cons in Hs.
  assert (Hr0 : 0 <= Qsum (map snd r)).
  { clear -Hr. induction r as [|[k' v'] r IH]; [discriminate|].
    inversion Hr; subst. cbn [map snd] in *. rewrite Qsum_cons.
    specialize (IH H2). lra. }
  constructor; [cbn [snd]; lra | apply IH; [exact Hr | lra]].
Qed.

(** X12 ([BankAgent.compute_reactions]).  For a bank with a risk appetite
    of at most 1, no recorded amount is negative and the amounts together
    never exceed the shortfall [max(0, -B1)]; so a bank whose [B1] is not
    negative records amounts that are all zero. *)
Theorem bank_reactions_within_shortfall (self : Agent) (b : Bank.t) :
  Bank.risk_appetite b <= 1 ->
  let r := BankAgent.compute_reactions self b in
  amounts_nonneg r
  /\ Qsum (dict_values r) <= Qmax 0 (- B1 (liquidity self))
  /\ (0 <= B1 (liquidity self) -> Forall (fun aa => snd aa == 0) r).
Proof.
  intros Hrisk r.
  set (S := Qmax 0 (- B1 (liquidity self))).
  assert (H : exists s, within S ["sell_corp_bonds"; "sell_gilt";
                                  "reduce_repo_lending"; "boe_facility"] (r, s)).
  { subst r. unfold BankAgent.compute_reactions. fold S.
    match goal with
    | |- exists s, within _ _ (fst ?st, s) => exists (snd st);
         replace (fst st, snd st) with st by (destruct st; reflexivity)
    end.
    assert (H0 : within S [] (([], S) : waterfall)).
    { repeat split.
      - constructor.
      - apply Q.le_max_l.
      - cbn [fst snd dict_values map]. rewrite Qsum_nil. ring.
      - intros x []. }
    apply if_shortfall_within with (L := ["sell_gilt"; "reduce_repo_lending";
                                          "boe_facility"]);
      [intros x Hx; right; exact Hx | |].
    { apply waterfall_step_within;
        [cbn [In]; intuition discriminate | split; discriminate | discriminate]. }
    apply if_shortfall_within with (L := ["reduce_repo_lending"; "boe_facility"]);
      [intros x Hx; right; exact Hx | |].
    { apply waterfall_step_within;
        [cbn [In]; intuition discriminate | split; discriminate | discriminate]. }
    apply if_shortfall_within with (L := ["boe_facility"]);
      [intros x Hx; right; exact Hx | |].
    { apply waterfall_step_within;
        [cbn [In]; intuition discriminate | split; discriminate |].
      apply Qmult_le_0_compat; [lra | discriminate]. }
    apply waterfall_step_within;
      [cbn [In]; intuition | split; discriminate | discriminate | exact H0]. }
  assert (G : amounts_nonneg r /\ Qsum (dict_values r) <= S).
  { destruct H as (s & H1 & H2 & H3 & _).
    cbn [fst snd] in *. split; [exact H1 | lra]. }
  destruct G as [G1 G2]. split; [exact G1|]. split; [exact G2|].
  intro HB. apply nonneg_sum_zero; [exact G1|].
  apply Qle_trans with S; [exact G2|].
  subst S. apply Q.max_lub; [apply Qle_refl | lra].
Qed.

(** The statement on a bank with holdings whose stage 1 has left it with
    [B1 = -6354.5]: it draws on the facility, reduces its repo lending and
    sells gilts and corporate bonds, 3631.165 in all. *)
Lemma bank_reactions_within_shortfall_witness :
  amounts_nonneg
    (BankAgent.compute_reactions Examples.shocked_bank Examples.bank_attributes)
  /\ Qsum (dict_values (BankAgent.compute_reactions Examples.shocked_bank
                                                    Examples.bank_attributes))
     <= Qmax 0 (- B1 (liquidity Examples.shocked_bank))
  /\ dict_keys (BankAgent.compute_reactions Examples.shocked_bank
                                            Examples.bank_attributes)
     = ["boe_facility"; "reduce_repo_lending"; "sell_gilt"; "sell_corp_bonds"].
Proof.
  destruct (@bank_reactions_within_shortfall Examples.shocked_bank
              Examples.bank_attributes) as (H1 & H2 & _).
  - vm_compute. discriminate.
  - split; [exact H1|]. split; [exact H2 | reflexivity].
Defined.

(** *** Repo *)

Lemma Qlen_cons (A : Type) (x : A) (l : list A) : Qlen (x :: l) == 1 + Qlen l.
Proof.
  unfold Qlen. cbn [List.length]. rewrite Nat2Z.inj_succ, <- Z.add_1_l.
  rewrite inject_Z_plus. reflexivity.
Qed.

Lemma Qlen_nonneg (A : Type) (l : list A) : 0 <= Qlen l.
Proof.
  unfold Qlen. change 0 with (inject_Z 0). rewrite <- Zle_Qle. lia.
Qed.

Lemma repo_from_bank_step self_name market net agents (apb acc : Q)
      (bank_name : string) :
  0 <= apb -> repo_market_availability_pct market <= 1 ->
  repo_from_bank self_name market net agents apb acc bank_name <= acc + apb.
Proof.
  intros Hapb Hav.
  assert (Hm : apb * repo_market_availability_pct market <= apb).
  { setoid_replace apb with (apb * 1) at 2 by ring.
    rewrite !(Qmult_comm apb). apply Qmult_le_compat_r; assumption. }
  unfold repo_from_bank.
  destruct (agent_map_get agents bank_name) as [bank|]; [|lra].
  destruct (ext bank) as [b|h|l|i|o]; try lra.
  assert (BankAgent.assess_repo_request bank b self_name apb (Some net) <= apb).
  { unfold BankAgent.assess_repo_request.
    destruct (negb _); [apply Qle_trans with 0; [discriminate | exact Hapb]|].
    apply Q.le_min_l. }
  lra.
Qed.

(** X13 (the loop over banks in [compute_reactions] of the hedge fund,
    the LDI fund and the insurer).  When the amount asked is not negative
    and the availability of repo in the market is at most 1, the share
    asked of each bank, [repo_ask / max(len(banks), 1)], is between 0 and
    the amount asked; a round of the loop adds at most that share to
    [repo_obtained], whoever the bank is and whether it is in the list of
    agents or not; and the loop ends at or below what adding the full
    share at every round would give. *)
Theorem repo_obtained_at_most_asked
        (self_name : string) (market : MarketState) (net : RelationshipNetwork)
        (agents : list Agent) (banks : list string) (repo_ask : Q) :
  0 <= repo_ask -> repo_market_availability_pct market <= 1 ->
  let ask_per_bank := repo_ask / Qmax (Qlen banks) 1 in
  0 <= ask_per_bank <= repo_ask
  /\ (forall repo_obtained bank_name,
         repo_from_bank self_name market net agents ask_per_bank repo_obtained
                        bank_name
         <= repo_obtained + ask_per_bank)
  /\ repo_from_banks self_name market net agents banks repo_ask
     <= fold_left (fun repo_obtained _ => repo_obtained + ask_per_bank)
                  banks 0.0.
Proof.
  intros Hask Hav apb.
  assert (Hmax : 1 <= Qmax (Qlen banks) 1) by apply Q.le_max_r.
  assert (Hpos : 0 < Qmax (Qlen banks) 1)
    by (apply Qlt_le_trans with 1; [reflexivity | exact Hmax]).
  assert (Hapb : 0 <= apb) by (apply Qdiv_nonneg; assumption).
  assert (Hstep : forall acc x,
             repo_from_bank self_name market net agents apb acc x <= acc + apb)
    by (intros acc x; apply repo_from_bank_step; assumption).
  split_conj.
  - exact Hapb.
  - subst apb. apply Qle_shift_div_r; [exact Hpos|].
    setoid_replace repo_ask with (repo_ask * 1) at 1 by ring.
    rewrite !(Qmult_comm repo_ask). apply Qmult_le_compat_r; assumption.
  - exact Hstep.
  - unfold repo_from_banks. fold apb.
    assert (G : forall l acc acc', acc <= acc' ->
               fold_left (repo_from_bank self_name market net agents apb) l acc
               <= fold_left (fun r (_ : string) => r + apb) l acc').
    { induction l as [|x l IH]; intros acc acc' H; cbn [fold_left]; [exact H|].
      apply IH. specialize (Hstep acc x). lra. }
    apply G. apply Qle_refl.
Qed.

(** The statement on the bank of the examples and a fund it is connected
    to, which asks 5000 of two banks: the bank lends 800 of the share of
    2500 asked of it, and the name that is no agent's gives the share
    times the availability of repo in the market. *)
Lemma repo_obtained_at_most_asked_witness :
  repo_from_banks "HF_01" Fixtures.market Fixtures.bank_network
                  [Examples.bank] ["Bank_01"; "Bank_02"] 5000
  <= 0.0 + 2500 + 2500
  /\ repo_from_bank "HF_01" Fixtures.market Fixtures.bank_network
                    [Examples.bank] 2500 0.0 "Bank_01" == 800.
Proof.
  split; [|reflexivity].
  refine (proj2 (proj2 (@repo_obtained_at_most_asked "HF_01" Fixtures.market
                          Fixtures.bank_network [Examples.bank]
                          ["Bank_01"; "Bank_02"] 5000 _ _)));
    vm_compute; discriminate.
Defined.

(** ** agents/ldi_pension.py and agents/hedge_fund.py *)

(** X14 ([LDIPensionAgent.compute_margin_calls] and
    [BaseAgent.compute_stage1]).  The margin calls of an LDI fund raise
    ([ZeroDivisionError]) exactly when the fund has a ["Derivatives
    Exposure"] item and a yield buffer of zero, and stage 1 of that fund
    then raises as well.  Without the item the call returns 0.0 and writes
    nothing; with it, the share of the yield buffer it writes is at most 1
    and nothing else of the fund changes. *)
Theorem ldi_margin_calls_raise_iff
        (i : nat) (store : list Agent) (self : Agent) (l : LDI.t)
        (market : MarketState) (dd : dict Q)
        (network : option RelationshipNetwork) :
  (LDIPensionAgent.compute_margin_calls self l market = None
   <-> get_item self "Derivatives Exposure" <> None
       /\ LDI.yield_buffer_bps l == 0)
  /\ (nth_error store i = Some self -> ext self = IsLDI l ->
      LDIPensionAgent.compute_margin_calls self l market = None ->
      BaseAgent.compute_stage1 i store market dd network = None)
  /\ (forall x l',
        LDIPensionAgent.compute_margin_calls self l market = Some (x, l') ->
        (get_item self "Derivatives Exposure" = None -> x = 0.0 /\ l' = l)
        /\ (get_item self "Derivatives Exposure" <> None ->
            LDI.yield_buffer_consumed_pct l' <= 1)
        /\ l' = LDIPensionAgent.set_consumed l (LDI.yield_buffer_consumed_pct l')).
Proof.
  unfold LDIPensionAgent.compute_margin_calls. split_conj.
  - destruct (get_item self "Derivatives Exposure") as [deriv|].
    + destruct (Qeq_bool (LDI.yield_buffer_bps l) 0) eqn:E.
      * split; [intros _; apply Qeq_bool_iff in E; split; [discriminate | exact E]
               | reflexivity].
      * split; [discriminate|]. intros [_ H]. apply Qeq_bool_iff in H. congruence.
    + split; [discriminate | intros [H _]; congruence].
  - intros Hi He Hn. unfold BaseAgent.compute_stage1. rewrite Hi.
    unfold BaseAgent.compute_margin_calls. rewrite He.
    unfold LDIPensionAgent.compute_margin_calls. rewrite Hn. reflexivity.
  - intros x l' H.
    destruct (get_item self "Derivatives Exposure") as [deriv|].
    + destruct (Qeq_bool (LDI.yield_buffer_bps l) 0); [discriminate|].
      injection H as <- <-. split_conj.
      * discriminate.
      * intros _. cbn. apply Qle_trans with 1.0; [apply Q.le_min_l | discriminate].
      * reflexivity.
    + injection H as <- <-. split_conj.
      * auto.
      * intro H. congruence.
      * destruct l; reflexivity.
Qed.

Lemma recap_step_adds (l : LDI.t) (st : waterfall) :
  let l' := snd (LDIPensionAgent.recap_step l st) in
  LDI.recap_used_mm l <= LDI.recap_used_mm l'
  /\ LDI.recap_available_mm l' = LDI.recap_available_mm l
  /\ (l' = l
      \/ exists u,
           LDI.recap_used_mm l < LDI.recap_available_mm l
           /\ 0 <= u
              <= (LDI.recap_available_mm l - LDI.recap_used_mm l)
                 / inject_Z (Z.max (LDI.recap_speed_days l) 1)
           /\ l' = LDIPensionAgent.set_recap_used l (LDI.recap_used_mm l + u)).
Proof.
  unfold LDIPensionAgent.recap_step.
  destruct (Qgtb (snd st) 0 && Qgtb (LDI.recap_available_mm l) (LDI.recap_used_mm l))
    eqn:E; cbn [snd].
  - apply andb_true_iff in E. destruct E as [Es Ea].
    apply Qgtb_true in Es. apply Qgtb_true in Ea.
    set (d := inject_Z (Z.max (LDI.recap_speed_days l) 1)).
    assert (Hd : 0 < d).
    { apply Qlt_le_trans with 1; [reflexivity|].
      subst d. change 1 with (inject_Z 1). rewrite <- Zle_Qle. lia. }
    assert (Hgap : 0 <= LDI.recap_available_mm l - LDI.recap_used_mm l) by lra.
    pose proof (Qdiv_nonneg Hgap Hd) as Hdaily.
    set (u := Qmin (snd st * 0.3)
                   ((LDI.recap_available_mm l - LDI.recap_used_mm l) / d)).
    assert (Hu0 : 0 <= u).
    { apply Q.min_glb; [|exact Hdaily].
      apply Qmult_le_0_compat; [apply Qlt_le_weak; exact Es | discriminate]. }
    split_conj.
    + cbn. lra.
    + reflexivity.
    + right. exists u. split; [exact Ea|].
      split; [split; [exact Hu0 | apply Q.le_min_r] | reflexivity].
  - split_conj; [apply Qle_refl | reflexivity | left; reflexivity].
Qed.

(** X15 ([LDIPensionAgent.compute_reactions]).  Whatever the shortfall,
    the recapitalisation an LDI fund has used never goes down in a round
    of reactions and the amount available is not changed.  A round either
    leaves the attributes of the fund as they were, or, when less has been
    used than is available, adds to what has been used an amount between 0
    and the day's allowance, [(recap_available - recap_used) /
    max(recap_speed_days, 1)], and changes nothing else. *)
Theorem ldi_recap_within_available
        (self : Agent) (l : LDI.t) (market : MarketState)
        (network : option RelationshipNetwork) (agents : list Agent) :
  let l' := snd (LDIPensionAgent.compute_reactions self l market network agents) in
  LDI.recap_used_mm l <= LDI.recap_used_mm l'
  /\ LDI.recap_available_mm l' = LDI.recap_available_mm l
  /\ (l' = l
      \/ exists u,
           LDI.recap_used_mm l < LDI.recap_available_mm l
           /\ 0 <= u
              <= (LDI.recap_available_mm l - LDI.recap_used_mm l)
                 / inject_Z (Z.max (LDI.recap_speed_days l) 1)
           /\ l' = LDIPensionAgent.set_recap_used l (LDI.recap_used_mm l + u)).
Proof.
  unfold LDIPensionAgent.compute_reactions.
  match goal with
  | |- context [LDIPensionAgent.recap_step l ?st] =>
      pose proof (recap_step_adds l st) as H;
      destruct (LDIPensionAgent.recap_step l st) as [st2 l2]
  end.
  cbn [snd] in *. exact H.
Qed.

(** X16 ([HedgeFundAgent.compute_reactions]).  The two repo flags of a
    hedge fund are never cleared: a fund that has sought repo, or that has
    been refused by all its banks, still carries the flag after any later
    round of reactions, also one in which it obtains repo.  A fund is only
    marked as refused in a round in which it is marked as having sought
    repo. *)
Theorem hedge_fund_flags_stick
        (self : Agent) (h : HedgeFund.t) (market : MarketState)
        (network : option RelationshipNetwork) (agents : list Agent) :
  let h' := snd (HedgeFundAgent.compute_reactions self h market network agents) in
  (HedgeFund.has_ever_sought_repo h = true ->
   HedgeFund.has_ever_sought_repo h' = true)
  /\ (HedgeFund.repo_refused_by_all h = true ->
      HedgeFund.repo_refused_by_all h' = true)
  /\ (HedgeFund.repo_refused_by_all h = false ->
      HedgeFund.repo_refused_by_all h' = true ->
      HedgeFund.has_ever_sought_repo h' = true)
  /\ HedgeFund.strategy h' = HedgeFund.strategy h
  /\ HedgeFund.aum_mm h' = HedgeFund.aum_mm h
  /\ HedgeFund.repo_dep_mult h' = HedgeFund.repo_dep_mult h.
Proof.
  unfold HedgeFundAgent.compute_reactions.
  match goal with
  | |- context [HedgeFundAgent.repo_step self h market network agents ?st] =>
      set (st0 := st)
  end.
  assert (G : let h1 := snd (HedgeFundAgent.repo_step self h market network
                                 agents st0) in
              (HedgeFund.has_ever_sought_repo h = true ->
               HedgeFund.has_ever_sought_repo h1 = true)
              /\ (HedgeFund.repo_refused_by_all h = true ->
                  HedgeFund.repo_refused_by_all h1 = true)
              /\ (HedgeFund.repo_refused_by_all h = false ->
                  HedgeFund.repo_refused_by_all h1 = true ->
                  HedgeFund.has_ever_sought_repo h1 = true)
              /\ HedgeFund.strategy h1 = HedgeFund.strategy h
              /\ HedgeFund.aum_mm h1 = HedgeFund.aum_mm h
              /\ HedgeFund.repo_dep_mult h1 = HedgeFund.repo_dep_mult h).
  { unfold HedgeFundAgent.repo_step. cbv zeta.
    destruct network as [net|]; [|cbn [snd]; split_conj; auto; congruence].
    repeat match goal with
           | |- context [Qgtb ?q 0] => destruct (Qgtb q 0)
           end;
      cbn [snd HedgeFundAgent.set_flags HedgeFund.has_ever_sought_repo
             HedgeFund.repo_refused_by_all HedgeFund.strategy HedgeFund.aum_mm
             HedgeFund.repo_dep_mult];
      split_conj; auto; congruence. }
  destruct (HedgeFundAgent.repo_step self h market network agents st0) as [st1 h1].
  exact G.
Qed.

(** ** engine/simulation.py: [_update_balance_sheets] *)

Lemma sold_from_refl (bs : list BalanceSheetItem) :
  Forall wf_item bs -> Forall2 sold_from bs bs.
Proof.
  induction 1 as [|it bs Hit _ IH]; constructor; [|exact IH].
  unfold sold_from, wf_item in *.
  split_conj; first [reflexivity | exact Hit | apply Qle_refl].
Qed.

Lemma sold_from_trans (bs1 bs2 bs3 : list BalanceSheetItem) :
  Forall2 sold_from bs1 bs2 -> Forall2 sold_from bs2 bs3 ->
  Forall2 sold_from bs1 bs3.
Proof.
  intro H. revert bs3. induction H as [|a b l l' Hab _ IH]; intros bs3 H3.
  - inversion H3; subst. constructor.
  - inversion H3 as [|? c ? l'' Hbc Hl]; subst. constructor; [|apply IH, Hl].
    destruct Hab as (A1 & A2 & A3 & A4 & A5).
    destruct Hbc as (B1' & B2' & B3' & B4' & B5').
    unfold sold_from. split_conj; try congruence.
    apply Qle_trans with (amount_mm b); assumption.
Qed.

Lemma sold_from_wf (bs bs' : list BalanceSheetItem) :
  Forall2 sold_from bs bs' -> Forall wf_item bs'.
Proof.
  induction 1 as [|a b l l' Hab _ IH]; constructor; [|exact IH].
  destruct Hab as (_ & _ & _ & H & _). exact H.
Qed.

Lemma sell_from_sold (n : string) (x : Q) (bs : list BalanceSheetItem) :
  Forall wf_item bs -> 0 <= x ->
  Forall2 sold_from bs (Simulation.sell_from n x bs).
Proof.
  intros Hwf Hx. induction Hwf as [|it bs Hit Hbs IH]; [constructor|].
  cbn [Simulation.sell_from]. destruct (String.eqb (item_name it) n).
  - constructor; [|apply sold_from_refl, Hbs].
    unfold sold_from, wf_item in *. cbn. split_conj; try reflexivity.
    + apply Q.le_max_l.
    + apply Q.max_lub; [exact Hit | lra].
  - constructor; [|exact IH].
    unfold sold_from, wf_item in *.
  split_conj; first [reflexivity | exact Hit | apply Qle_refl].
Qed.

Lemma update_for_action_after_sales (a : Agent) (aa : string * Q) :
  Forall wf_item (balance_sheet a) -> 0 <= snd aa ->
  after_sales a (Simulation.update_for_action a aa).
Proof.
  intros Hwf Hx.
  assert (Hsame : after_sales a a).
  { split; [apply sold_from_refl, Hwf | destruct a; reflexivity]. }
  assert (Hsell : forall n,
             after_sales a (set_balance_sheet a
                              (Simulation.sell_from n (snd aa) (balance_sheet a)))).
  { intro n. split; [apply sell_from_sold; assumption | destruct a; reflexivity]. }
  unfold Simulation.update_for_action.
  destruct (str_in "sell_gilt" (fst aa)).
  - destruct (item_or _ _); [apply Hsell | exact Hsame].
  - destruct (str_in "sell_corp" (fst aa)); [|exact Hsame].
    destruct (item_or _ _); [apply Hsell | exact Hsame].
Qed.

Lemma after_sales_trans (a b c : Agent) :
  after_sales a b -> after_sales b c -> after_sales a c.
Proof.
  intros [H1 H2] [H3 H4]. split; [apply (sold_from_trans H1 H3)|].
  rewrite <- H2, <- H4. destruct c; reflexivity.
Qed.

Lemma update_actions_after_sales (r : dict Q) (a : Agent) :
  amounts_nonneg r -> Forall wf_item (balance_sheet a) ->
  after_sales a (fold_left Simulation.update_for_action r a).
Proof.
  revert a. induction r as [|aa r IH]; intros a Hr Hwf; cbn [fold_left].
  - split; [apply sold_from_refl, Hwf | destruct a; reflexivity].
  - inversion Hr as [|? ? Haa Hr']; subst.
    pose proof (update_for_action_after_sales a aa Hwf Haa) as H1.
    apply (after_sales_trans H1). apply IH; [exact Hr'|].
    apply (sold_from_wf (proj1 H1)).
Qed.

(** X17 ([_update_balance_sheets]).  For agents whose recorded amounts and
    holdings are not negative, the update of the balance sheets leaves
    every line of every balance sheet in place, with its name, category
    and sensitivities, and with an amount between 0 and the amount before;
    nothing but the balance sheets changes. *)
Theorem update_balance_sheets_shrink (store : list Agent) :
  Forall (fun a => amounts_nonneg (reactions a)
                   /\ Forall wf_item (balance_sheet a)) store ->
  Forall2 after_sales store (Simulation.update_balance_sheets store).
Proof.
  unfold Simulation.update_balance_sheets. rewrite for_each_index_modify.
  induction 1 as [|a store [Hr Hwf] _ IH]; cbn [map]; constructor; [|exact IH].
  apply update_actions_after_sales; assumption.
Qed.

(** The statement on the insurer of the examples after its stage 2, which
    has recorded sales of gilts, corporate bonds and equities: its gilt
    holdings go from 8000 to 7540.5965. *)
Lemma update_balance_sheets_shrink_witness :
  Forall2 after_sales Examples.insurers_stage2
          (Simulation.update_balance_sheets Examples.insurers_stage2)
  /\ map (fun a => option_map amount_mm (get_item a "Gilt Holdings"))
         Examples.insurers_stage2 = [Some 8000]
  /\ Forall (fun a => amount_or_zero (get_item a "Gilt Holdings") == 7540.5965)
            (Simulation.update_balance_sheets Examples.insurers_stage2).
Proof.
  split.
  - apply update_balance_sheets_shrink.
    vm_compute.
    repeat first [apply Forall_cons | apply Forall_nil | split | discriminate].
  - split; vm_compute; [reflexivity|].
    repeat first [apply Forall_cons | apply Forall_nil]. reflexivity.
Defined.

Lemma get_item_name (a : Agent) (n : string) (it : BalanceSheetItem) :
  get_item a n = Some it -> item_name it = n.
Proof.
  unfold get_item. intro H. apply find_some in H. destruct H as [_ H].
  apply String.eqb_eq. exact H.
Qed.

Lemma find_sell_from_other (n m : string) (x : Q) (bs : list BalanceSheetItem) :
  n <> m ->
  find (fun i => String.eqb (item_name i) n) (Simulation.sell_from m x bs)
  = find (fun i => String.eqb (item_name i) n) bs.
Proof.
  intro H. induction bs as [|it bs IH]; [reflexivity|].
  cbn [Simulation.sell_from].
  destruct (String.eqb_spec (item_name it) m) as [E|E]; cbn [find item_name].
  - rewrite E. destruct (String.eqb_spec m n) as [E'|_]; [congruence | reflexivity].
  - rewrite IH. reflexivity.
Qed.

Lemma find_sell_from_same (n : string) (x : Q) (bs : list BalanceSheetItem)
      (g : BalanceSheetItem) :
  find (fun i => String.eqb (item_name i) n) bs = Some g ->
  option_map amount_mm
    (find (fun i => String.eqb (item_name i) n) (Simulation.sell_from n x bs))
  = Some (Qmax 0 (amount_mm g - x)).
Proof.
  induction bs as [|it bs IH]; [discriminate|].
  cbn [find Simulation.sell_from].
  destruct (String.eqb (item_name it) n) eqn:E; cbn [find item_name]; rewrite E.
  - intro H. injection H as <-. reflexivity.
  - exact IH.
Qed.

(** X18 ([_update_balance_sheets]).  A sale is debited by the name of its
    action, not by what was sold.  The three gilt sales (plain,
    index-linked, basis unwind) are all debited from ["Gilt Holdings"],
    which goes to [max(0, amount - sold)] while ["Gilt Positions (net)"]
    stays as it was; when there are no gilt holdings they are debited from
    ["Gilt Positions (net)"] in the same way; and when there is neither,
    nothing changes.  No other line is touched: the index-linked holdings
    and the basis trade positions stay as they were.  A corporate bond
    sale is debited from the first there is of ["Corporate Bonds"],
    ["Corporate Bond Holdings"] and ["Corp Bond Positions"] and touches no
    line outside these three, and no other action (an equity sale
    included) changes the agent at all. *)
Theorem sales_debit_table (a : Agent) (action : string) (x : Q) (n : string) :
  let a' := Simulation.update_for_action a (action, x) in
  (In action gilt_sale_actions ->
   (n <> "Gilt Holdings" -> n <> "Gilt Positions (net)" ->
    get_item a' n = get_item a n)
   /\ (forall g, get_item a "Gilt Holdings" = Some g ->
                 option_map amount_mm (get_item a' "Gilt Holdings")
                 = Some (Qmax 0 (amount_mm g - x))
                 /\ get_item a' "Gilt Positions (net)"
                    = get_item a "Gilt Positions (net)")
   /\ (get_item a "Gilt Holdings" = None ->
       get_item a' "Gilt Holdings" = None
       /\ (forall g, get_item a "Gilt Positions (net)" = Some g ->
                     option_map amount_mm (get_item a' "Gilt Positions (net)")
                     = Some (Qmax 0 (amount_mm g - x)))
       /\ (get_item a "Gilt Positions (net)" = None -> a' = a)))
  /\ (action = "sell_corp_bonds" ->
      (n <> "Corporate Bonds" -> n <> "Corporate Bond Holdings" ->
       n <> "Corp Bond Positions" -> get_item a' n = get_item a n)
      /\ (forall g,
             item_or (get_item a "Corporate Bonds")
                     (item_or (get_item a "Corporate Bond Holdings")
                              (get_item a "Corp Bond Positions")) = Some g ->
             option_map amount_mm (get_item a' (item_name g))
             = Some (Qmax 0 (amount_mm g - x)))
      /\ (item_or (get_item a "Corporate Bonds")
                  (item_or (get_item a "Corporate Bond Holdings")
                           (get_item a "Corp Bond Positions")) = None ->
          a' = a))
  /\ (In action (repo_actions ++ unregistered_actions) -> a' = a).
Proof.
  intro a'. subst a'. split_conj.
  - intro H.
    assert (E : str_in "sell_gilt" action = true).
    { unfold gilt_sale_actions in H. cbn [In] in H.
      repeat (destruct H as [<-|H]; [reflexivity|]). destruct H. }
    unfold Simulation.update_for_action. cbn [fst snd]. rewrite E. split_conj.
    + intros N1 N2.
      destruct (get_item a "Gilt Holdings") as [g|] eqn:Eg; cbn [item_or].
      * unfold get_item at 1. cbn [balance_sheet set_balance_sheet].
        rewrite find_sell_from_other; [reflexivity|].
        rewrite (get_item_name _ _ Eg). exact N1.
      * destruct (get_item a "Gilt Positions (net)") as [g|] eqn:Ep;
          [|reflexivity].
        unfold get_item at 1. cbn [balance_sheet set_balance_sheet].
        rewrite find_sell_from_other; [reflexivity|].
        rewrite (get_item_name _ _ Ep). exact N2.
    + intros g Eg. rewrite Eg. cbn [item_or]. split.
      * unfold get_item at 1. cbn [balance_sheet set_balance_sheet].
        rewrite (get_item_name _ _ Eg). apply find_sell_from_same. exact Eg.
      * unfold get_item at 1. cbn [balance_sheet set_balance_sheet].
        rewrite (get_item_name _ _ Eg).
        rewrite find_sell_from_other; [reflexivity | discriminate].
    + intro Eg. rewrite Eg. cbn [item_or]. split_conj.
      * destruct (get_item a "Gilt Positions (net)") as [g|] eqn:Ep;
          [|exact Eg].
        unfold get_item at 1. cbn [balance_sheet set_balance_sheet].
        rewrite (get_item_name _ _ Ep).
        rewrite find_sell_from_other; [exact Eg | discriminate].
      * intros g Ep. rewrite Ep.
        unfold get_item at 1. cbn [balance_sheet set_balance_sheet].
        rewrite (get_item_name _ _ Ep). apply find_sell_from_same. exact Ep.
      * intro Ep. rewrite Ep. reflexivity.
  - intros ->. unfold Simulation.update_for_action. cbn [fst snd].
    change (str_in "sell_gilt" "sell_corp_bonds") with false.
    change (str_in "sell_corp" "sell_corp_bonds") with true. cbv iota.
    split_conj.
    + intros N1 N2 N3.
      destruct (get_item a "Corporate Bonds") as [g|] eqn:E1; cbn [item_or].
      { unfold get_item at 1. cbn [balance_sheet set_balance_sheet].
        rewrite find_sell_from_other; [reflexivity|].
        rewrite (get_item_name _ _ E1). exact N1. }
      destruct (get_item a "Corporate Bond Holdings") as [g|] eqn:E2;
        cbn [item_or].
      { unfold get_item at 1. cbn [balance_sheet set_balance_sheet].
        rewrite find_sell_from_other; [reflexivity|].
        rewrite (get_item_name _ _ E2). exact N2. }
      destruct (get_item a "Corp Bond Positions") as [g|] eqn:E3; [|reflexivity].
      unfold get_item at 1. cbn [balance_sheet set_balance_sheet].
      rewrite find_sell_from_other; [reflexivity|].
      rewrite (get_item_name _ _ E3). exact N3.
    + intros g Hg. rewrite Hg.
      assert (Hfind : find (fun i => String.eqb (item_name i) (item_name g))
                           (balance_sheet a) = Some g).
      { destruct (get_item a "Corporate Bonds") as [g1|] eqn:E1;
          cbn [item_or] in Hg.
        { injection Hg as <-. rewrite (get_item_name _ _ E1). exact E1. }
        destruct (get_item a "Corporate Bond Holdings") as [g2|] eqn:E2;
          cbn [item_or] in Hg.
        { injection Hg as <-. rewrite (get_item_name _ _ E2). exact E2. }
        rewrite (get_item_name _ _ Hg). exact Hg. }
      unfold get_item. cbn [balance_sheet set_balance_sheet].
      apply find_sell_from_same. exact Hfind.
    + intro Hg. rewrite Hg. reflexivity.
  - intro H. unfold repo_actions, unregistered_actions in H. cbn [In app] in H.
    repeat (destruct H as [<-|H]; [reflexivity|]). destruct H.
Qed.

(** ** engine/feedback.py *)

Lemma apply_stage3_erase (a : Agent) (e : Q) :
  erase (BaseAgent.apply_stage3 a e) = erase a.
Proof. reflexivity. Qed.

Lemma Forall2_map_same (A B : Type) (f : A -> B) (R : A -> B -> Prop)
      (l : list A) :
  (forall a, R a (f a)) -> Forall2 R l (map f l).
Proof. intro H. induction l; cbn [map]; constructor; auto. Qed.

Lemma stage3_bumps (np_sqrt : Q -> Q) (store : list Agent)
      (market : MarketState) (net : RelationshipNetwork) :
  Forall2 (fun a a' => exists e, a' = BaseAgent.apply_stage3 a e) store
          (Simulation.compute_stage3_feedback np_sqrt store market net).
Proof.
  unfold Simulation.compute_stage3_feedback. destruct (Qeq_bool _ 0).
  - rewrite for_each_index_modify. apply Forall2_map_same.
    intro a. exists 0.0. reflexivity.
  - apply (@for_each_index_rel
             (fun a a' => exists e, a' = BaseAgent.apply_stage3 a e)
             (fun _ => True)); [|exact I].
    intros i st t _ Hi. rewrite Hi. eexists. split; [reflexivity|].
    split; [eexists; reflexivity | exact I].
Qed.

Lemma filter_none (p : Agent -> bool) (l : list Agent) :
  Forall (fun a => p a = false) l -> filter p l = [].
Proof.
  induction 1 as [|a l Ha _ IH]; cbn [filter]; [reflexivity|].
  rewrite Ha. exact IH.
Qed.

(** X19 ([compute_stage3_feedback]).  A round of stage 3 changes nothing
    of any agent but [E2] and [B3], and it leaves every agent with
    [B3 = B2 - E2].  When no agent has reacted, it adds nothing to any
    [E2]: without first-round reactions there is no second-round loss,
    whatever the market and the network. *)
Theorem stage3_writes_E2_and_B3_only
        (np_sqrt : Q -> Q) (store : list Agent) (market : MarketState)
        (net : RelationshipNetwork) :
  let store' := Simulation.compute_stage3_feedback np_sqrt store market net in
  map erase store' = map erase store
  /\ Forall (fun a => B3 (liquidity a) = B2 (liquidity a) - E2 (liquidity a))
            store'
  /\ (Forall (fun a => has_reacted a = false) store ->
      Forall2 (fun a a' => E2 (liquidity a') == E2 (liquidity a)) store store').
Proof.
  intro store'.
  pose proof (stage3_bumps np_sqrt store market net) as H. fold store' in H.
  split_conj.
  - clear -H. induction H as [|a a' l l' [e ->] _ IH]; cbn [map]; [reflexivity|].
    rewrite IH, apply_stage3_erase. reflexivity.
  - clear -H. induction H as [|a a' l l' [e ->] _ IH]; constructor;
      [reflexivity | exact IH].
  - intro Hnone. subst store'. unfold Simulation.compute_stage3_feedback.
    unfold count_if at 1. rewrite (filter_none _ Hnone).
    change (Qeq_bool (Qlen (@nil Agent)) 0) with true. cbv iota.
    rewrite for_each_index_modify. apply Forall2_map_same.
    intro a. cbn. ring.
Qed.

(** ** engine/simulation.py: the day loop *)

Lemma frame_trans (a b c : Agent) :
  set_balance_sheet b (balance_sheet a) = a ->
  set_balance_sheet c (balance_sheet b) = b ->
  set_balance_sheet c (balance_sheet a) = a.
Proof.
  intros H1 H2.
  assert (E : set_balance_sheet c (balance_sheet a)
              = set_balance_sheet (set_balance_sheet c (balance_sheet b))
                                  (balance_sheet a)) by reflexivity.
  rewrite E, H2. exact H1.
Qed.

Lemma update_actions_frame (r : dict Q) (a : Agent) :
  set_balance_sheet (fold_left Simulation.update_for_action r a)
                    (balance_sheet a) = a.
Proof.
  revert a. induction r as [|aa r IH]; intro a; cbn [fold_left].
  - destruct a; reflexivity.
  - apply frame_trans with (b := Simulation.update_for_action a aa); [|apply IH].
    unfold Simulation.update_for_action.
    destruct (str_in "sell_gilt" (fst aa));
      [|destruct (str_in "sell_corp" (fst aa))];
      try destruct (item_or _ _); destruct a; reflexivity.
Qed.

Lemma update_balance_sheet_liquidity (a : Agent) :
  liquidity (Simulation.update_balance_sheet a) = liquidity a
  /\ same_agent a (Simulation.update_balance_sheet a).
Proof.
  unfold Simulation.update_balance_sheet.
  pose proof (update_actions_frame (reactions a) a) as H.
  set (a' := fold_left Simulation.update_for_action (reactions a) a) in *.
  assert (L : liquidity a = liquidity a') by (rewrite <- H at 1; reflexivity).
  assert (N : name a = name a') by (rewrite <- H at 1; reflexivity).
  assert (X : ext a = ext a') by (rewrite <- H at 1; reflexivity).
  unfold same_agent, agent_type. rewrite L, N, X. auto.
Qed.

Lemma register_all_accumulates (store : list Agent) (m : MarketState) :
  exists c, Simulation.register_all store m = BaseAgent.set_endogenous m c.
Proof.
  unfold Simulation.register_all. revert m.
  induction store as [|a store IH]; intro m; cbn [fold_left].
  - exists (endogenous_gilt_selling_mm m, endogenous_corp_selling_mm m,
            endogenous_repo_demand_mm m). destruct m; reflexivity.
  - destruct (IH (BaseAgent.register_actions_to_market a m)) as [c ->].
    exists c. reflexivity.
Qed.

Lemma day_inputs_values (scenario : Scenario) (d : nat) (dv dd : dict Q) :
  Simulation.day_inputs scenario d = Some (dv, dd) ->
  get_scenario_day scenario d = Some dv.
Proof.
  unfold Simulation.day_inputs.
  destruct (get_scenario_day scenario d) as [dv'|]; [|discriminate].
  destruct d as [|d']; [|destruct (get_scenario_day scenario d')];
    intro H; try discriminate; injection H as <- _; reflexivity.
Qed.

(** X20 ([run_simulation] with [enable_feedback=False]).  A day that is
    run without feedback leaves every agent with [E2 = 0.0] and
    [B3 = B2], and the market it records is the day's scenario applied to
    the previous market, with nothing changed but the three accumulators
    of selling and repo demand: yields and spreads are the scenario's own,
    and the market depths are those of the day before. *)
Theorem feedback_off_day
        (np_sqrt : Q -> Q) (net : RelationshipNetwork) (scenario : Scenario)
        (k : nat) (st st' : Simulation.RunState) (d : nat) :
  Simulation.day_step np_sqrt net scenario false k st d = Some st' ->
  Forall (fun a => E2 (liquidity a) = 0.0
                   /\ B3 (liquidity a) = B2 (liquidity a))
         (Simulation.run_agents st')
  /\ exists day_values c,
       get_scenario_day scenario d = Some day_values
       /\ Simulation.run_market st'
          = BaseAgent.set_endogenous
              (Market.apply_exogenous_scenario
                 (Simulation.set_day (Simulation.run_market st) d) day_values)
              c.
Proof.
  unfold Simulation.day_step, Simulation.day_reactions.
  destruct (Simulation.day_inputs scenario d) as [[dv dd]|] eqn:Ei;
    [|discriminate].
  apply day_inputs_values in Ei.
  destruct (Simulation.for_each_index_opt _ _) as [store1|]; [|discriminate].
  cbn [Simulation.stage3]. intro H. injection H as <-.
  cbn [Simulation.run_agents Simulation.run_market]. split.
  - unfold Simulation.update_balance_sheets.
    rewrite !for_each_index_modify. rewrite map_map.
    apply Forall_forall. intros a' Ha'. apply in_map_iff in Ha'.
    destruct Ha' as (a & <- & _).
    rewrite (proj1 (update_balance_sheet_liquidity _)). split; reflexivity.
  - exists dv.
    destruct (@register_all_accumulates
                (Simulation.for_each_index
                   (Simulation.stage2_at
                      (Market.apply_exogenous_scenario
                         (Simulation.set_day (Simulation.run_market st) d) dv) net)
                   store1)
                (Market.apply_exogenous_scenario
                   (Simulation.set_day (Simulation.run_market st) d) dv))
      as [c Hc].
    exists c. split; [exact Ei | exact Hc].
Qed.

(** The statement on the one-day run of the insurer of the fixtures. *)
Lemma feedback_off_day_witness :
  exists st',
    Simulation.day_step Fixtures.sqrt6 Fixtures.empty_network Fixtures.scenario
                        false 3 (Simulation.initial_state Fixtures.insurers) 0
    = Some st'
    /\ Forall (fun a => E2 (liquidity a) = 0.0
                        /\ B3 (liquidity a) = B2 (liquidity a))
              (Simulation.run_agents st').
Proof.
  destruct (Simulation.day_step Fixtures.sqrt6 Fixtures.empty_network
              Fixtures.scenario false 3
              (Simulation.initial_state Fixtures.insurers) 0) as [st'|] eqn:E;
    [|vm_compute in E; discriminate].
  exists st'. split; [reflexivity|].
  exact (proj1 (@feedback_off_day Fixtures.sqrt6 Fixtures.empty_network
                  Fixtures.scenario 3
                  (Simulation.initial_state Fixtures.insurers) st' 0 E)).
Defined.

(** *** Stages 1 and 2 and what stage 3 writes *)

Lemma compute_stage2_erase (i : nat) (st : list Agent) (market : MarketState)
      (network : option RelationshipNetwork) :
  BaseAgent.compute_stage2 i (map erase st) market network
  = map erase (BaseAgent.compute_stage2 i st market network).
Proof.
  unfold BaseAgent.compute_stage2. rewrite nth_error_map.
  destruct (nth_error st i) as [self|]; cbn [option_map]; [|reflexivity].
  change (BaseAgent.should_react (erase self))
    with (BaseAgent.should_react self).
  destruct (negb (BaseAgent.should_react self)).
  - rewrite <- put_map. reflexivity.
  - change (set_reacted (erase self) true (reactions (erase self)))
      with (erase (set_reacted self true (reactions self))).
    rewrite put_map, compute_reactions_erase.
    destruct (BaseAgent.compute_reactions (set_reacted self true (reactions self))
                market network (put i (set_reacted self true (reactions self)) st))
      as [r self2].
    cbn [fst snd].
    change (cumulative_asset_sales_mm
              (set_liquidity (set_reacted (erase self2) true r)
                 (set_B2 (liquidity (set_reacted (erase self2) true r))
                    (B1 (liquidity (set_reacted (erase self2) true r))
                     + BaseAgent.mitigation_of market r))))
      with (cumulative_asset_sales_mm self2).
    change (cumulative_gilt_sales_mm
              (set_liquidity (set_reacted (erase self2) true r)
                 (set_B2 (liquidity (set_reacted (erase self2) true r))
                    (B1 (liquidity (set_reacted (erase self2) true r))
                     + BaseAgent.mitigation_of market r))))
      with (cumulative_gilt_sales_mm self2).
    change (cumulative_repo_demand_mm
              (set_liquidity (set_reacted (erase self2) true r)
                 (set_B2 (liquidity (set_reacted (erase self2) true r))
                    (B1 (liquidity (set_reacted (erase self2) true r))
                     + BaseAgent.mitigation_of market r))))
      with (cumulative_repo_demand_mm self2).
    change (cumulative_asset_sales_mm
              (set_liquidity (set_reacted self2 true r)
                 (set_B2 (liquidity (set_reacted self2 true r))
                    (B1 (liquidity (set_reacted self2 true r))
                     + BaseAgent.mitigation_of market r))))
      with (cumulative_asset_sales_mm self2).
    change (cumulative_gilt_sales_mm
              (set_liquidity (set_reacted self2 true r)
                 (set_B2 (liquidity (set_reacted self2 true r))
                    (B1 (liquidity (set_reacted self2 true r))
                     + BaseAgent.mitigation_of market r))))
      with (cumulative_gilt_sales_mm self2).
    change (cumulative_repo_demand_mm
              (set_liquidity (set_reacted self2 true r)
                 (set_B2 (liquidity (set_reacted self2 true r))
                    (B1 (liquidity (set_reacted self2 true r))
                     + BaseAgent.mitigation_of market r))))
      with (cumulative_repo_demand_mm self2).
    destruct (fold_left BaseAgent.count_action r
                (cumulative_asset_sales_mm self2, cumulative_gilt_sales_mm self2,
                 cumulative_repo_demand_mm self2)) as [[sales gilt] repo].
    rewrite <- put_map. reflexivity.
Qed.

(** X21 ([BaseAgent.compute_stage1] and [BaseAgent.compute_stage2]).
    Stages 1 and 2 neither read nor write what stage 3 writes: run on a
    list of agents whose [E2] and [B3] have all been set to zero, they
    raise when they raise on the list itself, and otherwise give the list
    they give on it, with [E2] and [B3] set to zero. *)
Theorem stages_1_and_2_ignore_stage3
        (i : nat) (store : list Agent) (market : MarketState) (dd : dict Q)
        (network : option RelationshipNetwork) :
  BaseAgent.compute_stage1 i (map erase store) market dd network
  = option_map (map erase)
               (BaseAgent.compute_stage1 i store market dd network)
  /\ BaseAgent.compute_stage2 i (map erase store) market network
     = map erase (BaseAgent.compute_stage2 i store market network).
Proof.
  split; [apply compute_stage1_erase | apply compute_stage2_erase].
Qed.

(** ** engine/simulation.py: what a run records *)

Lemma same_agent_refl (a : Agent) : same_agent a a.
Proof. split; reflexivity. Qed.

Lemma same_agent_trans (a b c : Agent) :
  same_agent a b -> same_agent b c -> same_agent a c.
Proof. intros [H1 H2] [H3 H4]. split; congruence. Qed.

Lemma same_agents_refl (l : list Agent) : Forall2 same_agent l l.
Proof. induction l; constructor; [apply same_agent_refl | assumption]. Qed.

Lemma same_agents_trans (l1 l2 l3 : list Agent) :
  Forall2 same_agent l1 l2 -> Forall2 same_agent l2 l3 ->
  Forall2 same_agent l1 l3.
Proof.
  intro H. revert l3. induction H as [|a b l l' Hab _ IH]; intros l3 H3;
    inversion H3; subst; constructor.
  - apply (same_agent_trans Hab). assumption.
  - apply IH. assumption.
Qed.

Lemma same_agents_names (l l' : list Agent) :
  Forall2 same_agent l l' -> map name l' = map name l.
Proof.
  induction 1 as [|a b l l' [Hn _] _ IH]; cbn [map]; [reflexivity|].
  rewrite Hn, IH. reflexivity.
Qed.

Lemma put_put (i : nat) (a b : Agent) (store : list Agent) :
  put i a (put i b store) = put i a store.
Proof.
  revert i. induction store as [|x tl IH]; intros [|i]; simpl; try reflexivity.
  rewrite IH. reflexivity.
Qed.

Lemma margin_calls_same (self s : Agent) (market : MarketState) (x : Q) :
  BaseAgent.compute_margin_calls self market = Some (x, s) -> same_agent self s.
Proof.
  unfold BaseAgent.compute_margin_calls, same_agent, agent_type.
  destruct (ext self) as [b|h|l|i|o] eqn:E; intro H;
    try (injection H as _ <-; rewrite E; split; reflexivity).
  destruct (LDIPensionAgent.compute_margin_calls self l market) as [[y l']|];
    [|discriminate].
  injection H as _ <-. split; reflexivity.
Qed.

Lemma redemptions_same (self : Agent) (market : MarketState)
      (network : option RelationshipNetwork) (agents : list Agent) :
  same_agent self (snd (BaseAgent.compute_redemptions self market network agents)).
Proof.
  unfold BaseAgent.compute_redemptions, same_agent, agent_type.
  destruct (ext self) as [b|h|l|i|o] eqn:E; cbn [snd];
    try (rewrite E; split; reflexivity).
  destruct (OEFMMFAgent.compute_redemptions self o network agents).
  split; reflexivity.
Qed.

Lemma reactions_same (self : Agent) (market : MarketState)
      (network : option RelationshipNetwork) (agents : list Agent) :
  same_agent self (snd (BaseAgent.compute_reactions self market network agents)).
Proof.
  unfold BaseAgent.compute_reactions, same_agent, agent_type.
  destruct (ext self) as [b|h|l|i|o] eqn:E; cbn [snd];
    try (rewrite E; split; reflexivity).
  - destruct (HedgeFundAgent.compute_reactions self h market network agents).
    split; reflexivity.
  - destruct (LDIPensionAgent.compute_reactions self l market network agents).
    split; reflexivity.
Qed.

Lemma initial_buffer_same (a : Agent) :
  same_agent a (BaseAgent.compute_initial_buffer a).
Proof. split; reflexivity. Qed.

Lemma stage1_at_round (market : MarketState) (dd : dict Q)
      (net : RelationshipNetwork) (i : nat) (st st' : list Agent) (t : Agent) :
  nth_error st i = Some t ->
  Simulation.stage1_at market dd net i st = Some st' ->
  exists t', st' = put i t' st /\ same_agent t t'.
Proof.
  intros Hi H. unfold Simulation.stage1_at, Simulation.modify in H.
  rewrite Hi in H. unfold BaseAgent.compute_stage1 in H.
  rewrite nth_error_put_same in H
    by (apply nth_error_Some; rewrite Hi; discriminate).
  set (t1 := BaseAgent.compute_initial_buffer (BaseAgent.reset_daily t)) in *.
  destruct (BaseAgent.compute_margin_calls t1 market) as [[margin s1]|] eqn:Em;
    [|discriminate].
  pose proof (redemptions_same s1 market (Some net) (put i s1 (put i t1 st)))
    as Hr.
  destruct (BaseAgent.compute_redemptions s1 market (Some net)
              (put i s1 (put i t1 st))) as [red s2].
  cbn [snd] in Hr. injection H as <-. rewrite put_put.
  eexists. split; [reflexivity|].
  apply same_agent_trans with t1; [split; reflexivity|].
  apply same_agent_trans with s1; [exact (margin_calls_same _ _ Em)|].
  apply same_agent_trans with s2; [exact Hr | split; reflexivity].
Qed.

Lemma stage2_at_round (market : MarketState) (net : RelationshipNetwork)
      (i : nat) (st : list Agent) (t : Agent) :
  nth_error st i = Some t ->
  exists t', Simulation.stage2_at market net i st = put i t' st
             /\ same_agent t t'.
Proof.
  intro Hi. unfold Simulation.stage2_at, BaseAgent.compute_stage2. rewrite Hi.
  destruct (negb (BaseAgent.should_react t)).
  - eexists. split; [reflexivity | split; reflexivity].
  - pose proof (reactions_same (set_reacted t true (reactions t)) market
                  (Some net) (put i (set_reacted t true (reactions t)) st)) as Hr.
    destruct (BaseAgent.compute_reactions (set_reacted t true (reactions t))
                market (Some net) (put i (set_reacted t true (reactions t)) st))
      as [r s2].
    cbn [snd] in Hr.
    destruct (fold_left BaseAgent.count_action r _) as [[sales gilt] repo].
    eexists. split; [reflexivity|].
    apply same_agent_trans with s2; [|split; reflexivity].
    apply same_agent_trans with (set_reacted t true (reactions t));
      [split; reflexivity | exact Hr].
Qed.

Lemma absorb_one_same (market : MarketState) (g c : Q) (a : Agent) :
  same_agent a (Simulation.absorb_one market g c a).
Proof.
  unfold Simulation.absorb_one, same_agent, agent_type.
  destruct (ext a) eqn:E; try (rewrite E; split; reflexivity).
  split; reflexivity.
Qed.

Lemma feedback_day (m : MarketState) :
  day (outcome_state (Market.apply_endogenous_feedback m)) = day m.
Proof.
  unfold Market.apply_endogenous_feedback. destruct (Qeq_bool _ 0); reflexivity.
Qed.

Lemma stage3_same (np_sqrt : Q -> Q) (fb : bool) (k : nat) (store : list Agent)
      (market : MarketState) (net : RelationshipNetwork)
      (store' : list Agent) (market' : MarketState) :
  Simulation.stage3 np_sqrt fb k store market net = Some (store', market') ->
  Forall2 same_agent store store' /\ day market' = day market.
Proof.
  unfold Simulation.stage3. destruct fb.
  - revert store market. induction k as [|k IH]; intros store market H;
      cbn [Simulation.feedback_rounds] in H.
    + injection H as <- <-. split; [apply same_agents_refl | reflexivity].
    + pose proof (feedback_day market) as Hd.
      destruct (Market.apply_endogenous_feedback market) as [m1|m1];
        [|discriminate].
      cbn [outcome_state] in Hd. destruct (IH _ _ H) as [H1 H2]. split.
      * refine (same_agents_trans _ H1).
        pose proof (stage3_bumps np_sqrt store m1 net) as Hb.
        clear -Hb. induction Hb as [|a a' l l' [e ->] _ IHb]; constructor;
          [split; reflexivity | exact IHb].
      * congruence.
  - intro H. injection H as <- <-. split; [|reflexivity].
    rewrite for_each_index_modify. apply Forall2_map_same.
    intro a. split; reflexivity.
Qed.

Lemma register_all_day (store : list Agent) (m : MarketState) :
  day (Simulation.register_all store m) = day m.
Proof.
  destruct (register_all_accumulates store m) as [c ->]. reflexivity.
Qed.

Lemma day_step_shape (np_sqrt : Q -> Q) (net : RelationshipNetwork)
      (scenario : Scenario) (fb : bool) (k : nat)
      (st st' : Simulation.RunState) (d : nat) :
  Simulation.day_step np_sqrt net scenario fb k st d = Some st' ->
  Forall2 same_agent (Simulation.run_agents st) (Simulation.run_agents st')
  /\ map day (Simulation.run_daily_market st')
     = (map day (Simulation.run_daily_market st) ++ [d])%list
  /\ map snapshot_key (Simulation.run_daily_agents st')
     = (map snapshot_key (Simulation.run_daily_agents st)
        ++ map (pair d) (map name (Simulation.run_agents st)))%list.
Proof.
  unfold Simulation.day_step, Simulation.day_reactions.
  destruct (Simulation.day_inputs scenario d) as [[dv dd]|]; [|discriminate].
  set (m1 := Market.apply_exogenous_scenario
               (Simulation.set_day (Simulation.run_market st) d) dv).
  destruct (Simulation.for_each_index_opt (Simulation.stage1_at m1 dd net)
              (Simulation.run_agents st)) as [store1|] eqn:E1; [|discriminate].
  assert (H1 : Forall2 same_agent (Simulation.run_agents st) store1).
  { apply (@for_each_index_opt_rel same_agent (fun _ => True)
             (Simulation.stage1_at m1 dd net) (Simulation.run_agents st) store1);
      [|exact I | exact E1].
    intros i s t s' _ Hi Hs.
    destruct (stage1_at_round _ _ _ _ _ Hi Hs) as (t' & -> & Ht).
    exists t'. auto. }
  set (store2 := Simulation.for_each_index (Simulation.stage2_at m1 net) store1).
  assert (H2 : Forall2 same_agent store1 store2).
  { apply (@for_each_index_rel same_agent (fun _ => True)); [|exact I].
    intros i s t _ Hi. destruct (stage2_at_round m1 net _ _ Hi) as (t' & E & Ht).
    exists t'. auto. }
  set (m2 := Simulation.register_all store2 m1).
  assert (H3 : Forall2 same_agent store2 (Simulation.absorb_all store2 m2)).
  { unfold Simulation.absorb_all. rewrite for_each_index_modify.
    apply Forall2_map_same. intro a. apply absorb_one_same. }
  destruct (Simulation.stage3 np_sqrt fb k (Simulation.absorb_all store2 m2) m2 net)
    as [[store4 m3]|] eqn:E3; [|discriminate].
  destruct (stage3_same _ _ _ _ _ _ E3) as [H4 Hday].
  intro H. injection H as <-.
  cbn [Simulation.run_agents Simulation.run_daily_market
         Simulation.run_daily_agents].
  assert (H04 : Forall2 same_agent (Simulation.run_agents st) store4).
  { apply (same_agents_trans H1). apply (same_agents_trans H2).
    apply (same_agents_trans H3). exact H4. }
  split_conj.
  - apply (same_agents_trans H04).
    unfold Simulation.update_balance_sheets. rewrite for_each_index_modify.
    apply Forall2_map_same. intro a. apply update_balance_sheet_liquidity.
  - rewrite map_app. cbn [map]. rewrite Hday. unfold m2.
    rewrite register_all_day. reflexivity.
  - rewrite map_app, map_map. f_equal.
    rewrite <- (same_agents_names H04), map_map. reflexivity.
Qed.

Lemma run_days_shape (np_sqrt : Q -> Q) (net : RelationshipNetwork)
      (scenario : Scenario) (fb : bool) (k : nat) (days : list nat)
      (st st' : Simulation.RunState) :
  Simulation.run_days np_sqrt net scenario fb k days st = Some st' ->
  Forall2 same_agent (Simulation.run_agents st) (Simulation.run_agents st')
  /\ map day (Simulation.run_daily_market st')
     = (map day (Simulation.run_daily_market st) ++ days)%list
  /\ map snapshot_key (Simulation.run_daily_agents st')
     = (map snapshot_key (Simulation.run_daily_agents st)
        ++ flat_map (fun d => map (pair d) (map name (Simulation.run_agents st)))
                    days)%list.
Proof.
  unfold Simulation.run_days. revert st.
  induction days as [|d days IH]; intros st H; cbn [fold_left] in H.
  - injection H as <-. cbn [flat_map]. rewrite !app_nil_r. split_conj; auto.
    apply same_agents_refl.
  - destruct (Simulation.day_step np_sqrt net scenario fb k st d) as [s1|] eqn:E.
    + destruct (day_step_shape _ _ _ _ _ _ _ E) as (A1 & A2 & A3).
      destruct (IH s1 H) as (B1' & B2' & B3').
      split_conj.
      * apply (same_agents_trans A1 B1').
      * rewrite B2', A2, <- app_assoc. reflexivity.
      * rewrite B3', A3, <- app_assoc. cbn [flat_map].
        rewrite (same_agents_names A1). reflexivity.
    + exfalso. clear -H. induction days as [|d' days IHd]; cbn [fold_left] in H;
        [discriminate | exact (IHd H)].
Qed.

(** X22 ([run_simulation]).  A run that returns has recorded one market
    per day, numbered 0, 1, ... in order, and for each day, in the order
    of the days, one snapshot per agent in the order of the agents, under
    the agent's name; the agents it leaves behind are the agents it was
    given, in their order, with their names and classes; and the summary
    counts them all. *)
Theorem run_simulation_records
        (np_sqrt : Q -> Q) (agents : list Agent) (net : RelationshipNetwork)
        (scenario : Scenario) (enable_feedback : bool)
        (feedback_iterations : nat) (r : Results) (final : list Agent) :
  Simulation.run_simulation np_sqrt agents net scenario enable_feedback
                            feedback_iterations = Some (r, final) ->
  map day (daily_market r) = seq 0 (Simulation.n_days scenario)
  /\ map snapshot_key (daily_agents r)
     = flat_map (fun d => map (pair d) (map name agents))
                (seq 0 (Simulation.n_days scenario))
  /\ Forall2 same_agent agents final
  /\ total_agents (summary r) = List.length agents
  /\ network_summary r = Network.network_summary net.
Proof.
  unfold Simulation.run_simulation.
  destruct (Simulation.run_days np_sqrt net scenario enable_feedback
              feedback_iterations (seq 0 (Simulation.n_days scenario))
              (Simulation.initial_state agents)) as [st|] eqn:E; [|discriminate].
  intro H. injection H as <- <-.
  destruct (run_days_shape _ _ _ _ _ _ _ E) as (H1 & H2 & H3).
  assert (H0 : Forall2 same_agent agents
                 (Simulation.run_agents (Simulation.initial_state agents))).
  { unfold Simulation.initial_state. cbn [Simulation.run_agents].
    rewrite for_each_index_modify. apply Forall2_map_same.
    intro a. apply initial_buffer_same. }
  cbn [daily_market daily_agents summary network_summary].
  split_conj.
  - exact H2.
  - rewrite H3. cbn [Simulation.initial_state Simulation.run_daily_agents map app].
    rewrite (same_agents_names H0). reflexivity.
  - apply (same_agents_trans H0 H1).
  - cbn [Simulation.compute_summary total_agents].
    rewrite <- (length_map name), (same_agents_names (same_agents_trans H0 H1)).
    apply length_map.
  - reflexivity.
Qed.

(** The statement on the one-day run of the insurer of the fixtures. *)
Lemma run_simulation_records_witness :
  exists r final,
    Simulation.run_simulation Fixtures.sqrt6 Fixtures.insurers
      Fixtures.empty_network Fixtures.scenario true 3 = Some (r, final)
    /\ map snapshot_key (daily_agents r) = [(0%nat, "Insurer_01")].
Proof.
  destruct (Simulation.run_simulation Fixtures.sqrt6 Fixtures.insurers
              Fixtures.empty_network Fixtures.scenario true 3)
    as [[r final]|] eqn:E; [|vm_compute in E; discriminate].
  exists r, final. split; [reflexivity|].
  rewrite (proj1 (proj2 (@run_simulation_records Fixtures.sqrt6 Fixtures.insurers
                           Fixtures.empty_network Fixtures.scenario true 3
                           r final E))).
  reflexivity.
Defined.

(** ** The constructors *)

Ltac distinct_names :=
  cbn [map item_name balance_sheet set_balance_sheet];
  repeat (apply NoDup_cons; [cbn [In]; intuition discriminate|]);
  apply NoDup_nil.

(** X23 ([HedgeFundAgent.__init__], [LDIPensionAgent.__init__],
    [InsurerAgent.__init__], [OEFMMFAgent.__init__]).  The four
    constructors that call [BaseAgent.__init__] with its own parameters
    return for every configuration.  The agent has the name and threshold
    of the configuration and the class of its constructor; its size is the
    assets under management of a hedge fund or a pooled fund, and the sum
    of gilt, index-linked gilt, corporate bond and cash holdings of an LDI
    fund, respectively of gilt, corporate bond, equity and cash holdings
    of an insurer; its liquidity position is all zero and it has not
    reacted; and no two lines of its balance sheet have the same name, so
    that [get_item] never hides a line behind another. *)
Theorem four_constructors_return
        (h : Construct.HFConfig) (l : Construct.LDIConfig)
        (i : Construct.InsurerConfig) (o : Construct.OEFConfig) :
  (exists a, Construct.HedgeFundAgent_init h = inr a
             /\ fresh_agent a (Construct.hf_name h) "hedge_fund"
                            (Construct.hf_theta h) (Construct.hf_aum_mm h))
  /\ (exists a, Construct.LDIPensionAgent_init l = inr a
                /\ fresh_agent a (Construct.ldi_name l) "ldi_pension"
                     (Construct.ldi_theta l)
                     (Construct.ldi_gilt_holdings_mm l
                      + Construct.ldi_il_gilt_holdings_mm l
                      + Construct.ldi_corp_bond_holdings_mm l
                      + Construct.ldi_cash_and_mmf_mm l))
  /\ (exists a, Construct.InsurerAgent_init i = inr a
                /\ fresh_agent a (Construct.ins_name i) "insurer"
                     (Construct.ins_theta i)
                     (Construct.ins_gilt_holdings_mm i
                      + Construct.ins_corp_bond_holdings_mm i
                      + Construct.ins_equity_portfolio_mm i
                      + Construct.ins_cash_and_liquid_mm i))
  /\ (exists a, Construct.OEFMMFAgent_init o = inr a
                /\ fresh_agent a (Construct.oef_name o) "oef_mmf"
                     (Construct.oef_theta o) (Construct.oef_aum_mm o)).
Proof.
  split_conj; (eexists; split; [reflexivity|]); unfold fresh_agent;
    split_conj; try reflexivity; distinct_names.
Qed.

(** ** engine/feedback.py: the sign of the second-round loss *)

Lemma Qsum_nonneg (l : list Q) : Forall (fun x => 0 <= x) l -> 0 <= Qsum l.
Proof.
  induction 1 as [|x l Hx _ IH]; [discriminate|]. rewrite Qsum_cons. lra.
Qed.

Lemma reaction_size_nonneg (a : Agent) :
  amounts_nonneg (reactions a) -> 0 <= reaction_size a.
Proof.
  intro H. unfold reaction_size, dict_values. apply Qsum_nonneg.
  apply Forall_map. exact H.
Qed.

Lemma agent_map_get_In (store : list Agent) (n : string) (a : Agent) :
  agent_map_get store n = Some a -> In a store.
Proof.
  unfold agent_map_get. intro H. apply find_some in H.
  apply in_rev. exact (proj1 H).
Qed.

Lemma fold_left_nonneg (A : Type) (f : Q -> A -> Q) (l : list A) (e : Q) :
  (forall e x, In x l -> 0 <= e -> 0 <= f e x) -> 0 <= e ->
  0 <= fold_left f l e.
Proof.
  revert e. induction l as [|x l IH]; intros e Hf He; cbn [fold_left];
    [exact He|].
  apply IH; [intros e' y Hy; apply Hf; right; exact Hy|].
  apply Hf; [left; reflexivity | exact He].
Qed.

Lemma Forall_put (P : Agent -> Prop) (i : nat) (a : Agent) (store : list Agent) :
  Forall P store -> P a -> Forall P (put i a store).
Proof.
  intros Hs Ha. revert i. induction Hs as [|x tl Hx Htl IH]; intros [|i];
    cbn [put]; constructor; auto.
Qed.

Lemma get_item_wf (a : Agent) (n : string) (it : BalanceSheetItem) :
  Forall wf_item (balance_sheet a) -> get_item a n = Some it ->
  0 <= amount_mm it.
Proof.
  intros H Hit. unfold get_item in Hit. apply find_some in Hit.
  exact (proj1 (Forall_forall _ _) H _ (proj1 Hit)).
Qed.

Lemma floor_one_positive (x : Q) : 0 < Qmax x 1.
Proof. apply Qlt_le_trans with 1; [reflexivity | apply Q.le_max_r]. Qed.

Ltac nonneg_product :=
  repeat first [assumption | discriminate | apply Qabs_nonneg
               | apply Qmult_le_0_compat].

Lemma stage3_e2_nonneg (np_sqrt : Q -> Q) (target : Agent) (store : list Agent)
      (net : RelationshipNetwork) (s num : Q) :
  Forall settled store -> settled target ->
  1 <= s -> 1 <= np_sqrt s -> 0 <= num ->
  0 <= Simulation.stage3_e2 np_sqrt target store net s num.
Proof.
  intros Hstore (Hwf & Hamt & HE1) Hs Hsqrt Hnum.
  assert (Hs0 : 0 <= s) by lra.
  assert (Hsize : 0 <= reaction_size target) by (apply reaction_size_nonneg, Hamt).
  assert (Hin : forall n a, agent_map_get store n = Some a -> settled a).
  { intros n a H. apply agent_map_get_In in H.
    exact (proj1 (Forall_forall _ _) Hstore _ H). }
  unfold Simulation.stage3_e2.
  set (e1 := if String.eqb (agent_type target) "hedge_fund" then _ else _).
  assert (H1 : 0 <= e1).
  { subst e1.
    destruct (String.eqb (agent_type target) "hedge_fund");
      [|destruct (String.eqb (agent_type target) "bank");
        [|destruct (String.eqb (agent_type target) "oef_mmf")]];
      try discriminate; (apply fold_left_nonneg; [|discriminate]);
      intros e n _ He.
    - unfold Simulation.hf_bilateral.
      destruct (agent_map_get store n) as [bank|] eqn:Eb; [|exact He].
      destruct (has_reacted bank); [|exact He].
      destruct (get_item target "Repo Borrowing") as [it|] eqn:Ei; [|exact He].
      destruct (Hin _ _ Eb) as (_ & Hb & _).
      pose proof (reaction_size_nonneg _ Hb) as Hrs.
      pose proof (get_item_wf _ _ Hwf Ei) as Hit.
      pose proof (Qdiv_nonneg Hrs (floor_one_positive (B0 (liquidity bank)))).
      assert (0 <= amount_mm it
                   * (reaction_size bank / Qmax (B0 (liquidity bank)) 1)
                   * s * 0.05).
      { nonneg_product. }
      lra.
    - unfold Simulation.bank_bilateral.
      destruct (agent_map_get store n) as [hf|] eqn:Eh; [|exact He].
      destruct (has_reacted hf) eqn:Er; [|exact He].
      destruct (Hin _ _ Eh) as (Hhwf & _ & HhE).
      pose proof (Qdiv_nonneg (HhE Er) (floor_one_positive (B0 (liquidity hf))))
        as Hstress.
      assert (Hrepo : 0 <= amount_or_zero (get_item hf "Repo Borrowing")).
      { destruct (get_item hf "Repo Borrowing") as [it|] eqn:Ei;
          [exact (get_item_wf _ _ Hhwf Ei) | discriminate]. }
      pose proof (Qdiv_nonneg Hrepo
                    (floor_one_positive
                       (Qlen (Network.get_connected_banks net n)))) as Hexp.
      assert (0 <= E1 (liquidity hf) / Qmax (B0 (liquidity hf)) 1
                   * (amount_or_zero (get_item hf "Repo Borrowing")
                      / Qmax (Qlen (Network.get_connected_banks net n)) 1)
                   * Config.bank_counterparty_loss_coeff * s).
      { nonneg_product. }
      lra.
    - unfold Simulation.oef_bilateral.
      destruct (agent_map_get store n) as [nbfi|] eqn:En; [|exact He].
      destruct (has_reacted nbfi); [|exact He].
      destruct (Hin _ _ En) as (_ & Hb & _).
      pose proof (reaction_size_nonneg _ Hb) as Hrs.
      assert (0 <= reaction_size nbfi * 0.1)
        by (apply Qmult_le_0_compat; [exact Hrs | discriminate]).
      lra. }
  set (e2 := fold_left _ (balance_sheet target) e1).
  assert (H2 : 0 <= e2).
  { subst e2. apply fold_left_nonneg; [|exact H1].
    intros e it Hit He. unfold Simulation.market_broadcast.
    destruct (String.eqb (category it) "liquid_asset"); [|exact He].
    apply fold_left_nonneg; [|exact He].
    intros e' vs _ He'.
    assert (Hamt' : 0 <= amount_mm it)
      by exact (proj1 (Forall_forall _ _) Hwf _ Hit).
    assert (Hshare : 0 <= num / Qlen store).
    { destruct (Qlt_le_dec 0 (Qlen store)) as [Hp|Hz];
        [apply Qdiv_nonneg; assumption|].
      assert (E0 : Qlen store == 0)
        by (apply Qle_antisym; [exact Hz | apply Qlen_nonneg]).
      rewrite E0. unfold Qdiv, Qinv. cbn. rewrite Qmult_0_r. apply Qle_refl. }
    assert (0 <= amount_mm it * Qabs (snd vs) * 0.0001 * s * 0.05
                 * (num / Qlen store)).
    { nonneg_product. }
    lra. }
  set (e3 := if has_reacted target then _ else e2).
  assert (H3 : 0 <= e3).
  { subst e3. destruct (has_reacted target); [|exact H2].
    assert (0 <= reaction_size target * (np_sqrt s - 1.0) * 0.15).
    { assert (0 <= np_sqrt s - 1.0) by lra. nonneg_product. }
    lra. }
  destruct (Qgtb _ 0 && has_reacted target) eqn:Ec; [|exact H3].
  apply andb_true_iff in Ec. destruct Ec as [Ec _]. apply Qgtb_true in Ec.
  set (ratio := _ / _).
  assert (Hratio : 0 <= ratio * ratio).
  { destruct (Qlt_le_dec ratio 0) as [Hn|Hp].
    - setoid_replace (ratio * ratio) with ((- ratio) * (- ratio)) by ring.
      apply Qmult_le_0_compat; lra.
    - apply Qmult_le_0_compat; exact Hp. }
  assert (0 <= reaction_size target * (ratio * ratio * s * 0.03)).
  { nonneg_product. }
  lra.
Qed.

(** X25 ([compute_stage3_feedback]).  With a square root that is at least
    1 on arguments from 1 on, and agents whose holdings and recorded
    amounts are not negative and whose [E1] is not negative when they have
    reacted, a round of stage 3 never lowers the [E2] of an agent and
    leaves its [B3] at or below [B2 - E2] as they were before it: the
    second round only costs. *)
Theorem stage3_never_gains
        (np_sqrt : Q -> Q) (store : list Agent) (market : MarketState)
        (net : RelationshipNetwork) :
  (forall x, 1 <= x -> 1 <= np_sqrt x) ->
  Forall settled store ->
  Forall2 (fun a a' => E2 (liquidity a) <= E2 (liquidity a')
                       /\ B3 (liquidity a') <= B2 (liquidity a) - E2 (liquidity a))
          store (Simulation.compute_stage3_feedback np_sqrt store market net).
Proof.
  intros Hsqrt Hsettled. unfold Simulation.compute_stage3_feedback.
  set (s := Qmax 1.0 (vix_level market / 15.0)).
  assert (Hs : 1 <= s)
    by (apply Qle_trans with 1.0; [discriminate | apply Q.le_max_l]).
  destruct (Qeq_bool _ 0).
  - rewrite for_each_index_modify. apply Forall2_map_same.
    intro a. cbn. split; lra.
  - apply (@for_each_index_rel
             (fun a a' => E2 (liquidity a) <= E2 (liquidity a')
                          /\ B3 (liquidity a') <= B2 (liquidity a) - E2 (liquidity a))
             (Forall settled)); [|exact Hsettled].
    intros i st t Hst Hi. rewrite Hi.
    assert (Ht : settled t)
      by exact (proj1 (Forall_forall _ _) Hst _ (nth_error_In _ _ Hi)).
    pose proof (@stage3_e2_nonneg np_sqrt t st net s (count_if has_reacted store)
                  Hst Ht Hs (Hsqrt s Hs) (Qlen_nonneg _)) as He.
    eexists. split; [reflexivity|]. split.
    + cbn. split; lra.
    + apply Forall_put; [exact Hst | exact Ht].
Qed.

Lemma sqrt6_ge_one (x : Q) : 1 <= x -> 1 <= Fixtures.sqrt6 x.
Proof.
  destruct x as [n d]. unfold Fixtures.sqrt6, Qle. cbn [Qnum Qden]. intro H.
  rewrite Z.mul_1_l, Z.mul_1_r in *. rewrite Pos2Z.inj_mul.
  set (D := Z.pos d) in *.
  assert (HD : (0 < D)%Z) by (subst D; lia).
  apply Z.le_trans with (Z.sqrt ((D * 1000000) * (D * 1000000))).
  - rewrite Z.sqrt_square by lia. lia.
  - apply Z.sqrt_le_mono. nia.
Qed.

(** The statement on the insurer of the fixtures after its stage 2, with
    the square root to six decimals. *)
Lemma stage3_never_gains_witness :
  Forall2 (fun a a' => E2 (liquidity a) <= E2 (liquidity a')
                       /\ B3 (liquidity a') <= B2 (liquidity a) - E2 (liquidity a))
          Fixtures.insurers_stage2
          (Simulation.compute_stage3_feedback Fixtures.sqrt6
             Fixtures.insurers_stage2 Fixtures.market Fixtures.empty_network).
Proof.
  apply (@stage3_never_gains Fixtures.sqrt6 Fixtures.insurers_stage2
           Fixtures.market Fixtures.empty_network sqrt6_ge_one).
  vm_compute.
  repeat first [apply Forall_cons | apply Forall_nil | split | discriminate
               | intro].
Defined.

(** ** engine/simulation.py: a run with feedback beside the run without *)

(** *** What the day reads of the market of the day before *)

Lemma exogenous_depth (m m' : MarketState) (d : nat) (dv : dict Q) :
  Market.apply_exogenous_scenario (Simulation.set_day m d) dv
  = Market.set_depth
      (Market.apply_exogenous_scenario (Simulation.set_day m' d) dv)
      (market_depth_gilt_mm m) (market_depth_corp_mm m).
Proof. reflexivity. Qed.

Lemma stage1_depth (m : MarketState) (g c : Q) (dd : dict Q)
      (net : option RelationshipNetwork) (i : nat) (st : list Agent) :
  BaseAgent.compute_stage1 i st (Market.set_depth m g c) dd net
  = BaseAgent.compute_stage1 i st m dd net.
Proof.
  unfold BaseAgent.compute_stage1.
  destruct (nth_error st i) as [self|]; [|reflexivity].
  change (BaseAgent.compute_margin_calls self (Market.set_depth m g c))
    with (BaseAgent.compute_margin_calls self m).
  destruct (BaseAgent.compute_margin_calls self m) as [[margin s1]|];
    reflexivity.
Qed.

Lemma stage2_depth (m : MarketState) (g c : Q)
      (net : option RelationshipNetwork) (i : nat) (st : list Agent) :
  BaseAgent.compute_stage2 i st (Market.set_depth m g c) net
  = BaseAgent.compute_stage2 i st m net.
Proof.
  unfold BaseAgent.compute_stage2.
  destruct (nth_error st i) as [self|]; [|reflexivity].
  destruct (negb (BaseAgent.should_react self)); [reflexivity|].
  set (self1 := set_reacted self true (reactions self)).
  change (BaseAgent.compute_reactions self1 (Market.set_depth m g c) net
            (put i self1 st))
    with (BaseAgent.compute_reactions self1 m net (put i self1 st)).
  destruct (BaseAgent.compute_reactions self1 m net (put i self1 st)) as [r s2].
  reflexivity.
Qed.

Lemma register_all_depth (st : list Agent) (m : MarketState) (g c : Q) :
  Simulation.register_all st (Market.set_depth m g c)
  = Market.set_depth (Simulation.register_all st m) g c.
Proof.
  unfold Simulation.register_all. revert m.
  induction st as [|a st IH]; intro m; cbn [fold_left]; [reflexivity|].
  rewrite <- IH. reflexivity.
Qed.

Lemma absorb_all_depth (st : list Agent) (m : MarketState) (g c : Q) :
  Simulation.absorb_all st (Market.set_depth m g c) = Simulation.absorb_all st m.
Proof. reflexivity. Qed.

(** *** What the day reads of [E2] and [B3] *)

Lemma register_all_erase (st : list Agent) (m : MarketState) :
  Simulation.register_all (map erase st) m = Simulation.register_all st m.
Proof.
  unfold Simulation.register_all. revert m.
  induction st as [|a st IH]; intro m; cbn [map fold_left]; [reflexivity|].
  rewrite IH. reflexivity.
Qed.

Lemma filter_is_bank_erase (st : list Agent) :
  filter Simulation.is_bank (map erase st)
  = map erase (filter Simulation.is_bank st).
Proof.
  induction st as [|a st IH]; cbn [map filter]; [reflexivity|].
  change (Simulation.is_bank (erase a)) with (Simulation.is_bank a).
  destruct (Simulation.is_bank a); cbn [map]; rewrite IH; reflexivity.
Qed.

Lemma remaining_total_erase (sel : Bank.t -> Q * Q) (st : list Agent) :
  Simulation.remaining_total sel (map erase st)
  = Simulation.remaining_total sel st.
Proof.
  unfold Simulation.remaining_total. rewrite filter_is_bank_erase, map_map.
  reflexivity.
Qed.

Lemma absorb_one_erase (m : MarketState) (g c : Q) (a : Agent) :
  Simulation.absorb_one m g c (erase a) = erase (Simulation.absorb_one m g c a).
Proof.
  unfold Simulation.absorb_one. change (ext (erase a)) with (ext a).
  destruct (ext a); reflexivity.
Qed.

Lemma absorb_all_erase (st : list Agent) (m : MarketState) :
  Simulation.absorb_all (map erase st) m = map erase (Simulation.absorb_all st m).
Proof.
  unfold Simulation.absorb_all. rewrite !for_each_index_modify.
  rewrite !remaining_total_erase, !map_map. apply map_ext.
  intro a. apply absorb_one_erase.
Qed.

Lemma update_for_action_erase (a : Agent) (aa : string * Q) :
  Simulation.update_for_action (erase a) aa
  = erase (Simulation.update_for_action a aa).
Proof.
  unfold Simulation.update_for_action.
  change (get_item (erase a)) with (get_item a).
  destruct (str_in "sell_gilt" (fst aa)).
  - destruct (item_or _ _); reflexivity.
  - destruct (str_in "sell_corp" (fst aa)); [|reflexivity].
    destruct (item_or _ _); reflexivity.
Qed.

Lemma update_balance_sheet_erase (a : Agent) :
  Simulation.update_balance_sheet (erase a)
  = erase (Simulation.update_balance_sheet a).
Proof.
  unfold Simulation.update_balance_sheet.
  change (reactions (erase a)) with (reactions a).
  generalize (reactions a). intro r. revert a.
  induction r as [|aa r IH]; intro a; cbn [fold_left]; [reflexivity|].
  rewrite update_for_action_erase. apply IH.
Qed.

Lemma update_balance_sheets_erase (st : list Agent) :
  Simulation.update_balance_sheets (map erase st)
  = map erase (Simulation.update_balance_sheets st).
Proof.
  unfold Simulation.update_balance_sheets. rewrite !for_each_index_modify.
  rewrite !map_map. apply map_ext. intro a. apply update_balance_sheet_erase.
Qed.

(** Loops on two lists of agents that differ in [E2] and [B3] only. *)
Lemma for_each_index_sim (f g : nat -> list Agent -> list Agent)
      (X Y : list Agent) :
  (forall i X Y, map erase X = map erase Y ->
                 map erase (f i X) = map erase (g i Y)) ->
  map erase X = map erase Y ->
  map erase (Simulation.for_each_index f X)
  = map erase (Simulation.for_each_index g Y).
Proof.
  intros Hfg H. unfold Simulation.for_each_index.
  assert (L : List.length X = List.length Y).
  { rewrite <- (length_map erase X), H. apply length_map. }
  rewrite L. generalize (seq 0 (List.length Y)). intro idx. revert X Y H L.
  induction idx as [|i idx IH]; intros X Y H L; cbn [fold_left]; [exact H|].
  apply IH; [apply Hfg, H|].
  rewrite <- (length_map erase (f i X)), (Hfg i X Y H). apply length_map.
Qed.

Lemma for_each_index_opt_sim (f g : nat -> list Agent -> option (list Agent))
      (X Y : list Agent) :
  (forall i X Y, map erase X = map erase Y ->
                 option_map (map erase) (f i X) = option_map (map erase) (g i Y)) ->
  map erase X = map erase Y ->
  option_map (map erase) (Simulation.for_each_index_opt f X)
  = option_map (map erase) (Simulation.for_each_index_opt g Y).
Proof.
  intros Hfg H. unfold Simulation.for_each_index_opt.
  assert (L : List.length X = List.length Y).
  { rewrite <- (length_map erase X), H. apply length_map. }
  rewrite L. generalize (seq 0 (List.length Y)). intro idx.
  assert (H' : option_map (map erase) (Some X) = option_map (map erase) (Some Y))
    by (cbn [option_map]; rewrite H; reflexivity).
  revert H'. generalize (Some X) (Some Y). clear X Y H L.
  induction idx as [|i idx IH]; intros ox oy H; cbn [fold_left]; [exact H|].
  apply IH. destruct ox as [X|], oy as [Y|]; try discriminate; [|reflexivity].
  apply Hfg. cbn [option_map] in H. injection H as H. exact H.
Qed.

Lemma modify_sim (f : Agent -> Agent) (i : nat) (X Y : list Agent) :
  (forall a b, erase a = erase b -> erase (f a) = erase (f b)) ->
  map erase X = map erase Y ->
  map erase (Simulation.modify f i X) = map erase (Simulation.modify f i Y).
Proof.
  intros Hf. unfold Simulation.modify. revert i Y.
  induction X as [|x X IH]; intros i [|y Y] H; try discriminate.
  - destruct i; reflexivity.
  - pose proof (f_equal (hd (erase x)) H) as Hxy.
    pose proof (f_equal (@tl Agent) H) as HXY. cbn [map hd tl] in Hxy, HXY.
    destruct i as [|i]; cbn [nth_error put map].
    + rewrite (Hf _ _ Hxy), HXY. reflexivity.
    + specialize (IH i Y HXY).
      destruct (nth_error X i), (nth_error Y i); cbn [put map];
        rewrite Hxy, IH; reflexivity.
Qed.

Lemma stage1_at_sim (m : MarketState) (g c : Q) (dd : dict Q)
      (net : RelationshipNetwork) (i : nat) (X Y : list Agent) :
  map erase X = map erase Y ->
  option_map (map erase)
             (Simulation.stage1_at (Market.set_depth m g c) dd net i X)
  = option_map (map erase) (Simulation.stage1_at m dd net i Y).
Proof.
  intro H. unfold Simulation.stage1_at.
  rewrite stage1_depth, <- !compute_stage1_erase. f_equal.
  apply modify_sim; [|exact H].
  intros a b Hab.
  change (erase (BaseAgent.compute_initial_buffer (BaseAgent.reset_daily a)))
    with (erase (BaseAgent.compute_initial_buffer
                   (BaseAgent.reset_daily (erase a)))).
  rewrite Hab. reflexivity.
Qed.

Lemma stage2_at_sim (m : MarketState) (g c : Q) (net : RelationshipNetwork)
      (i : nat) (X Y : list Agent) :
  map erase X = map erase Y ->
  map erase (Simulation.stage2_at (Market.set_depth m g c) net i X)
  = map erase (Simulation.stage2_at m net i Y).
Proof.
  intro H. unfold Simulation.stage2_at.
  rewrite stage2_depth, <- !compute_stage2_erase, H. reflexivity.
Qed.

(** The day up to stage 3, on two lists of agents that differ in [E2] and
    [B3] only, from any two markets. *)
Lemma day_reactions_sim (net : RelationshipNetwork) (scenario : Scenario)
      (d : nat) (X Y : list Agent) (m m' : MarketState)
      (X3 : list Agent) (m2 : MarketState) :
  map erase X = map erase Y ->
  Simulation.day_reactions net scenario d X m = Some (X3, m2) ->
  exists Y3 m2',
    Simulation.day_reactions net scenario d Y m' = Some (Y3, m2')
    /\ map erase X3 = map erase Y3.
Proof.
  intro H. unfold Simulation.day_reactions.
  destruct (Simulation.day_inputs scenario d) as [[dv dd]|]; [|discriminate].
  rewrite (exogenous_depth m m' d dv).
  set (m1 := Market.apply_exogenous_scenario (Simulation.set_day m' d) dv).
  set (g := market_depth_gilt_mm m). set (c := market_depth_corp_mm m).
  pose proof (@for_each_index_opt_sim
                (Simulation.stage1_at (Market.set_depth m1 g c) dd net)
                (Simulation.stage1_at m1 dd net) X Y
                (fun i X Y => @stage1_at_sim m1 g c dd net i X Y) H) as H1.
  destruct (Simulation.for_each_index_opt
              (Simulation.stage1_at (Market.set_depth m1 g c) dd net) X)
    as [X1|]; [|discriminate].
  destruct (Simulation.for_each_index_opt (Simulation.stage1_at m1 dd net) Y)
    as [Y1|]; [|discriminate].
  cbn [option_map] in H1. injection H1 as H1.
  pose proof (@for_each_index_sim
                (Simulation.stage2_at (Market.set_depth m1 g c) net)
                (Simulation.stage2_at m1 net) X1 Y1
                (fun i X Y => @stage2_at_sim m1 g c net i X Y) H1) as H2.
  set (X2 := Simulation.for_each_index _ X1) in *.
  set (Y2 := Simulation.for_each_index _ Y1) in *.
  intro E. injection E as <- _.
  eexists. eexists. split; [reflexivity|].
  rewrite register_all_depth, absorb_all_depth.
  rewrite <- (register_all_erase X2), H2, register_all_erase.
  rewrite <- !absorb_all_erase, H2. reflexivity.
Qed.

(** *** The sign of what the waterfalls record *)

Lemma dict_set_nonneg (d : dict Q) (k : string) (v : Q) :
  amounts_nonneg d -> 0 <= v -> amounts_nonneg (dict_set d k v).
Proof.
  intros Hd Hv. induction Hd as [|[k' v'] d Hx Hd IH]; cbn [dict_set].
  - constructor; [exact Hv | constructor].
  - destruct (String.eqb k' k); constructor; assumption.
Qed.

Lemma waterfall_step_nonneg (item : option BalanceSheetItem) (action : string)
      (sf hc : Q) (st : waterfall) :
  0 <= sf <= 1 -> 0 <= hc -> amounts_nonneg (fst st) -> 0 <= snd st ->
  amounts_nonneg (fst (waterfall_step item action sf hc st))
  /\ 0 <= snd (waterfall_step item action sf hc st).
Proof.
  intros [Hsf0 Hsf1] Hhc Ha Hs. unfold waterfall_step.
  destruct item as [it|]; [|split; assumption].
  destruct (Qgtb (amount_mm it) 0) eqn:E; [|split; assumption].
  apply Qgtb_true in E. cbn [fst snd].
  set (x := Qmin (snd st * sf) (amount_mm it * hc)).
  assert (Hx0 : 0 <= x).
  { apply Q.min_glb; apply Qmult_le_0_compat; try assumption.
    apply Qlt_le_weak. exact E. }
  assert (Hx1 : x <= snd st).
  { apply Qle_trans with (snd st * sf); [apply Q.le_min_l|].
    setoid_replace (snd st) with (snd st * 1) at 2 by ring.
    rewrite !(Qmult_comm (snd st)).
    apply Qmult_le_compat_r; assumption. }
  split; [apply dict_set_nonneg; assumption | lra].
Qed.

Lemma guarded_step_nonneg (item : option BalanceSheetItem) (action : string)
      (sf hc : Q) (st : waterfall) :
  0 <= sf <= 1 -> 0 <= hc -> amounts_nonneg (fst st) ->
  amounts_nonneg (fst (if_shortfall (waterfall_step item action sf hc) st)).
Proof.
  intros Hsf Hhc Ha. unfold if_shortfall.
  destruct (Qgtb (snd st) 0) eqn:E; [|exact Ha].
  apply Qgtb_true in E. apply waterfall_step_nonneg; try assumption.
  apply Qlt_le_weak. exact E.
Qed.

Lemma seek_repo_step_nonneg (self_name : string) (market : MarketState)
      (network : option RelationshipNetwork) (agents : list Agent)
      (banks_of : RelationshipNetwork -> string -> list string)
      (ask_pct : Q) (st : waterfall) :
  amounts_nonneg (fst st) ->
  amounts_nonneg (fst (seek_repo_step self_name market network agents banks_of
                                      ask_pct st)).
Proof.
  intro Ha. unfold seek_repo_step. destruct network as [net|]; [|exact Ha].
  destruct (Qgtb (snd st) 0); [|exact Ha].
  destruct (Qgtb (repo_from_banks _ _ _ _ _ _) 0) eqn:E; [|exact Ha].
  apply Qgtb_true in E. cbn [fst].
  apply dict_set_nonneg; [exact Ha | apply Qlt_le_weak; exact E].
Qed.

Lemma redeem_step_nonneg (self_name : string)
      (network : option RelationshipNetwork) (sf cap : Q) (st : waterfall) :
  0 <= sf -> 0 <= cap -> amounts_nonneg (fst st) ->
  amounts_nonneg (fst (redeem_step self_name network sf cap st)).
Proof.
  intros Hsf Hcap Ha. unfold redeem_step. destruct network as [net|]; [|exact Ha].
  destruct (Qgtb (snd st) 0) eqn:E; [|exact Ha].
  apply Qgtb_true in E.
  destruct (Network.get_redemption_targets net self_name); [exact Ha|].
  cbn [fst]. apply dict_set_nonneg; [exact Ha|].
  apply Q.min_glb; [|exact Hcap].
  apply Qmult_le_0_compat; [apply Qlt_le_weak; exact E | exact Hsf].
Qed.

Lemma shortfall_nonneg (b1 e1 k : Q) : 0 <= e1 -> 0 <= k -> 0 <= Qmax 0 (- b1) + e1 * k.
Proof.
  intros He Hk. pose proof (Q.le_max_l 0 (- b1)).
  pose proof (Qmult_le_0_compat _ _ He Hk). lra.
Qed.

Lemma bank_reactions_nonneg (self : Agent) (b : Bank.t) :
  Bank.risk_appetite b <= 1 ->
  amounts_nonneg (BankAgent.compute_reactions self b).
Proof.
  intro Hrisk. unfold BankAgent.compute_reactions.
  apply guarded_step_nonneg; [split; discriminate | discriminate |].
  apply guarded_step_nonneg; [split; discriminate | discriminate |].
  apply guarded_step_nonneg; [split; discriminate | |].
  { apply Qmult_le_0_compat; [lra | discriminate]. }
  apply waterfall_step_nonneg;
    [split; discriminate | discriminate | constructor | apply Q.le_max_l].
Qed.

Lemma repo_step_nonneg (self : Agent) (h : HedgeFund.t) (market : MarketState)
      (network : option RelationshipNetwork) (agents : list Agent)
      (st : waterfall) :
  amounts_nonneg (fst st) ->
  amounts_nonneg
    (fst (fst (HedgeFundAgent.repo_step self h market network agents st)))
  /\ HedgeFund.aum_mm (snd (HedgeFundAgent.repo_step self h market network
                              agents st))
     = HedgeFund.aum_mm h.
Proof.
  intro Ha. unfold HedgeFundAgent.repo_step.
  destruct network as [net|]; [|split; [exact Ha | reflexivity]].
  destruct (Qgtb (HedgeFund.repo_dep_mult h) 0); [|split; [exact Ha | reflexivity]].
  destruct (Qgtb (repo_from_banks _ _ _ _ _ _) 0) eqn:E.
  - apply Qgtb_true in E. split; [|reflexivity]. cbn [fst].
    apply dict_set_nonneg; [exact Ha | apply Qlt_le_weak; exact E].
  - destruct (Qgtb (snd st * _ * _) 0); split; first [exact Ha | reflexivity].
Qed.

Lemma multi_step_nonneg (item : option BalanceSheetItem) (action : string)
      (sf hc : Q) (st : waterfall) :
  0 <= sf <= 1 -> 0 <= hc -> amounts_nonneg (fst st) /\ 0 <= snd st ->
  let st' := if Qleb (snd st) 0 then st
             else waterfall_step item action sf hc st in
  amounts_nonneg (fst st') /\ 0 <= snd st'.
Proof.
  intros Hsf Hhc [Ha Hs]. cbv zeta.
  destruct (Qleb (snd st) 0); [split; assumption|].
  apply waterfall_step_nonneg; assumption.
Qed.

Lemma sales_step_nonneg (self : Agent) (h : HedgeFund.t) (st : waterfall) :
  amounts_nonneg (fst st) -> 0 <= snd st ->
  amounts_nonneg (fst (HedgeFundAgent.sales_step self h st)).
Proof.
  intros Ha Hs. unfold HedgeFundAgent.sales_step.
  destruct (String.eqb (HedgeFund.strategy h) "relative_value").
  { apply guarded_step_nonneg; [split; discriminate | discriminate |].
    apply waterfall_step_nonneg;
      [split; discriminate | discriminate | exact Ha | exact Hs]. }
  destruct (String.eqb (HedgeFund.strategy h) "macro_rates").
  { apply waterfall_step_nonneg;
      [split; discriminate | discriminate | exact Ha | exact Hs]. }
  destruct (String.eqb (HedgeFund.strategy h) "credit_long_short").
  { apply waterfall_step_nonneg;
      [split; discriminate | discriminate | exact Ha | exact Hs]. }
  destruct (String.eqb (HedgeFund.strategy h) "long_short_equity").
  { apply waterfall_step_nonneg;
      [split; discriminate | discriminate | exact Ha | exact Hs]. }
  cbn [fold_left fst snd].
  refine (proj1 (@multi_step_nonneg _ _ _ _ _ _ _ _));
    [split; discriminate | discriminate |].
  apply multi_step_nonneg; [split; discriminate | discriminate |].
  apply multi_step_nonneg; [split; discriminate | discriminate |].
  split; assumption.
Qed.

Lemma redeem_mmf_step_nonneg (self : Agent) (h : HedgeFund.t)
      (network : option RelationshipNetwork) (st : waterfall) :
  0 <= HedgeFund.aum_mm h -> amounts_nonneg (fst st) ->
  amounts_nonneg (fst (HedgeFundAgent.redeem_mmf_step self h network st)).
Proof.
  intros Haum Ha. unfold HedgeFundAgent.redeem_mmf_step.
  destruct network as [net|]; [|exact Ha].
  destruct (Qgtb (snd st) 0) eqn:E; [|exact Ha].
  apply Qgtb_true in E.
  destruct (Network.get_redemption_targets net (name self)) as [|t ts];
    [exact Ha|].
  cbn [fst]. apply dict_set_nonneg; [exact Ha|].
  apply Qmult_le_0_compat; [|apply Qlen_nonneg].
  apply Qdiv_nonneg; [|apply floor_one_positive].
  apply Q.min_glb; apply Qmult_le_0_compat;
    first [assumption | discriminate | apply Qlt_le_weak; exact E].
Qed.

Lemma hf_reactions_nonneg (self : Agent) (h : HedgeFund.t)
      (market : MarketState) (network : option RelationshipNetwork)
      (agents : list Agent) :
  0 <= HedgeFund.aum_mm h -> 0 <= E1 (liquidity self) ->
  amounts_nonneg
    (fst (HedgeFundAgent.compute_reactions self h market network agents))
  /\ HedgeFund.aum_mm
       (snd (HedgeFundAgent.compute_reactions self h market network agents))
     = HedgeFund.aum_mm h.
Proof.
  intros Haum HE. unfold HedgeFundAgent.compute_reactions.
  set (st0 := (([], Qmax 0 (- B1 (liquidity self)) + E1 (liquidity self) * 0.2)
               : waterfall)).
  assert (H0 : amounts_nonneg (fst st0)) by constructor.
  destruct (repo_step_nonneg self h market network agents st0 H0) as [H1 H2].
  destruct (HedgeFundAgent.repo_step self h market network agents st0)
    as [st1 h1].
  cbn [fst snd] in *. split; [|exact H2].
  apply redeem_mmf_step_nonneg; [exact Haum|].
  unfold if_shortfall. destruct (Qgtb (snd st1) 0) eqn:E; [|exact H1].
  apply Qgtb_true in E.
  apply sales_step_nonneg; [exact H1 | apply Qlt_le_weak; exact E].
Qed.

Lemma recap_step_nonneg (l : LDI.t) (st : waterfall) :
  amounts_nonneg (fst st) -> 0 <= snd st ->
  amounts_nonneg (fst (fst (LDIPensionAgent.recap_step l st)))
  /\ 0 <= snd (fst (LDIPensionAgent.recap_step l st))
  /\ LDI.aum_mm (snd (LDIPensionAgent.recap_step l st)) = LDI.aum_mm l.
Proof.
  intros Ha Hs. unfold LDIPensionAgent.recap_step.
  destruct (Qgtb (snd st) 0 && Qgtb (LDI.recap_available_mm l) (LDI.recap_used_mm l))
    eqn:E; [|split_conj; first [assumption | reflexivity]].
  apply andb_true_iff in E. destruct E as [Es Ea'].
  apply Qgtb_true in Es. apply Qgtb_true in Ea'.
  set (d := inject_Z (Z.max (LDI.recap_speed_days l) 1)).
  assert (Hd : 0 < d).
  { apply Qlt_le_trans with 1; [reflexivity|].
    subst d. change 1 with (inject_Z 1). rewrite <- Zle_Qle. lia. }
  assert (Hgap : 0 <= LDI.recap_available_mm l - LDI.recap_used_mm l) by lra.
  pose proof (Qdiv_nonneg Hgap Hd) as Hdaily.
  cbn [fst snd].
  set (u := Qmin (snd st * 0.3)
                 ((LDI.recap_available_mm l - LDI.recap_used_mm l) / d)).
  assert (Hu0 : 0 <= u).
  { apply Q.min_glb; [|exact Hdaily].
    apply Qmult_le_0_compat; [exact Hs | discriminate]. }
  assert (Hu1 : u <= snd st * 0.3) by apply Q.le_min_l.
  split_conj; [apply dict_set_nonneg; assumption | lra | reflexivity].
Qed.

Lemma ldi_reactions_nonneg (self : Agent) (l : LDI.t)
      (market : MarketState) (network : option RelationshipNetwork)
      (agents : list Agent) :
  0 <= LDI.aum_mm l -> 0 <= E1 (liquidity self) ->
  amounts_nonneg
    (fst (LDIPensionAgent.compute_reactions self l market network agents))
  /\ LDI.aum_mm
       (snd (LDIPensionAgent.compute_reactions self l market network agents))
     = LDI.aum_mm l.
Proof.
  intros Haum HE. unfold LDIPensionAgent.compute_reactions.
  set (st0 := (([], Qmax 0 (- B1 (liquidity self)) + E1 (liquidity self) * 0.1)
               : waterfall)).
  set (st1 := waterfall_step _ "post_collateral" 0.4 0.5 st0).
  assert (H1 : amounts_nonneg (fst st1) /\ 0 <= snd st1).
  { apply waterfall_step_nonneg;
      [split; discriminate | discriminate | constructor|].
    apply shortfall_nonneg; [exact HE | discriminate]. }
  destruct (recap_step_nonneg l st1 (proj1 H1) (proj2 H1)) as (H2 & _ & H3).
  destruct (LDIPensionAgent.recap_step l st1) as [st2 l2].
  cbn [fst snd] in *. split; [|exact H3].
  apply redeem_step_nonneg;
    [discriminate | apply Qmult_le_0_compat; [exact Haum | discriminate] |].
  apply guarded_step_nonneg; [split; discriminate | discriminate |].
  apply guarded_step_nonneg; [split; discriminate | discriminate |].
  apply guarded_step_nonneg; [split; discriminate | discriminate |].
  apply seek_repo_step_nonneg. exact H2.
Qed.

Lemma insurer_reactions_nonneg (self : Agent) (i : Insurer.t)
      (market : MarketState) (network : option RelationshipNetwork)
      (agents : list Agent) :
  0 <= Insurer.total_mm i -> 0 <= E1 (liquidity self) ->
  amounts_nonneg (InsurerAgent.compute_reactions self i market network agents).
Proof.
  intros Htot HE. unfold InsurerAgent.compute_reactions.
  apply redeem_step_nonneg;
    [discriminate | apply Qmult_le_0_compat; [exact Htot | discriminate] |].
  apply guarded_step_nonneg; [split; discriminate | discriminate |].
  apply guarded_step_nonneg; [split; discriminate | discriminate |].
  apply guarded_step_nonneg; [split; discriminate | discriminate |].
  apply seek_repo_step_nonneg.
  refine (proj1 (@waterfall_step_nonneg _ _ _ _ _ _ _ _ _));
    [split; discriminate | discriminate | |];
    apply waterfall_step_nonneg;
      first [split; discriminate | discriminate | constructor
            | apply shortfall_nonneg; [exact HE | discriminate]].
Qed.

Lemma oef_reactions_nonneg (self : Agent) (o : OEF.t) :
  0 <= E1 (liquidity self) ->
  amounts_nonneg (OEFMMFAgent.compute_reactions self o).
Proof.
  intro HE. unfold OEFMMFAgent.compute_reactions.
  set (st3 := if_shortfall _ (if_shortfall _ _)).
  assert (H3 : amounts_nonneg (fst st3)).
  { subst st3.
    apply guarded_step_nonneg; [split; discriminate | discriminate |].
    apply guarded_step_nonneg; [split; discriminate | discriminate |].
    apply waterfall_step_nonneg;
      [split; discriminate | discriminate | constructor|].
    apply shortfall_nonneg; [exact HE | discriminate]. }
  destruct (Qgtb (snd st3) 0 && Qgtb (OEF.aum_mm o) 0) eqn:E; [|exact H3].
  apply andb_true_iff in E. destruct E as [E _]. apply Qgtb_true in E.
  destruct (Qgtb _ 0.15); [|exact H3].
  cbn [fst]. apply dict_set_nonneg; [exact H3|].
  apply Qmult_le_0_compat; [apply Qlt_le_weak; exact E | discriminate].
Qed.

(** *** The agents of a run with feedback, stage by stage *)

Lemma wf_agent_parts (a : Agent) :
  wf_agent a
  <-> 0 <= theta a /\ Forall wf_item (balance_sheet a) /\ wf_ext (ext a).
Proof. split; intro H; exact H. Qed.

Lemma Forall2_Forall (P Q' : Agent -> Prop) (l l' : list Agent) :
  Forall2 (fun a b => P a -> Q' b) l l' -> Forall P l -> Forall Q' l'.
Proof.
  induction 1 as [|a b l l' Hab _ IH]; intro H; [constructor|].
  inversion H; subst. constructor; auto.
Qed.

Lemma margin_calls_wf (self s : Agent) (market : MarketState) (x : Q) :
  BaseAgent.compute_margin_calls self market = Some (x, s) ->
  (wf_agent self -> wf_agent s) /\ liquidity s = liquidity self.
Proof.
  unfold BaseAgent.compute_margin_calls.
  destruct (ext self) as [b|h|l|i|o] eqn:E; intro H;
    try (injection H as _ <-; split; [exact (fun w => w) | reflexivity]).
  unfold LDIPensionAgent.compute_margin_calls in H.
  destruct (get_item self "Derivatives Exposure") as [deriv|].
  - destruct (Qeq_bool (LDI.yield_buffer_bps l) 0); [discriminate|].
    injection H as _ <-. split; [|reflexivity].
    intro Hwf. apply (proj1 (wf_agent_parts _)) in Hwf. rewrite E in Hwf. exact Hwf.
  - injection H as _ <-. split; [|reflexivity].
    intro Hwf. apply (proj1 (wf_agent_parts _)) in Hwf. rewrite E in Hwf. exact Hwf.
Qed.

Lemma redemptions_wf (self : Agent) (market : MarketState)
      (network : option RelationshipNetwork) (agents : list Agent) :
  let s := snd (BaseAgent.compute_redemptions self market network agents) in
  (wf_agent self -> wf_agent s) /\ liquidity s = liquidity self.
Proof.
  unfold BaseAgent.compute_redemptions.
  destruct (ext self) as [b|h|l|i|o] eqn:E; cbn [snd];
    try (split; [exact (fun w => w) | reflexivity]).
  destruct (OEFMMFAgent.compute_redemptions self o network agents) as [x o'].
  cbn [snd]. split; [|reflexivity].
  intro Hwf. apply (proj1 (wf_agent_parts _)) in Hwf. rewrite E in Hwf.
  destruct Hwf as (H1 & H2 & _). apply (proj2 (wf_agent_parts _)).
  split_conj; [exact H1 | exact H2 | exact I].
Qed.

Lemma stage1_at_ready (market : MarketState) (dd : dict Q)
      (net : RelationshipNetwork) (i : nat) (st st' : list Agent) (t : Agent) :
  nth_error st i = Some t ->
  Simulation.stage1_at market dd net i st = Some st' ->
  exists t', st' = put i t' st
             /\ (wf_agent t -> wf_agent t' /\ E2 (liquidity t') = 0.0).
Proof.
  intros Hi H. unfold Simulation.stage1_at, Simulation.modify in H.
  rewrite Hi in H. unfold BaseAgent.compute_stage1 in H.
  rewrite nth_error_put_same in H
    by (apply nth_error_Some; rewrite Hi; discriminate).
  set (t1 := BaseAgent.compute_initial_buffer (BaseAgent.reset_daily t)) in *.
  destruct (BaseAgent.compute_margin_calls t1 market) as [[margin s1]|] eqn:Em;
    [|discriminate].
  destruct (margin_calls_wf _ _ Em) as [Hw1 Hl1].
  pose proof (redemptions_wf s1 market (Some net) (put i s1 (put i t1 st)))
    as Hr.
  destruct (BaseAgent.compute_redemptions s1 market (Some net)
              (put i s1 (put i t1 st))) as [red s2].
  cbn [snd] in Hr. destruct Hr as [Hw2 Hl2].
  injection H as <-. rewrite put_put.
  eexists. split; [reflexivity|].
  intro Hwf. split.
  - assert (W1 : wf_agent t1) by exact Hwf.
    exact (Hw2 (Hw1 W1)).
  - cbn [liquidity set_cumulative set_liquidity E2].
    rewrite Hl2, Hl1. reflexivity.
Qed.

Lemma should_react_loss (a : Agent) :
  0 <= theta a -> BaseAgent.should_react a = true -> 0 <= E1 (liquidity a).
Proof.
  intros Ht. unfold BaseAgent.should_react.
  destruct (Qleb (B0 (liquidity a)) 0) eqn:E0; [discriminate|].
  apply Qleb_false in E0. intro H. apply Qgtb_true in H.
  destruct (Qlt_le_dec (E1 (liquidity a)) 0) as [Hn|Hp]; [|exact Hp].
  exfalso.
  assert (E1 (liquidity a) / B0 (liquidity a) <= 0).
  { apply Qle_shift_div_r; [exact E0|]. rewrite Qmult_0_l.
    apply Qlt_le_weak. exact Hn. }
  lra.
Qed.

Lemma reactions_nonneg (self : Agent) (market : MarketState)
      (network : option RelationshipNetwork) (agents : list Agent) :
  wf_agent self -> 0 <= E1 (liquidity self) ->
  let ra := BaseAgent.compute_reactions self market network agents in
  amounts_nonneg (fst ra) /\ wf_agent (snd ra)
  /\ liquidity (snd ra) = liquidity self.
Proof.
  intros Hwf HE. pose proof (proj1 (wf_agent_parts self) Hwf) as (Ht & Hbs & Hx).
  unfold BaseAgent.compute_reactions.
  destruct (ext self) as [b|h|l|i|o] eqn:E; cbn [wf_ext] in Hx.
  - cbn [fst snd]. split_conj; [|exact Hwf | reflexivity].
    apply bank_reactions_nonneg, Hx.
  - destruct (hf_reactions_nonneg self h market network agents Hx HE)
      as [H1 H2].
    destruct (HedgeFundAgent.compute_reactions self h market network agents)
      as [r h'].
    cbn [fst snd] in *. split_conj; [exact H1 | | reflexivity].
    apply (proj2 (wf_agent_parts _)). cbn. rewrite H2. auto.
  - destruct (ldi_reactions_nonneg self l market network agents Hx HE)
      as [H1 H2].
    destruct (LDIPensionAgent.compute_reactions self l market network agents)
      as [r l'].
    cbn [fst snd] in *. split_conj; [exact H1 | | reflexivity].
    apply (proj2 (wf_agent_parts _)). cbn. rewrite H2. auto.
  - cbn [fst snd]. split_conj; [|exact Hwf | reflexivity].
    apply insurer_reactions_nonneg; assumption.
  - cbn [fst snd]. split_conj; [|exact Hwf | reflexivity].
    apply oef_reactions_nonneg; assumption.
Qed.

Lemma stage2_at_ready (market : MarketState) (net : RelationshipNetwork)
      (i : nat) (st : list Agent) (t : Agent) :
  nth_error st i = Some t ->
  exists t', Simulation.stage2_at market net i st = put i t' st
             /\ (wf_agent t /\ E2 (liquidity t) = 0.0 -> ready t').
Proof.
  intro Hi. unfold Simulation.stage2_at, BaseAgent.compute_stage2. rewrite Hi.
  destruct (BaseAgent.should_react t) eqn:Er; cbn [negb].
  - set (t1 := set_reacted t true (reactions t)).
    pose proof (fun w e => @reactions_nonneg t1 market (Some net) (put i t1 st) w e)
      as Hr.
    destruct (BaseAgent.compute_reactions t1 market (Some net) (put i t1 st))
      as [r s2].
    cbn [fst snd] in Hr.
    destruct (fold_left BaseAgent.count_action r _) as [[sales gilt] repo].
    eexists. split; [reflexivity|].
    intros [Hwf HE2].
    assert (HE1 : 0 <= E1 (liquidity t))
      by exact (should_react_loss t (proj1 Hwf) Er).
    destruct (Hr Hwf HE1) as (Hamt & Hwf2 & Hl).
    unfold ready, settled.
    cbn [liquidity set_cumulative set_liquidity set_reacted set_B2 E2 E1
         balance_sheet reactions has_reacted].
    rewrite Hl. cbn [liquidity t1 set_reacted].
    split_conj; [exact Hwf2 | exact (proj1 (proj2 Hwf2)) | exact Hamt
                | intros _; exact HE1 | exact HE2].
  - eexists. split; [reflexivity|].
    intros [Hwf HE2]. unfold ready, settled.
    split_conj; [exact Hwf | exact (proj1 (proj2 Hwf)) | constructor
                | discriminate | exact HE2].
Qed.

Lemma post_registration_risk (reacted : bool) (b : Bank.t) (g c : Q) :
  Bank.risk_appetite (BankAgent.post_registration_update reacted b g c)
  = Bank.risk_appetite b.
Proof.
  unfold BankAgent.post_registration_update,
    BankAgent.absorb_corp_selling_pressure, BankAgent.absorb_selling_pressure,
    BankAgent.tighten_repo_for_counterparties.
  destruct (Qgtb (Bank.gilt_mm_appetite_mm b) 0);
    destruct (Qgtb (Bank.corp_mm_appetite_mm _) 0);
    destruct reacted; reflexivity.
Qed.

Lemma absorb_one_ready (market : MarketState) (g c : Q) (a : Agent) :
  ready a -> ready (Simulation.absorb_one market g c a).
Proof.
  intros (Hwf & Hs & HE). unfold ready, Simulation.absorb_one.
  destruct (ext a) as [b| | | |] eqn:E; try (split_conj; assumption).
  split_conj; [|exact Hs | exact HE].
  apply (proj1 (wf_agent_parts _)) in Hwf. rewrite E in Hwf.
  destruct Hwf as (H1 & H2 & H3). apply (proj2 (wf_agent_parts _)).
  split_conj; [exact H1 | exact H2|].
  cbn [ext set_ext wf_ext]. rewrite post_registration_risk. exact H3.
Qed.

Lemma day_reactions_ready (net : RelationshipNetwork) (scenario : Scenario)
      (d : nat) (X : list Agent) (m : MarketState)
      (X3 : list Agent) (m2 : MarketState) :
  Forall wf_agent X ->
  Simulation.day_reactions net scenario d X m = Some (X3, m2) ->
  Forall ready X3.
Proof.
  intro Hwf. unfold Simulation.day_reactions.
  destruct (Simulation.day_inputs scenario d) as [[dv dd]|]; [|discriminate].
  set (m1 := Market.apply_exogenous_scenario (Simulation.set_day m d) dv).
  destruct (Simulation.for_each_index_opt (Simulation.stage1_at m1 dd net) X)
    as [X1|] eqn:E1; [|discriminate].
  assert (H1 : Forall (fun a => wf_agent a /\ E2 (liquidity a) = 0.0) X1).
  { refine (@Forall2_Forall _ _ _ _ _ Hwf).
    apply (@for_each_index_opt_rel
             (fun t t' => wf_agent t -> wf_agent t' /\ E2 (liquidity t') = 0.0)
             (fun _ => True) (Simulation.stage1_at m1 dd net) X X1);
      [|exact I | exact E1].
    intros i s t s' _ Hi Hs.
    destruct (stage1_at_ready _ _ _ _ _ Hi Hs) as (t' & -> & Ht).
    exists t'. auto. }
  set (X2 := Simulation.for_each_index (Simulation.stage2_at m1 net) X1).
  assert (H2 : Forall ready X2).
  { refine (@Forall2_Forall _ _ _ _ _ H1).
    apply (@for_each_index_rel
             (fun t t' => wf_agent t /\ E2 (liquidity t) = 0.0 -> ready t')
             (fun _ => True)); [|exact I].
    intros i s t _ Hi. destruct (stage2_at_ready m1 net _ _ Hi) as (t' & E & Ht).
    exists t'. auto. }
  intro H. injection H as <- _.
  unfold Simulation.absorb_all. rewrite for_each_index_modify.
  apply Forall_map. refine (Forall_impl _ _ H2).
  intros a Ha. apply absorb_one_ready, Ha.
Qed.

(** *** Stage 3, with feedback and without *)

Lemma stage3_round_bumps (np_sqrt : Q -> Q) (store : list Agent)
      (market : MarketState) (net : RelationshipNetwork) :
  (forall x, 1 <= x -> 1 <= np_sqrt x) ->
  Forall settled store ->
  Forall2 bumped store
          (Simulation.compute_stage3_feedback np_sqrt store market net).
Proof.
  intros Hsqrt Hsettled. unfold Simulation.compute_stage3_feedback.
  set (s := Qmax 1.0 (vix_level market / 15.0)).
  assert (Hs : 1 <= s)
    by (apply Qle_trans with 1.0; [discriminate | apply Q.le_max_l]).
  destruct (Qeq_bool _ 0).
  - rewrite for_each_index_modify. apply Forall2_map_same.
    intro a. exists 0.0. split; [discriminate | reflexivity].
  - apply (@for_each_index_rel bumped (Forall settled)); [|exact Hsettled].
    intros i st t Hst Hi. rewrite Hi.
    assert (Ht : settled t)
      by exact (proj1 (Forall_forall _ _) Hst _ (nth_error_In _ _ Hi)).
    pose proof (@stage3_e2_nonneg np_sqrt t st net s (count_if has_reacted store)
                  Hst Ht Hs (Hsqrt s Hs) (Qlen_nonneg _)) as He.
    eexists. split; [reflexivity|]. split.
    + eexists. split; [exact He | reflexivity].
    + apply Forall_put; [exact Hst | exact Ht].
Qed.

Lemma bumped_after_feedback (a a' : Agent) :
  in_feedback a -> bumped a a' -> after_feedback a' /\ erase a' = erase a.
Proof.
  intros (Hwf & Hs & HE) (e & He & ->). unfold after_feedback, in_feedback.
  split_conj; [exact Hwf | exact Hs | cbn; lra | cbn; lra | reflexivity].
Qed.

Lemma stage3_round_after (np_sqrt : Q -> Q) (store : list Agent)
      (market : MarketState) (net : RelationshipNetwork) :
  (forall x, 1 <= x -> 1 <= np_sqrt x) ->
  Forall in_feedback store ->
  Forall after_feedback
         (Simulation.compute_stage3_feedback np_sqrt store market net)
  /\ map erase (Simulation.compute_stage3_feedback np_sqrt store market net)
     = map erase store.
Proof.
  intros Hsqrt H.
  assert (Hsettled : Forall settled store)
    by (refine (Forall_impl _ _ H); intros a Ha; exact (proj1 (proj2 Ha))).
  pose proof (@stage3_round_bumps np_sqrt store market net Hsqrt Hsettled) as Hb.
  revert H. clear Hsettled.
  induction Hb as [|a a' l l' Hab _ IH]; intro H;
    [split; [constructor | reflexivity]|].
  inversion H as [|? ? Ha Hl]; subst.
  destruct (bumped_after_feedback Ha Hab) as [H1 H2].
  destruct (IH Hl) as [H3 H4].
  split; [constructor; assumption | cbn [map]; rewrite H2, H4; reflexivity].
Qed.

Lemma feedback_rounds_after (np_sqrt : Q -> Q) (n : nat) (store : list Agent)
      (market : MarketState) (net : RelationshipNetwork)
      (store' : list Agent) (market' : MarketState) :
  (forall x, 1 <= x -> 1 <= np_sqrt x) ->
  Forall after_feedback store ->
  Simulation.feedback_rounds np_sqrt n store market net = Some (store', market') ->
  Forall after_feedback store' /\ map erase store' = map erase store.
Proof.
  intro Hsqrt. revert store market.
  induction n as [|n IH]; intros store market H E;
    cbn [Simulation.feedback_rounds] in E.
  - injection E as <- <-. split; [exact H | reflexivity].
  - destruct (Market.apply_endogenous_feedback market) as [m1|m1];
      [|discriminate].
    assert (Hin : Forall in_feedback store)
      by (refine (Forall_impl _ _ H); intros a Ha; exact (proj1 Ha)).
    destruct (@stage3_round_after np_sqrt store m1 net Hsqrt Hin) as [H1 H2].
    destruct (IH _ _ H1 E) as [H3 H4].
    split; [exact H3 | rewrite H4; exact H2].
Qed.

Lemma feedback_rounds_first (np_sqrt : Q -> Q) (k : nat) (store : list Agent)
      (market : MarketState) (net : RelationshipNetwork)
      (store' : list Agent) (market' : MarketState) :
  (forall x, 1 <= x -> 1 <= np_sqrt x) ->
  Forall ready store ->
  Simulation.feedback_rounds np_sqrt (S k) store market net
  = Some (store', market') ->
  Forall after_feedback store' /\ map erase store' = map erase store.
Proof.
  intros Hsqrt H E. cbn [Simulation.feedback_rounds] in E.
  destruct (Market.apply_endogenous_feedback market) as [m1|m1];
    [|discriminate].
  assert (Hin : Forall in_feedback store).
  { refine (Forall_impl _ _ H). intros a (Hwf & Hs & HE). unfold in_feedback.
    split_conj; [exact Hwf | exact Hs | rewrite HE; discriminate]. }
  destruct (@stage3_round_after np_sqrt store m1 net Hsqrt Hin) as [H1 H2].
  destruct (@feedback_rounds_after np_sqrt _ _ _ net _ _ Hsqrt H1 E) as [H3 H4].
  split; [exact H3 | rewrite H4; exact H2].
Qed.

(** *** The end of the day *)

Lemma update_balance_sheet_wf (a : Agent) :
  wf_agent a -> amounts_nonneg (reactions a) ->
  wf_agent (Simulation.update_balance_sheet a).
Proof.
  intros Hwf Hamt. apply (proj1 (wf_agent_parts _)) in Hwf.
  destruct Hwf as (H1 & H2 & H3).
  destruct (@update_actions_after_sales (reactions a) a Hamt H2) as [Hs Heq].
  unfold Simulation.update_balance_sheet.
  set (a' := fold_left Simulation.update_for_action (reactions a) a) in *.
  assert (T : theta a = theta a') by (rewrite <- Heq at 1; reflexivity).
  assert (X : ext a = ext a') by (rewrite <- Heq at 1; reflexivity).
  apply (proj2 (wf_agent_parts _)). rewrite <- T, <- X.
  split_conj; [exact H1 | exact (sold_from_wf Hs) | exact H3].
Qed.

Lemma behind_refl (l : list Agent) : Forall2 behind l l.
Proof.
  induction l; constructor; [split; [reflexivity | apply Qle_refl] | assumption].
Qed.

Lemma behind_erase (X Y : list Agent) :
  Forall2 behind X Y -> map erase X = map erase Y.
Proof.
  induction 1 as [|a b l l' [Hab _] _ IH]; cbn [map]; [reflexivity|].
  rewrite Hab, IH. reflexivity.
Qed.

Lemma behind_intro (X Y : list Agent) :
  map erase X = map erase Y ->
  Forall (fun a => B3 (liquidity a) <= B2 (liquidity a)) X ->
  Forall (fun b => B3 (liquidity b) = B2 (liquidity b)) Y ->
  Forall2 behind X Y.
Proof.
  revert Y. induction X as [|a X IH]; intros [|b Y] H HX HY; try discriminate;
    [constructor|].
  pose proof (f_equal (hd (erase a)) H) as Hab.
  pose proof (f_equal (@tl Agent) H) as Htl. cbn [map hd tl] in Hab, Htl.
  inversion HX as [|? ? Ha HX']; subst. inversion HY as [|? ? Hb HY']; subst.
  constructor; [|apply IH; assumption].
  split; [exact Hab|]. rewrite Hb.
  replace (B2 (liquidity b)) with (B2 (liquidity (erase b))) by reflexivity.
  rewrite <- Hab. exact Ha.
Qed.

(** One day of the run with feedback beside the day of the run without. *)
Lemma day_step_sim (np_sqrt : Q -> Q) (net : RelationshipNetwork)
      (scenario : Scenario) (k : nat) (on off on' : Simulation.RunState)
      (d : nat) :
  (forall x, 1 <= x -> 1 <= np_sqrt x) ->
  Forall wf_agent (Simulation.run_agents on) ->
  map erase (Simulation.run_agents on) = map erase (Simulation.run_agents off) ->
  Simulation.day_step np_sqrt net scenario true (S k) on d = Some on' ->
  exists off',
    Simulation.day_step np_sqrt net scenario false (S k) off d = Some off'
    /\ Forall wf_agent (Simulation.run_agents on')
    /\ Forall2 behind (Simulation.run_agents on') (Simulation.run_agents off').
Proof.
  intros Hsqrt Hwf Hsim. unfold Simulation.day_step.
  destruct (Simulation.day_reactions net scenario d (Simulation.run_agents on)
              (Simulation.run_market on)) as [[X3 m2]|] eqn:Ed; [|discriminate].
  destruct (@day_reactions_sim net scenario d _ _ _ (Simulation.run_market off)
              _ _ Hsim Ed) as (Y3 & m2' & Ed' & H3).
  pose proof (@day_reactions_ready net scenario d _ _ _ _ Hwf Ed) as Hready.
  rewrite Ed'. unfold Simulation.stage3.
  destruct (Simulation.feedback_rounds np_sqrt (S k) X3 m2 net)
    as [[X4 m3]|] eqn:E3; [|discriminate].
  destruct (@feedback_rounds_first np_sqrt k X3 m2 net X4 m3 Hsqrt Hready E3)
    as [H4 H5].
  intro H. injection H as <-.
  eexists. split; [reflexivity|].
  cbn [Simulation.run_agents]. split.
  - unfold Simulation.update_balance_sheets. rewrite for_each_index_modify.
    apply Forall_map. refine (Forall_impl _ _ H4).
    intros a ((Ha & Hs & _) & _).
    apply update_balance_sheet_wf; [exact Ha | exact (proj1 (proj2 Hs))].
  - apply behind_intro.
    + rewrite <- !update_balance_sheets_erase, H5, H3. f_equal.
      rewrite for_each_index_modify, map_map. apply map_ext. reflexivity.
    + unfold Simulation.update_balance_sheets. rewrite for_each_index_modify.
      apply Forall_map. refine (Forall_impl _ _ H4).
      intros a (_ & Ha).
      rewrite (proj1 (update_balance_sheet_liquidity a)). exact Ha.
    + unfold Simulation.update_balance_sheets. rewrite !for_each_index_modify.
      apply Forall_map, Forall_map, Forall_forall. intros b _.
      rewrite (proj1 (update_balance_sheet_liquidity _)). reflexivity.
Qed.

Lemma run_days_raised (np_sqrt : Q -> Q) (net : RelationshipNetwork)
      (scenario : Scenario) (fb : bool) (k : nat) (days : list nat) :
  fold_left
    (fun s d =>
       match s with
       | Some s' => Simulation.day_step np_sqrt net scenario fb k s' d
       | None => None
       end) days None = None.
Proof. induction days as [|d days IH]; cbn [fold_left]; [reflexivity | exact IH]. Qed.

Lemma run_days_sim (np_sqrt : Q -> Q) (net : RelationshipNetwork)
      (scenario : Scenario) (k : nat) (days : list nat)
      (on off on' : Simulation.RunState) :
  (forall x, 1 <= x -> 1 <= np_sqrt x) ->
  Forall wf_agent (Simulation.run_agents on) ->
  Forall2 behind (Simulation.run_agents on) (Simulation.run_agents off) ->
  Simulation.run_days np_sqrt net scenario true (S k) days on = Some on' ->
  exists off',
    Simulation.run_days np_sqrt net scenario false (S k) days off = Some off'
    /\ Forall2 behind (Simulation.run_agents on') (Simulation.run_agents off').
Proof.
  intro Hsqrt. unfold Simulation.run_days. revert on off.
  induction days as [|d days IH]; intros on off Hwf Hb H; cbn [fold_left] in *.
  - injection H as <-. exists off. split; [reflexivity | exact Hb].
  - destruct (Simulation.day_step np_sqrt net scenario true (S k) on d)
      as [on1|] eqn:E; [|rewrite run_days_raised in H; discriminate].
    destruct (@day_step_sim np_sqrt net scenario k on off on1 d Hsqrt Hwf
                (behind_erase Hb) E)
      as (off1 & E' & Hwf1 & Hb1).
    rewrite E'. exact (IH on1 off1 Hwf1 Hb1 H).
Qed.

(** *** The two ratios *)

Lemma Qsum_Forall2 (f g : Agent -> Q) (X Y : list Agent) :
  Forall2 (fun a b => g b <= f a) X Y ->
  Qsum (map g Y) <= Qsum (map f X).
Proof.
  induction 1 as [|a b l l' Hab _ IH]; cbn [map]; [apply Qle_refl|].
  rewrite !Qsum_cons. lra.
Qed.

Lemma system_wide_ratio_behind (X Y : list Agent) (ib : dict Q) :
  Forall2 behind X Y ->
  Simulation.system_wide_ratio Y ib <= Simulation.system_wide_ratio X ib.
Proof.
  intro Hb. unfold Simulation.system_wide_ratio.
  set (fd := fun a => Qmax (Simulation.direct_loss ib a) 0.001).
  set (ft := fun a => Qmax (Simulation.total_loss ib a) 0.001).
  assert (Ed : map fd X = map fd Y).
  { transitivity (map fd (map erase X));
      [rewrite map_map; apply map_ext; reflexivity|].
    rewrite (behind_erase Hb), map_map. apply map_ext. reflexivity. }
  rewrite Ed. destruct (Qgtb (Qsum (map fd Y)) 0) eqn:E; [|apply Qle_refl].
  apply Qgtb_true in E. unfold Qdiv. apply Qmult_le_compat_r.
  - apply Qsum_Forall2. refine (Forall2_impl _ _ Hb).
    intros a b [Hab H3]. subst ft. cbv beta. apply floored_monotone.
    unfold Simulation.total_loss.
    replace (name b) with (name (erase b)) by reflexivity.
    rewrite <- Hab. cbn [name erase set_liquidity]. lra.
  - apply Qlt_le_weak, Qinv_lt_0_compat. exact E.
Qed.

Lemma reported_system_wide_run (np_sqrt : Q -> Q) (agents : list Agent)
      (net : RelationshipNetwork) (scenario : Scenario) (fb : bool) (k : nat)
      (r : Results) (final : list Agent) :
  Simulation.run_simulation np_sqrt agents net scenario fb k = Some (r, final) ->
  reported_system_wide r
  = Simulation.system_wide_ratio
      final
      (Simulation.initial_buffers_of
         (Simulation.run_agents (Simulation.initial_state agents))).
Proof.
  unfold Simulation.run_simulation.
  destruct (Simulation.run_days _ _ _ _ _ _ _) as [st|]; [|discriminate].
  intro H. injection H as <- <-.
  unfold reported_system_wide, Simulation.compute_amplification,
    dict_get_default.
  cbn [amplification_ratios]. rewrite dict_get_set. reflexivity.
Qed.

(** X28 ([run_simulation], [compute_stage3_feedback],
    [_compute_amplification]).  With a square root that is at least 1 on
    arguments from 1 on, agents whose thresholds, holdings and sizes are
    not negative and banks with a risk appetite of at most 1, and at least
    one round of stage 3 a day: when the run with feedback returns, the
    run without feedback on the same agents, network and scenario returns
    too; the agents the two runs leave differ in [E2] and [B3] only; no
    agent ends the run with feedback with a higher [B3]; and the
    System-Wide ratio reported with feedback is not below the one reported
    without. *)
Theorem feedback_never_lowers_system_wide
        (np_sqrt : Q -> Q) (agents : list Agent) (net : RelationshipNetwork)
        (scenario : Scenario) (feedback_iterations : nat)
        (r : Results) (final : list Agent) :
  (forall x, 1 <= x -> 1 <= np_sqrt x) ->
  Forall wf_agent agents ->
  (1 <= feedback_iterations)%nat ->
  Simulation.run_simulation np_sqrt agents net scenario true
                            feedback_iterations = Some (r, final) ->
  exists r' final',
    Simulation.run_simulation np_sqrt agents net scenario false
                              feedback_iterations = Some (r', final')
    /\ Forall2 behind final final'
    /\ reported_system_wide r' <= reported_system_wide r.
Proof.
  intros Hsqrt Hwf Hk Hrun.
  destruct feedback_iterations as [|k]; [inversion Hk|].
  pose proof (@reported_system_wide_run np_sqrt agents net scenario _ _ _ _
                Hrun) as Hr.
  unfold Simulation.run_simulation in Hrun.
  destruct (Simulation.run_days np_sqrt net scenario true (S k)
              (seq 0 (Simulation.n_days scenario))
              (Simulation.initial_state agents)) as [on'|] eqn:Eon;
    [|discriminate].
  injection Hrun as Hres <-.
  assert (Hwf0 : Forall wf_agent
                   (Simulation.run_agents (Simulation.initial_state agents))).
  { cbn [Simulation.initial_state Simulation.run_agents].
    rewrite for_each_index_modify. apply Forall_map.
    refine (Forall_impl _ _ Hwf). intros a Ha. exact Ha. }
  destruct (@run_days_sim np_sqrt net scenario k _ _ _ _ Hsqrt Hwf0
              (behind_refl _) Eon)
    as (off' & Eoff & Hb).
  destruct (Simulation.run_simulation np_sqrt agents net scenario false (S k))
    as [[r' final']|] eqn:Erun;
    [|unfold Simulation.run_simulation in Erun; rewrite Eoff in Erun;
      discriminate].
  pose proof (@reported_system_wide_run np_sqrt agents net scenario _ _ _ _
                Erun) as Hr'.
  unfold Simulation.run_simulation in Erun. rewrite Eoff in Erun.
  injection Erun as _ <-.
  exists r', (Simulation.run_agents off').
  split; [reflexivity|]. split; [exact Hb|].
  rewrite Hr, Hr'. apply system_wide_ratio_behind. exact Hb.
Qed.

(** The statement on the one-day run of the insurer of the fixtures, with
    the square root to six decimals and three rounds of stage 3. *)
Lemma feedback_never_lowers_system_wide_witness :
  exists r final r' final',
    Simulation.run_simulation Fixtures.sqrt6 Fixtures.insurers
      Fixtures.empty_network Fixtures.scenario true 3 = Some (r, final)
    /\ Simulation.run_simulation Fixtures.sqrt6 Fixtures.insurers
         Fixtures.empty_network Fixtures.scenario false 3 = Some (r', final')
    /\ reported_system_wide r' <= reported_system_wide r.
Proof.
  destruct (Simulation.run_simulation Fixtures.sqrt6 Fixtures.insurers
              Fixtures.empty_network Fixtures.scenario true 3)
    as [[r final]|] eqn:E; [|vm_compute in E; discriminate].
  assert (Hwf : Forall wf_agent Fixtures.insurers).
  { vm_compute.
    repeat first [apply Forall_cons | apply Forall_nil | split | discriminate
                 | intro]. }
  destruct (@feedback_never_lowers_system_wide Fixtures.sqrt6 Fixtures.insurers
              Fixtures.empty_network Fixtures.scenario 3 r final
              sqrt6_ge_one Hwf (le_S _ _ (le_S _ _ (le_n 1))) E)
    as (r' & final' & E' & _ & Hle).
  exists r, final, r', final'.
  split; [reflexivity|]. split; [exact E' | exact Hle].
Defined.

(** ** C2: the balance identities on a day of a run *)















